(** * Compliance aggregation and trend analysis of backend/server.py

    A shallow embedding of the request handlers of [backend/server.py]
    (the session recorder [receive_bluetooth_data], the aggregators
    [get_patient_compliance], [calculate_usage_trend],
    [get_patient_analytics] and the roster [get_doctor_patients]) and the
    properties the specification states about them.

    Modelling conventions.
    - A [datetime] is the number of microseconds since [datetime.min]
      (0001-01-01T00:00:00); a [timedelta] is a number of microseconds.
      Both carry Python's range checks, which raise [OverflowError].
    - [strftime("%Y-%m-%d")] is injective on calendar days; a date key is
      modelled by the day ordinal it renders.
    - Python's true division, [min] and [round] on numbers are modelled
      over the rationals [Q]: binary64 rounding error is not modelled.
    - A MongoDB collection is the list of its documents in insertion
      order; [find] filters it in that order, [sort] is a stable sort,
      [to_list(n)] keeps the first [n] documents, [find_one] the first
      match, [update_one] rewrites the first match, [insert_one] appends.
      Documents are returned as they were inserted.
    - [datetime.utcnow()], [uuid.uuid4()] and the availability of the
      database are the environment: the k-th reading of the clock, the
      k-th identifier drawn and whether the k-th database operation
      fails are given by an [Env]; the handlers thread the counters. *)

From Stdlib Require Import ZArith QArith Qround Qabs Qminmax Lia String List.
From stdpp Require Import base option list gmap strings pretty sorting.

Local Open Scope Z_scope.

(** ** Exceptions *)

Inductive exn : Type :=
| HTTPException (status_code : Z)
| OverflowError
| KeyError (key : string)
| ServerSelectionTimeoutError
(* Not a Python exception: the bound of the model's loop counter, which
   [get_patient_analytics_fuel] shows is never reached. *)
| OutOfFuel.

Inductive result (A : Type) : Type :=
| Ok (a : A)
| Raise (e : exn).
Arguments Ok {A} a.
Arguments Raise {A} e.

(** ** Dates *)

Definition datetime := Z.
Definition timedelta := Z.

Definition us_per_minute : Z := 60000000.
Definition us_per_day : Z := 86400000000.
(* date.max.toordinal() = 3652059 *)
Definition datetime_max : datetime := 3652059 * us_per_day - 1.
Definition timedelta_max_days : Z := 999999999.

(* timedelta(days=d, minutes=m) *)
Definition mk_timedelta (days minutes : Z) : result timedelta :=
  let us := days * us_per_day + minutes * us_per_minute in
  if decide (Z.abs (us `div` us_per_day) ≤ timedelta_max_days)
  then Ok us else Raise OverflowError.

Definition datetime_in_range (t : Z) : Prop := 0 ≤ t ≤ datetime_max.

(* dt - delta and dt + delta *)
Definition datetime_sub (t : datetime) (d : timedelta) : result datetime :=
  if decide (datetime_in_range (t - d)) then Ok (t - d) else Raise OverflowError.
Definition datetime_add (t : datetime) (d : timedelta) : result datetime :=
  if decide (datetime_in_range (t + d)) then Ok (t + d) else Raise OverflowError.

(* strftime("%Y-%m-%d"), as the day ordinal *)
Definition date_key (t : datetime) : Z := t `div` us_per_day.

(** ** Numbers *)

(* a / b on ints *)
Definition true_div (a b : Z) : Q := (inject_Z a / inject_Z b)%Q.

(* min(a, b): the first argument unless the second is smaller *)
Definition py_min (a b : Q) : Q :=
  if Qlt_le_dec b a then b else a.

(* round-half-even to an integer *)
Definition round_half_even (x : Q) : Z :=
  let f := Qfloor x in
  match ((x - inject_Z f) ?= 1 # 2)%Q with
  | Lt => f
  | Gt => f + 1
  | Eq => if Z.even f then f else f + 1
  end.

(* round(x, ndigits) *)
Definition py_round (x : Q) (ndigits : nat) : Q :=
  let p := inject_Z (10 ^ Z.of_nat ndigits) in
  (inject_Z (round_half_even (x * p)) / p)%Q.

(* sum(...) over ints *)
Definition py_sum (l : list Z) : Z := foldl Z.add 0 l.

(* len(...) *)
Definition len {A} (l : list A) : Z := Z.of_nat (length l).

(** ** Models (pydantic classes and response dictionaries) *)

Module User.
Record t : Type := mk {
  id : string;
  name : string;
  user_type : string;
  patient_id : option string;
  doctor_id : option string;
  created_at : datetime
}.
End User.

Module BluetoothDevice.
Record t : Type := mk {
  id : string;
  patient_id : string;
  device_name : string;
  device_id : string;
  is_connected : bool;
  last_connected : option datetime;
  created_at : datetime
}.
End BluetoothDevice.

Module DeviceUsageSession.
Record t : Type := mk {
  id : string;
  patient_id : string;
  device_id : string;
  start_time : datetime;
  end_time : option datetime;
  duration_minutes : Z;
  time_of_day : string;
  compliance_score : Q;
  created_at : datetime
}.
End DeviceUsageSession.

Module BluetoothData.
Record t : Type := mk {
  patient_id : string;
  device_id : string;
  usage_duration : Z;
  time_of_day : string;
  timestamp : datetime
}.
End BluetoothData.

Module PatientCompliance.
Record t : Type := mk {
  patient_id : string;
  patient_name : string;
  total_sessions : Z;
  total_duration_minutes : Z;
  average_daily_usage : Q;
  compliance_percentage : Q;
  last_session : option datetime;
  device_connected : bool
}.
End PatientCompliance.

(* {"direction": ..., "percentage": ...} *)
Module UsageTrend.
Record t : Type := mk {
  direction : string;
  percentage : Q
}.
End UsageTrend.

(* The dictionary returned by get_patient_compliance. *)
Module Compliance.
Record t : Type := mk {
  patient_id : string;
  patient_name : string;
  total_sessions : Z;
  total_duration_minutes : Z;
  average_daily_usage : Q;
  average_daily_hours : Q;
  compliance_percentage : Q;
  last_session : option datetime;
  device_connected : bool;
  usage_trend : UsageTrend.t
}.
End Compliance.

(* One entry of "time_series". *)
Module DailyUsagePoint.
Record t : Type := mk {
  date : Z;
  usage_minutes : Z;
  usage_hours : Q
}.
End DailyUsagePoint.

(* The dictionary returned by get_patient_analytics. *)
Module Analytics.
Record t : Type := mk {
  time_series : list DailyUsagePoint.t;
  day_night_distribution : gmap string Z;
  total_days : Z;
  active_days : Z;
  average_daily_minutes : Q;
  average_daily_hours : Q
}.
End Analytics.

(* An element of the list returned by get_doctor_patients: the dictionary
   of get_patient_compliance, or the PatientCompliance built by the
   except branch. *)
Inductive RosterEntry : Type :=
| Computed (c : Compliance.t)
| Fallback (p : PatientCompliance.t).

(** ** The world: collections, connection manager, environment counters *)

Record Env : Type := {
  utcnow_at : nat → datetime;
  uuid4_at : nat → string;
  db_down : nat → bool
}.

Record World : Type := mkWorld {
  users : list User.t;
  bluetooth_devices : list BluetoothDevice.t;
  usage_sessions : list DeviceUsageSession.t;
  active_connections : gset string;
  sent_messages : list (string * DeviceUsageSession.t);
  clock_reads : nat;
  uuid_draws : nat;
  db_ops : nat
}.

(** ** The handler monad: state, and exceptions that keep the state *)

Definition M (A : Type) : Type := World → result A * World.

Definition ret {A} (a : A) : M A := λ w, (Ok a, w).
Definition raise {A} (e : exn) : M A := λ w, (Raise e, w).
Definition bind {A B} (m : M A) (k : A → M B) : M B :=
  λ w, match m w with
       | (Ok a, w') => k a w'
       | (Raise e, w') => (Raise e, w')
       end.
Definition lift {A} (r : result A) : M A := λ w, (r, w).

(* try: m / except: h *)
Definition try_except {A} (m : M A) (h : M A) : M A :=
  λ w, match m w with
       | (Ok a, w') => (Ok a, w')
       | (Raise _, w') => h w'
       end.

Notation "'let*' x ':=' m 'in' k" := (bind m (λ x, k))
  (at level 10, x name, m at level 100, k at level 200).
Notation "m ';;' k" := (bind m (λ _, k))
  (at level 100, k at level 200, right associativity).

(* Ascending order of the sort key "created_at". *)
Definition created_at_le (a b : DeviceUsageSession.t) : Prop :=
  (DeviceUsageSession.created_at a <= DeviceUsageSession.created_at b)%Z.

#[global] Instance created_at_le_dec : RelDecision created_at_le.
Proof. intros a b. unfold created_at_le. apply Z_le_dec. Defined.

Section Server.
Variable env : Env.

(* datetime.utcnow() *)
Definition utcnow : M datetime := λ w,
  (Ok (utcnow_at env (clock_reads w)),
   mkWorld (users w) (bluetooth_devices w) (usage_sessions w)
     (active_connections w) (sent_messages w)
     (S (clock_reads w)) (uuid_draws w) (db_ops w)).

(* str(uuid.uuid4()) *)
Definition uuid4 : M string := λ w,
  (Ok (uuid4_at env (uuid_draws w)),
   mkWorld (users w) (bluetooth_devices w) (usage_sessions w)
     (active_connections w) (sent_messages w)
     (clock_reads w) (S (uuid_draws w)) (db_ops w)).

(* One round trip to the database: it counts, and it raises when the
   database cannot be reached. *)
Definition db_roundtrip : M unit := λ w,
  let w' := mkWorld (users w) (bluetooth_devices w) (usage_sessions w)
              (active_connections w) (sent_messages w)
              (clock_reads w) (uuid_draws w) (S (db_ops w)) in
  if db_down env (db_ops w) then (Raise ServerSelectionTimeoutError, w')
  else (Ok tt, w').

Definition read_world {A} (f : World → A) : M A := λ w, (Ok (f w), w).

Definition set_usage_sessions (l : list DeviceUsageSession.t) : M unit := λ w,
  (Ok tt, mkWorld (users w) (bluetooth_devices w) l
            (active_connections w) (sent_messages w)
            (clock_reads w) (uuid_draws w) (db_ops w)).

Definition set_bluetooth_devices (l : list BluetoothDevice.t) : M unit := λ w,
  (Ok tt, mkWorld (users w) l (usage_sessions w)
            (active_connections w) (sent_messages w)
            (clock_reads w) (uuid_draws w) (db_ops w)).

Definition set_sent_messages (l : list (string * DeviceUsageSession.t)) : M unit := λ w,
  (Ok tt, mkWorld (users w) (bluetooth_devices w) (usage_sessions w)
            (active_connections w) l
            (clock_reads w) (uuid_draws w) (db_ops w)).

(** *** Collection operations *)

(* db.usage_sessions.insert_one(doc) *)
Definition usage_sessions_insert_one (doc : DeviceUsageSession.t) : M unit :=
  db_roundtrip ;;
  let* l := read_world usage_sessions in
  set_usage_sessions (l ++ [doc]).

(* db.usage_sessions.find(filter).to_list(n) *)
Definition usage_sessions_find (flt : DeviceUsageSession.t → bool) (n : nat)
  : M (list DeviceUsageSession.t) :=
  db_roundtrip ;;
  let* l := read_world usage_sessions in
  ret (take n (List.filter flt l)).

(* db.usage_sessions.find(filter).sort("created_at", 1).to_list(n) *)
Definition usage_sessions_find_sorted (flt : DeviceUsageSession.t → bool) (n : nat)
  : M (list DeviceUsageSession.t) :=
  db_roundtrip ;;
  let* l := read_world usage_sessions in
  ret (take n (merge_sort created_at_le (List.filter flt l))).

(* db.users.find_one(filter) *)
Definition users_find_one (flt : User.t → bool) : M (option User.t) :=
  db_roundtrip ;;
  let* l := read_world users in
  ret (head (List.filter flt l)).

(* db.users.find(filter).to_list(n) *)
Definition users_find (flt : User.t → bool) (n : nat) : M (list User.t) :=
  db_roundtrip ;;
  let* l := read_world users in
  ret (take n (List.filter flt l)).

(* db.bluetooth_devices.find_one(filter) *)
Definition bluetooth_devices_find_one (flt : BluetoothDevice.t → bool)
  : M (option BluetoothDevice.t) :=
  db_roundtrip ;;
  let* l := read_world bluetooth_devices in
  ret (head (List.filter flt l)).

(* The first document matching the filter is rewritten; no document is
   created when none matches (no upsert option is passed). *)
Fixpoint update_first (flt : BluetoothDevice.t → bool)
    (upd : BluetoothDevice.t → BluetoothDevice.t)
    (l : list BluetoothDevice.t) : list BluetoothDevice.t :=
  match l with
  | [] => []
  | d :: l' => if flt d then upd d :: l' else d :: update_first flt upd l'
  end.

(* db.bluetooth_devices.update_one(filter, {"$set": ...}) *)
Definition bluetooth_devices_update_one (flt : BluetoothDevice.t → bool)
    (upd : BluetoothDevice.t → BluetoothDevice.t) : M unit :=
  db_roundtrip ;;
  let* l := read_world bluetooth_devices in
  set_bluetooth_devices (update_first flt upd l).

(* manager.send_personal_message(message, user_id) *)
Definition send_personal_message (message : DeviceUsageSession.t) (user_id : string)
  : M unit :=
  let* conns := read_world active_connections in
  if decide (user_id ∈ conns) then
    let* out := read_world sent_messages in
    set_sent_messages (out ++ [(user_id, message)])
  else ret tt.

(** *** POST /bluetooth/data *)

(* The request body, as the BluetoothData model types it. *)
Record BluetoothBody : Type := {
  body_patient_id : string;
  body_device_id : string;
  body_usage_duration : Z;
  body_time_of_day : string;
  body_timestamp : option datetime
}.

(* A BluetoothData built from the body: the fields are typed, nothing else is checked;
   an unset timestamp is filled by the default factory. *)
Definition BluetoothData_validate (body : BluetoothBody) : M BluetoothData.t :=
  let* timestamp :=
    match body_timestamp body with
    | Some t => ret t
    | None => utcnow
    end in
  ret (BluetoothData.mk (body_patient_id body) (body_device_id body)
         (body_usage_duration body) (body_time_of_day body) timestamp).

(* {"$set": {"is_connected": True, "last_connected": now}} *)
Definition set_connected (now : datetime) (d : BluetoothDevice.t) : BluetoothDevice.t :=
  BluetoothDevice.mk (BluetoothDevice.id d) (BluetoothDevice.patient_id d)
    (BluetoothDevice.device_name d) (BluetoothDevice.device_id d)
    true (Some now) (BluetoothDevice.created_at d).

(* {"device_id": data.device_id, "patient_id": data.patient_id} *)
Definition device_of (data : BluetoothData.t) (d : BluetoothDevice.t) : bool :=
  bool_decide (BluetoothDevice.device_id d = BluetoothData.device_id data)
  && bool_decide (BluetoothDevice.patient_id d = BluetoothData.patient_id data).

(* min(100, (data.usage_duration / 480) * 100) *)
Definition compliance_score_of (usage_duration : Z) : Q :=
  py_min 100 (true_div usage_duration 480 * 100)%Q.

Definition receive_bluetooth_data (data : BluetoothData.t) : M DeviceUsageSession.t :=
  let* delta := lift (mk_timedelta 0 (BluetoothData.usage_duration data)) in
  let* start_time := lift (datetime_sub (BluetoothData.timestamp data) delta) in
  let compliance_score := compliance_score_of (BluetoothData.usage_duration data) in
  let* id := uuid4 in
  let* created_at := utcnow in
  let session :=
    DeviceUsageSession.mk id
      (BluetoothData.patient_id data)
      (BluetoothData.device_id data)
      start_time
      (Some (BluetoothData.timestamp data))
      (BluetoothData.usage_duration data)
      (BluetoothData.time_of_day data)
      compliance_score
      created_at in
  usage_sessions_insert_one session ;;
  let* now := utcnow in
  bluetooth_devices_update_one (device_of data) (set_connected now) ;;
  send_personal_message session (BluetoothData.patient_id data) ;;
  ret session.

Definition post_bluetooth_data (body : BluetoothBody) : M DeviceUsageSession.t :=
  let* data := BluetoothData_validate body in
  receive_bluetooth_data data.

(** *** GET /patients/{patient_id}/compliance *)

Definition total_duration_of (sessions : list DeviceUsageSession.t) : Z :=
  py_sum (map DeviceUsageSession.duration_minutes sessions).

(* max(session["created_at"] for session in sessions) if sessions else None;
   created_at is stored as a datetime, never as a string. *)
Definition last_session_of (sessions : list DeviceUsageSession.t) : option datetime :=
  match sessions with
  | [] => None
  | s :: rest =>
      Some (foldl (λ m x, if decide (m < x) then x else m)
              (DeviceUsageSession.created_at s)
              (map DeviceUsageSession.created_at rest))
  end.

(* The classification that ends calculate_usage_trend (from
   "if prev_week_duration == 0" to its last return). *)
Definition classify_trend (last_week_duration prev_week_duration : Z) : UsageTrend.t :=
  if decide (prev_week_duration = 0) then
    if decide (last_week_duration > 0)
    then UsageTrend.mk "increasing" 100
    else UsageTrend.mk "stable" 0
  else
    let change_percentage :=
      (true_div (last_week_duration - prev_week_duration) prev_week_duration * 100)%Q in
    if Qlt_le_dec 10 change_percentage
    then UsageTrend.mk "increasing" (py_round change_percentage 1)
    else if Qlt_le_dec change_percentage (-10)
    then UsageTrend.mk "decreasing" (py_round (Qabs change_percentage) 1)
    else UsageTrend.mk "stable" (py_round (Qabs change_percentage) 1).

(* {"patient_id": patient_id, "created_at": {"$gte": start}} *)
Definition since (patient_id : string) (start : datetime) (s : DeviceUsageSession.t) : bool :=
  bool_decide (DeviceUsageSession.patient_id s = patient_id)
  && (start <=? DeviceUsageSession.created_at s).

(* {"patient_id": patient_id, "created_at": {"$gte": start, "$lt": stop}} *)
Definition between (patient_id : string) (start stop : datetime)
    (s : DeviceUsageSession.t) : bool :=
  bool_decide (DeviceUsageSession.patient_id s = patient_id)
  && (start <=? DeviceUsageSession.created_at s)
  && (DeviceUsageSession.created_at s <? stop).

Definition calculate_usage_trend (patient_id : string) : M UsageTrend.t :=
  let* now := utcnow in
  let* d7 := lift (mk_timedelta 7 0) in
  let* last_week_start := lift (datetime_sub now d7) in
  let* last_week_sessions :=
    usage_sessions_find (since patient_id last_week_start) 1000 in
  let* d14 := lift (mk_timedelta 14 0) in
  let* prev_week_start := lift (datetime_sub now d14) in
  let* d7' := lift (mk_timedelta 7 0) in
  let* prev_week_end := lift (datetime_sub now d7') in
  let* prev_week_sessions :=
    usage_sessions_find (between patient_id prev_week_start prev_week_end) 1000 in
  let last_week_duration := total_duration_of last_week_sessions in
  let prev_week_duration := total_duration_of prev_week_sessions in
  ret (classify_trend last_week_duration prev_week_duration).

Definition get_patient_compliance (patient_id : string) : M Compliance.t :=
  let* user := users_find_one (λ u, bool_decide (User.id u = patient_id)) in
  match user with
  | None => raise (HTTPException 404)
  | Some user =>
      let* now := utcnow in
      let* d30 := lift (mk_timedelta 30 0) in
      let* start_date := lift (datetime_sub now d30) in
      let* sessions := usage_sessions_find (since patient_id start_date) 1000 in
      let* device :=
        bluetooth_devices_find_one
          (λ d, bool_decide (BluetoothDevice.patient_id d = patient_id)) in
      let device_connected :=
        match device with
        | Some d => BluetoothDevice.is_connected d
        | None => false
        end in
      let total_duration := total_duration_of sessions in
      let total_sessions := len sessions in
      let average_daily_usage_minutes :=
        if decide (total_duration > 0) then true_div total_duration 30 else 0%Q in
      let average_daily_hours := (average_daily_usage_minutes / 60)%Q in
      let target_minutes_per_month := 30 * 8 * 60 in
      let compliance_percentage :=
        py_min 100 (true_div total_duration target_minutes_per_month * 100)%Q in
      let last_session := last_session_of sessions in
      let* trend := calculate_usage_trend patient_id in
      ret (Compliance.mk patient_id (User.name user) total_sessions total_duration
             average_daily_usage_minutes (py_round average_daily_hours 2)
             compliance_percentage last_session device_connected trend)
  end.

(** *** GET /patients/{patient_id}/analytics *)

(* The for loop over the sessions: daily_usage is a defaultdict(int),
   day_night_usage a plain dict whose missing key raises KeyError. *)
Fixpoint bucket_sessions (sessions : list DeviceUsageSession.t)
    (daily_usage : gmap Z Z) (day_night_usage : gmap string Z)
  : result (gmap Z Z * gmap string Z) :=
  match sessions with
  | [] => Ok (daily_usage, day_night_usage)
  | session :: rest =>
      let key := date_key (DeviceUsageSession.created_at session) in
      let daily_usage :=
        <[key := default 0 (daily_usage !! key)
                 + DeviceUsageSession.duration_minutes session]> daily_usage in
      let tod := DeviceUsageSession.time_of_day session in
      match day_night_usage !! tod with
      | None => Raise (KeyError tod)
      | Some v =>
          bucket_sessions rest daily_usage
            (<[tod := v + DeviceUsageSession.duration_minutes session]> day_night_usage)
      end
  end.

(* The while loop that builds time_series. The clock is read at every
   test. Every iteration adds a day to current_date, and the addition
   raises OverflowError past datetime.max: fuel counts the iterations. *)
Fixpoint time_series_loop (fuel : nat) (daily_usage : gmap Z Z)
    (current_date : datetime) (time_series : list DailyUsagePoint.t)
  : M (list DailyUsagePoint.t) :=
  match fuel with
  | O => raise OutOfFuel
  | S fuel' =>
      let* now := utcnow in
      if decide (current_date ≤ now) then
        let key := date_key current_date in
        let point :=
          DailyUsagePoint.mk key
            (default 0 (daily_usage !! key))
            (py_round (true_div (default 0 (daily_usage !! key)) 60) 2) in
        let* next := lift (datetime_add current_date us_per_day) in
        time_series_loop fuel' daily_usage next (time_series ++ [point])
      else ret time_series
  end.

(* The days left before datetime.max, plus two tests. *)
Definition time_series_fuel (start_date : datetime) : nat :=
  S (S (Z.to_nat ((datetime_max - start_date) `div` us_per_day))).

(* daily_usage.values() *)
Definition values (m : gmap Z Z) : list Z := (map_to_list m).*2.

Definition get_patient_analytics (patient_id : string) (days : Z) : M Analytics.t :=
  let* now := utcnow in
  let* delta := lift (mk_timedelta days 0) in
  let* start_date := lift (datetime_sub now delta) in
  let* sessions := usage_sessions_find_sorted (since patient_id start_date) 1000 in
  let* buckets :=
    lift (bucket_sessions sessions ∅ (<["day" := 0]> (<["night" := 0]> ∅))) in
  let daily_usage := buckets.1 in
  let day_night_usage := buckets.2 in
  let* time_series :=
    time_series_loop (time_series_fuel start_date) daily_usage start_date [] in
  ret (Analytics.mk time_series day_night_usage
         (Z.of_nat (size daily_usage))
         (len (List.filter (λ d, bool_decide (d > 0)) (values daily_usage)))
         (true_div (py_sum (values daily_usage))
            (Z.max (Z.of_nat (size daily_usage)) 1))
         (py_round (true_div (py_sum (values daily_usage))
                      (Z.max (Z.of_nat (size daily_usage)) 1) / 60)%Q 2)).

(** *** GET /doctors/{doctor_id}/patients *)

(* The PatientCompliance of the except branch. *)
Definition no_data (patient : User.t) : PatientCompliance.t :=
  PatientCompliance.mk (User.id patient) (User.name patient) 0 0 0 0 None false.

(* The for loop over the patients. *)
Fixpoint roster_loop (patients : list User.t) (patient_compliance : list RosterEntry)
  : M (list RosterEntry) :=
  match patients with
  | [] => ret patient_compliance
  | patient :: rest =>
      let* entry :=
        try_except
          (let* compliance_response := get_patient_compliance (User.id patient) in
           ret (Computed compliance_response))
          (ret (Fallback (no_data patient))) in
      roster_loop rest (patient_compliance ++ [entry])
  end.

Definition get_doctor_patients (doctor_id : string) : M (list RosterEntry) :=
  let* patients := users_find (λ u, bool_decide (User.user_type u = "patient")) 100 in
  roster_loop patients [].

End Server.


(** ** The other routes: login, device registration, listings *)

Module UserLogin.
Record t : Type := mk {
  name : string;
  patient_id : option string;
  doctor_id : option string;
  user_type : string
}.
End UserLogin.

(* {"success": True, "user": user.dict(), "token": f"user_{user.id}"} *)
Module LoginResponse.
Record t : Type := mk {
  success : bool;
  user : User.t;
  token : string
}.
End LoginResponse.

(* The body of POST /patients/{patient_id}/devices: the keys "name" and
   "id" of device_data, when present. *)
Module DeviceData.
Record t : Type := mk {
  name : option string;
  id : option string
}.
End DeviceData.

(* Truth value of an Optional[str]: None and the empty string are false. *)
Definition truthy (o : option string) : bool :=
  match o with
  | Some s => negb (bool_decide (s = ""))
  | None => false
  end.

(* Descending order of the sort key "created_at". *)
Definition created_at_ge (a b : DeviceUsageSession.t) : Prop :=
  (DeviceUsageSession.created_at b <= DeviceUsageSession.created_at a)%Z.

#[global] Instance created_at_ge_dec : RelDecision created_at_ge.
Proof. intros a b. unfold created_at_ge. apply Z_le_dec. Defined.

Section Routes.
Variable env : Env.

Definition set_users (l : list User.t) : M unit := λ w,
  (Ok tt, mkWorld l (bluetooth_devices w) (usage_sessions w)
            (active_connections w) (sent_messages w)
            (clock_reads w) (uuid_draws w) (db_ops w)).

(* db.users.insert_one(doc) *)
Definition users_insert_one (doc : User.t) : M unit :=
  db_roundtrip env ;;
  let* l := read_world users in
  set_users (l ++ [doc]).

(* db.bluetooth_devices.insert_one(doc) *)
Definition bluetooth_devices_insert_one (doc : BluetoothDevice.t) : M unit :=
  db_roundtrip env ;;
  let* l := read_world bluetooth_devices in
  set_bluetooth_devices (l ++ [doc]).

(* db.bluetooth_devices.find(filter).to_list(n) *)
Definition bluetooth_devices_find (flt : BluetoothDevice.t → bool) (n : nat)
  : M (list BluetoothDevice.t) :=
  db_roundtrip env ;;
  let* l := read_world bluetooth_devices in
  ret (take n (List.filter flt l)).

(* db.usage_sessions.find(filter).sort("created_at", -1).to_list(n) *)
Definition usage_sessions_find_sorted_desc (flt : DeviceUsageSession.t → bool) (n : nat)
  : M (list DeviceUsageSession.t) :=
  db_roundtrip env ;;
  let* l := read_world usage_sessions in
  ret (take n (merge_sort created_at_ge (List.filter flt l))).

(* {"name": ..., "patient_id": ..., "user_type": "patient"} *)
Definition patient_login_filter (login_data : UserLogin.t) (u : User.t) : bool :=
  bool_decide (User.name u = UserLogin.name login_data)
  && bool_decide (User.patient_id u = UserLogin.patient_id login_data)
  && bool_decide (User.user_type u = "patient").

(* {"name": ..., "doctor_id": ..., "user_type": "doctor"} *)
Definition doctor_login_filter (login_data : UserLogin.t) (u : User.t) : bool :=
  bool_decide (User.name u = UserLogin.name login_data)
  && bool_decide (User.doctor_id u = UserLogin.doctor_id login_data)
  && bool_decide (User.user_type u = "doctor").

Definition get_user_by_login (login_data : UserLogin.t) : M (option User.t) :=
  if bool_decide (UserLogin.user_type login_data = "patient")
     && truthy (UserLogin.patient_id login_data)
  then users_find_one env (patient_login_filter login_data)
  else if bool_decide (UserLogin.user_type login_data = "doctor")
          && truthy (UserLogin.doctor_id login_data)
  then users_find_one env (doctor_login_filter login_data)
  else ret None.

(* POST /auth/login *)
Definition login (login_data : UserLogin.t) : M LoginResponse.t :=
  let* found := get_user_by_login login_data in
  let* user :=
    match found with
    | Some user => ret user
    | None =>
        let* id := uuid4 env in
        let* created_at := utcnow env in
        let user :=
          User.mk id (UserLogin.name login_data) (UserLogin.user_type login_data)
            (UserLogin.patient_id login_data) (UserLogin.doctor_id login_data)
            created_at in
        users_insert_one user ;;
        ret user
    end in
  ret (LoginResponse.mk true user (String.append "user_" (User.id user))).

(* GET /patients/{patient_id}/devices *)
Definition get_patient_devices (patient_id : string) : M (list BluetoothDevice.t) :=
  bluetooth_devices_find
    (λ d, bool_decide (BluetoothDevice.patient_id d = patient_id)) 100.

(* POST /patients/{patient_id}/devices. The default of
   device_data.get("id", str(uuid.uuid4())) is drawn whether or not the
   key is present; last_connected is read before the model fills id and
   created_at. *)
Definition add_patient_device (patient_id : string) (device_data : DeviceData.t)
  : M BluetoothDevice.t :=
  let device_name := default "ESP Device" (DeviceData.name device_data) in
  let* fresh := uuid4 env in
  let device_id := default fresh (DeviceData.id device_data) in
  let* last_connected := utcnow env in
  let* id := uuid4 env in
  let* created_at := utcnow env in
  let device :=
    BluetoothDevice.mk id patient_id device_name device_id true
      (Some last_connected) created_at in
  bluetooth_devices_insert_one device ;;
  ret device.

(* GET /patients/{patient_id}/usage *)
Definition get_patient_usage (patient_id : string) (days : Z)
  : M (list DeviceUsageSession.t) :=
  let* now := utcnow env in
  let* delta := lift (mk_timedelta days 0) in
  let* start_date := lift (datetime_sub now delta) in
  usage_sessions_find_sorted_desc (since patient_id start_date) 1000.

End Routes.

(** ** The connection manager and the websocket route

    A WebSocket is known by a handle; [delivered] is the trace of the
    texts sent, with the socket each went to. A message is what
    json.dumps renders; the frames a client sends either parse as JSON or
    do not. *)

Module ConnectionManager.

Definition WebSocket := nat.

Record t (Message : Type) : Type := mk {
  active_connections : gmap string WebSocket;
  delivered : list (WebSocket * Message)
}.
Arguments mk {Message} _ _.
Arguments active_connections {Message} _.
Arguments delivered {Message} _.

(* await websocket.accept(); self.active_connections[user_id] = websocket *)
Definition connect {Message} (websocket : WebSocket) (user_id : string)
    (m : t Message) : t Message :=
  mk (<[user_id := websocket]> (active_connections m)) (delivered m).

(* if user_id in self.active_connections: del self.active_connections[user_id] *)
Definition disconnect {Message} (user_id : string) (m : t Message) : t Message :=
  match active_connections m !! user_id with
  | Some _ => mk (delete user_id (active_connections m)) (delivered m)
  | None => m
  end.

(* if user_id in self.active_connections:
     await self.active_connections[user_id].send_text(json.dumps(message)) *)
Definition send_personal_message {Message} (message : Message) (user_id : string)
    (m : t Message) : t Message :=
  match active_connections m !! user_id with
  | Some websocket => mk (active_connections m) (delivered m ++ [(websocket, message)])
  | None => m
  end.

(* A text frame received on the socket: JSON or not. *)
Inductive frame (Message : Type) : Type :=
| Json (message : Message)
| NotJson.
Arguments Json {Message} _.
Arguments NotJson {Message}.

(* How the handler of a socket ends: the client went away
   (WebSocketDisconnect, caught), or json.loads raised (not caught). *)
Inductive outcome : Type :=
| Disconnected
| JSONDecodeError.

(* The while True loop of websocket_endpoint over the frames the client
   sends before it goes away; [echo] builds {"type": "echo", "data": _}. *)
Fixpoint receive_loop {Message} (echo : Message → Message) (user_id : string)
    (frames : list (frame Message)) (m : t Message) : outcome * t Message :=
  match frames with
  | [] => (Disconnected, disconnect user_id m)
  | Json message :: rest =>
      receive_loop echo user_id rest (send_personal_message (echo message) user_id m)
  | NotJson :: _ => (JSONDecodeError, m)
  end.

Definition websocket_endpoint {Message} (echo : Message → Message)
    (websocket : WebSocket) (user_id : string)
    (frames : list (frame Message)) (m : t Message) : outcome * t Message :=
  receive_loop echo user_id frames (connect websocket user_id m).

End ConnectionManager.
(** ** The environment a request runs in *)

(* The next [k] database operations succeed. *)
Definition db_up (env : Env) (w : World) (k : nat) : Prop :=
  ∀ i : nat, (i < k)%nat → db_down env (db_ops w + i) = false.

(* timedelta(minutes=usage_duration) and timestamp - timedelta are in range. *)
Definition start_time_representable (data : BluetoothData.t) : Prop :=
  Z.abs ((BluetoothData.usage_duration data * us_per_minute) `div` us_per_day)
    ≤ timedelta_max_days
  ∧ datetime_in_range
      (BluetoothData.timestamp data - BluetoothData.usage_duration data * us_per_minute).

(* The session receive_bluetooth_data builds from [data] in world [w]. *)
Definition recorded_session (env : Env) (data : BluetoothData.t) (w : World)
  : DeviceUsageSession.t :=
  DeviceUsageSession.mk
    (uuid4_at env (uuid_draws w))
    (BluetoothData.patient_id data)
    (BluetoothData.device_id data)
    (BluetoothData.timestamp data - BluetoothData.usage_duration data * us_per_minute)
    (Some (BluetoothData.timestamp data))
    (BluetoothData.usage_duration data)
    (BluetoothData.time_of_day data)
    (compliance_score_of (BluetoothData.usage_duration data))
    (utcnow_at env (clock_reads w)).


(* The BluetoothData the validation step builds from a request body. *)
Definition validated_data (env : Env) (body : BluetoothBody) (w : World)
  : BluetoothData.t :=
  BluetoothData.mk (body_patient_id body) (body_device_id body)
    (body_usage_duration body) (body_time_of_day body)
    (default (utcnow_at env (clock_reads w)) (body_timestamp body)).

(* The world after the validation step: only the clock may have been read. *)
Definition validated_world (body : BluetoothBody) (w : World) : World :=
  match body_timestamp body with
  | Some _ => w
  | None =>
      mkWorld (users w) (bluetooth_devices w) (usage_sessions w)
        (active_connections w) (sent_messages w)
        (S (clock_reads w)) (uuid_draws w) (db_ops w)
  end.

(* What an input validation would do: the call raises and neither the
   session store nor the device registry changes. *)
Definition rejected_without_write (env : Env) (body : BluetoothBody) (w : World) : Prop :=
  ∃ e w', post_bluetooth_data env body w = (Raise e, w')
    ∧ usage_sessions w' = usage_sessions w
    ∧ bluetooth_devices w' = bluetooth_devices w.

(* A device record for the key (device_id, patient_id), marked connected at [now]. *)
Definition connected_record (data : BluetoothData.t) (now : datetime)
    (d : BluetoothDevice.t) : Prop :=
  BluetoothDevice.device_id d = BluetoothData.device_id data
  ∧ BluetoothDevice.patient_id d = BluetoothData.patient_id data
  ∧ BluetoothDevice.is_connected d = true
  ∧ BluetoothDevice.last_connected d = Some now.

(** ** Concrete environments and worlds *)

(* 2021-07-27T10:00:00 *)
Definition morning : datetime := 738000 * us_per_day + 36000000000.

(* A clock that advances by a millisecond per reading; the database is up. *)
Definition env_up : Env :=
  {| utcnow_at := λ k, morning + Z.of_nat k * 1000;
     uuid4_at := λ k, String.append "session-" (pretty k);
     db_down := λ _, false |}.

Definition ann : User.t := User.mk "u-ann" "Ann" "patient" (Some "P-1") None 0.
Definition bob : User.t := User.mk "u-bob" "Bob" "patient" (Some "P-2") None 0.
Definition cat : User.t := User.mk "u-cat" "Cat" "patient" (Some "P-3") None 0.
Definition dr_dee : User.t := User.mk "u-dee" "Dee" "doctor" None (Some "D-1") 0.

(* Registered the day before [morning]: a registration marks the device
   connected. *)
Definition ann_device : BluetoothDevice.t :=
  BluetoothDevice.mk "d-1" "u-ann" "ESP Device" "esp-1" true
    (Some (morning - us_per_day)) (morning - us_per_day).

(* Ann is logged in and has registered a device; nothing is recorded yet. *)
Definition world_registered : World :=
  mkWorld [ann; dr_dee] [ann_device] [] ∅ [] 0 0 0.

(* Ann is logged in and has no device. *)
Definition world_no_device : World :=
  mkWorld [ann; dr_dee] [] [] ∅ [] 0 0 0.

Definition two_hours : BluetoothData.t :=
  BluetoothData.mk "u-ann" "esp-1" 120 "day" morning.

Definition bad_body : BluetoothBody :=
  {| body_patient_id := "u-ann"; body_device_id := "esp-1";
     body_usage_duration := -5; body_time_of_day := "evening";
     body_timestamp := Some morning |}.

(** ** Vocabulary of the statements *)

Definition tick_clock (w : World) : World :=
  mkWorld (users w) (bluetooth_devices w) (usage_sessions w)
    (active_connections w) (sent_messages w)
    (S (clock_reads w)) (uuid_draws w) (db_ops w).

Definition tick_db (w : World) : World :=
  mkWorld (users w) (bluetooth_devices w) (usage_sessions w)
    (active_connections w) (sent_messages w)
    (clock_reads w) (uuid_draws w) (S (db_ops w)).


(* The sessions the two queries of calculate_usage_trend return when the
   clock reads [now]. *)
Definition last_week_fetched (patient_id : string) (now : datetime) (w : World)
  : list DeviceUsageSession.t :=
  take 1000 (List.filter (since patient_id (now - 7 * us_per_day)) (usage_sessions w)).

Definition prev_week_fetched (patient_id : string) (now : datetime) (w : World)
  : list DeviceUsageSession.t :=
  take 1000
    (List.filter (between patient_id (now - 14 * us_per_day) (now - 7 * us_per_day))
       (usage_sessions w)).

(* The identity find_one resolves for "id". *)
Definition resolved (patient_id : string) (w : World) : option User.t :=
  head (List.filter (λ u, bool_decide (User.id u = patient_id)) (users w)).

(* The patient's stored sessions of the 30-day window that starts at
   now - 30 days, and those of them the query returns. *)
Definition compliance_window (patient_id : string) (now : datetime) (w : World)
  : list DeviceUsageSession.t :=
  List.filter (since patient_id (now - 30 * us_per_day)) (usage_sessions w).

Definition compliance_fetched (patient_id : string) (now : datetime) (w : World)
  : list DeviceUsageSession.t :=
  take 1000 (compliance_window patient_id now w).

(* The flag of the first registry record of the patient. *)
Definition registry_flag (patient_id : string) (w : World) : bool :=
  match head (List.filter
                (λ d, bool_decide (BluetoothDevice.patient_id d = patient_id))
                (bluetooth_devices w)) with
  | Some d => BluetoothDevice.is_connected d
  | None => false
  end.

(* The dates get_patient_compliance computes are representable: the clock
   reads [now] in the handler and [now'] in calculate_usage_trend. *)
Definition compliance_dates_ok (env : Env) (w : World) : Prop :=
  datetime_in_range (utcnow_at env (clock_reads w) - 30 * us_per_day)
  ∧ datetime_in_range (utcnow_at env (S (clock_reads w)) - 14 * us_per_day)
  ∧ datetime_in_range (utcnow_at env (S (clock_reads w)) - 7 * us_per_day).

(* Two runs see the same stored state, the same clock and the same
   database availability. *)
Definition same_view (env1 env2 : Env) (w1 w2 : World) : Prop :=
  users w1 = users w2
  ∧ bluetooth_devices w1 = bluetooth_devices w2
  ∧ usage_sessions w1 = usage_sessions w2
  ∧ (∀ k : nat, utcnow_at env1 (clock_reads w1 + k) = utcnow_at env2 (clock_reads w2 + k))
  ∧ (∀ k : nat, db_down env1 (db_ops w1 + k) = db_down env2 (db_ops w2 + k)).

(* Two computations that return the same result from the same view, and
   leave the same view. *)
Definition agree {A} (env1 env2 : Env) (m1 m2 : M A) : Prop :=
  ∀ w1 w2, same_view env1 env2 w1 w2 →
    (m1 w1).1 = (m2 w2).1 ∧ same_view env1 env2 (m1 w1).2 (m2 w2).2.

(* A computation that writes to no collection. *)
Definition read_only {A} (m : M A) : Prop :=
  ∀ w, users (m w).2 = users w
       ∧ bluetooth_devices (m w).2 = bluetooth_devices w
       ∧ usage_sessions (m w).2 = usage_sessions w.

(* The world after one more report of [data]. *)
Definition after_report (env : Env) (data : BluetoothData.t) (w : World) : World :=
  (receive_bluetooth_data env data w).2.

(* Ann's device has reported a negative duration once. *)
Definition world_negative : World :=
  after_report env_up (BluetoothData.mk "u-ann" "esp-1" (-60) "day" morning)
    world_registered.

(* Ann's device has reported two hours of use 1001 times. *)
Definition world_1001 : World :=
  Nat.iter 1001 (after_report env_up two_hours) world_registered.

(* The value a handler returned, if it returned. *)
Definition value {A} (r : result A) : option A :=
  match r with
  | Ok a => Some a
  | Raise _ => None
  end.

(* Ann's device has reported two hours of use once. *)
Definition world_one_report : World := after_report env_up two_hours world_registered.

(* The stored state of [world_one_report] seen by another request: other
   connections, other counters, and a clock that reads the same times. *)
Definition world_one_report' : World :=
  mkWorld (users world_one_report) (bluetooth_devices world_one_report)
    (usage_sessions world_one_report) {[ "u-ann" ]} [] 0 7 3.

Definition env_up' : Env :=
  {| utcnow_at := λ k, morning + Z.of_nat (k + 2) * 1000;
     uuid4_at := λ k, "other";
     db_down := λ _, false |}.

(* The world after [k] more readings of the clock. *)
Definition clock_advanced (k : nat) (w : World) : World :=
  mkWorld (users w) (bluetooth_devices w) (usage_sessions w)
    (active_connections w) (sent_messages w)
    (k + clock_reads w) (uuid_draws w) (db_ops w).

(* The patient's stored sessions of the analytics window that starts at
   [start], and those of them the sorted query returns. *)
Definition analytics_window (patient_id : string) (start : datetime) (w : World)
  : list DeviceUsageSession.t :=
  List.filter (since patient_id start) (usage_sessions w).

Definition analytics_fetched (patient_id : string) (start : datetime) (w : World)
  : list DeviceUsageSession.t :=
  take 1000 (merge_sort created_at_le (analytics_window patient_id start w)).

(* {"day": 0, "night": 0} *)
Definition day_night_init : gmap string Z := <["day" := 0]> (<["night" := 0]> ∅).

Definition known_time_of_day (s : DeviceUsageSession.t) : Prop :=
  DeviceUsageSession.time_of_day s = "day" ∨ DeviceUsageSession.time_of_day s = "night".

#[global] Instance known_time_of_day_dec (s : DeviceUsageSession.t)
  : Decision (known_time_of_day s).
Proof. unfold known_time_of_day. apply _. Defined.

(* The keys of day_night_usage are "day" and "night". *)
Definition day_night_keys (m : gmap string Z) : Prop :=
  ∀ k : string, is_Some (m !! k) ↔ (k = "day" ∨ k = "night").

(* The sessions of [sessions] created on calendar day [key], and the
   minutes they add up to. *)
Definition on_day (key : Z) (s : DeviceUsageSession.t) : bool :=
  bool_decide (date_key (DeviceUsageSession.created_at s) = key).

Definition day_total (key : Z) (sessions : list DeviceUsageSession.t) : Z :=
  total_duration_of (List.filter (on_day key) sessions).

(* The entry of time_series for calendar day [key]. *)
Definition usage_point (daily_usage : gmap Z Z) (key : Z) : DailyUsagePoint.t :=
  DailyUsagePoint.mk key
    (default 0 (daily_usage !! key))
    (py_round (true_div (default 0 (daily_usage !! key)) 60) 2).

(* During the request the clock does not go back and less than a day
   passes: the [reads] readings after the one at [clock_reads w] lie in
   [now, now + 1 day). *)
Definition steady_clock (env : Env) (w : World) (reads : nat) : Prop :=
  ∀ j : nat, (j < reads)%nat →
    utcnow_at env (clock_reads w) ≤ utcnow_at env (j + S (clock_reads w))
    ∧ utcnow_at env (j + S (clock_reads w)) < utcnow_at env (clock_reads w) + us_per_day.

(* The tests of the while loop of get_patient_analytics: one per day of
   the window, and the one that leaves the loop. *)
Definition loop_tests (days : Z) : nat := S (Z.to_nat (days + 1)).

(* The dates of get_patient_analytics are representable: the length of
   the window, its start, and the day after the request. *)
Definition analytics_dates_ok (env : Env) (days : Z) (w : World) : Prop :=
  Z.abs days ≤ timedelta_max_days
  ∧ datetime_in_range (utcnow_at env (clock_reads w) - days * us_per_day)
  ∧ utcnow_at env (clock_reads w) + us_per_day ≤ datetime_max.

(* A report of Ann's device, as the recorder stores it. *)
Definition session_on (id : string) (t : datetime) (minutes : Z) (time_of_day : string)
  : DeviceUsageSession.t :=
  DeviceUsageSession.mk id "u-ann" "esp-1" (t - minutes * us_per_minute) (Some t)
    minutes time_of_day (compliance_score_of minutes) t.

(* Seen from [morning], a window of 3 days starts on day 737997 at 10:00
   and ends on day 738000. Ann has one session on the first day of the
   window and one on the third. *)
Definition world_two_days : World :=
  mkWorld [ann; dr_dee] [ann_device]
    [session_on "s-1" (morning - 3 * us_per_day + 3600000000) 90 "day";
     session_on "s-3" (morning - us_per_day - 3600000000) 45 "night"]
    ∅ [] 0 2 2.

Definition evening_report : BluetoothData.t :=
  BluetoothData.mk "u-ann" "esp-1" 30 "evening" morning.

(* Ann's device has sent one report whose time_of_day is "evening". *)
Definition world_evening : World := after_report env_up evening_report world_registered.

(* Ann's device has sent 1000 reports of the day, then the evening one. *)
Definition world_1000_then_evening : World :=
  after_report env_up evening_report
    (Nat.iter 1000 (after_report env_up two_hours) world_registered).

(* The identities get_doctor_patients iterates over. *)
Definition roster_patients (w : World) : list User.t :=
  take 100 (List.filter (λ u, bool_decide (User.user_type u = "patient")) (users w)).

(* The entry of one patient, computed in world [w], and the world after. *)
Definition roster_entry (env : Env) (patient : User.t) (w : World)
  : RosterEntry * World :=
  match get_patient_compliance env (User.id patient) w with
  | (Ok c, w') => (Computed c, w')
  | (Raise _, w') => (Fallback (no_data patient), w')
  end.

(* The world in which the entry of the [i]-th patient is computed. *)
Fixpoint roster_world (env : Env) (patients : list User.t) (i : nat) (w : World)
  : World :=
  match i, patients with
  | S i', patient :: rest => roster_world env rest i' (roster_entry env patient w).2
  | _, _ => w
  end.

Definition entry_patient_id (e : RosterEntry) : string :=
  match e with
  | Computed c => Compliance.patient_id c
  | Fallback p => PatientCompliance.patient_id p
  end.

(* Three patients and a doctor; only Ann has a device and a session. *)
Definition world_three_patients : World :=
  mkWorld [ann; dr_dee; bob; cat] (bluetooth_devices world_one_report)
    (usage_sessions world_one_report) ∅ [] 2 1 2.

(* The database fails once: on the ninth operation from the start. *)
Definition env_outage : Env :=
  {| utcnow_at := utcnow_at env_up;
     uuid4_at := uuid4_at env_up;
     db_down := λ k, bool_decide (k = 8%nat) |}.

(** ** Vocabulary for the other routes *)

(* The login carries the identifier of its role: get_user_by_login looks
   the user up. *)
Definition has_credentials (login_data : UserLogin.t) : Prop :=
  (UserLogin.user_type login_data = "patient"
   ∧ truthy (UserLogin.patient_id login_data) = true)
  ∨ (UserLogin.user_type login_data = "doctor"
     ∧ truthy (UserLogin.doctor_id login_data) = true).

#[global] Instance has_credentials_dec (login_data : UserLogin.t)
  : Decision (has_credentials login_data).
Proof. unfold has_credentials. apply _. Defined.

Definition ann_login : UserLogin.t := UserLogin.mk "Ann" (Some "P-1") None "patient".

(* A login that names no known role. *)
Definition guest_login : UserLogin.t := UserLogin.mk "Guest" None None "nurse".

(* Nobody has logged in yet. *)
Definition world_empty : World := mkWorld [] [] [] ∅ [] 0 0 0.

(* The filter get_user_by_login queries with, when it queries. *)
Definition login_filter (login_data : UserLogin.t) : option (User.t → bool) :=
  if bool_decide (UserLogin.user_type login_data = "patient")
     && truthy (UserLogin.patient_id login_data)
  then Some (patient_login_filter login_data)
  else if bool_decide (UserLogin.user_type login_data = "doctor")
          && truthy (UserLogin.doctor_id login_data)
  then Some (doctor_login_filter login_data)
  else None.

(* The user login creates in world [w]. *)
Definition new_user (env : Env) (login_data : UserLogin.t) (w : World) : User.t :=
  User.mk (uuid4_at env (uuid_draws w)) (UserLogin.name login_data)
    (UserLogin.user_type login_data) (UserLogin.patient_id login_data)
    (UserLogin.doctor_id login_data) (utcnow_at env (clock_reads w)).

(* The device add_patient_device builds in world [w]. *)
Definition registered_device (env : Env) (patient_id : string)
    (device_data : DeviceData.t) (w : World) : BluetoothDevice.t :=
  BluetoothDevice.mk (uuid4_at env (S (uuid_draws w))) patient_id
    (default "ESP Device" (DeviceData.name device_data))
    (default (uuid4_at env (uuid_draws w)) (DeviceData.id device_data))
    true
    (Some (utcnow_at env (clock_reads w)))
    (utcnow_at env (S (clock_reads w))).

(* The registry records of a patient. *)
Definition devices_of (patient_id : string) (w : World) : list BluetoothDevice.t :=
  List.filter (λ d, bool_decide (BluetoothDevice.patient_id d = patient_id))
    (bluetooth_devices w).

(* The messages published to a patient's channel. *)
Definition published (session : DeviceUsageSession.t) (w : World)
  : list (string * DeviceUsageSession.t) :=
  if decide (DeviceUsageSession.patient_id session ∈ active_connections w)
  then [(DeviceUsageSession.patient_id session, session)]
  else [].

Definition esp_2 : DeviceData.t := DeviceData.mk None (Some "esp-2").

(* Ann is connected to her channel. *)
Definition world_connected : World :=
  mkWorld [ann; dr_dee] [ann_device] [] {[ "u-ann" ]} [] 0 0 0.

(* The database fails on the second operation. *)
Definition env_second_down : Env :=
  {| utcnow_at := utcnow_at env_up;
     uuid4_at := uuid4_at env_up;
     db_down := λ k, bool_decide (k = 1%nat) |}.

(* The patient's stored sessions get_patient_usage selects when the clock
   reads [now]. *)
Definition usage_window (patient_id : string) (days : Z) (now : datetime) (w : World)
  : list DeviceUsageSession.t :=
  List.filter (since patient_id (now - days * us_per_day)) (usage_sessions w).

(* The calendar days on which the sessions were created. *)
Definition creation_days (sessions : list DeviceUsageSession.t) : gset Z :=
  list_to_set (map (λ s, date_key (DeviceUsageSession.created_at s)) sessions).

(* The sessions reported for a time of day. *)
Definition at_time_of_day (time_of_day : string) (s : DeviceUsageSession.t) : bool :=
  bool_decide (DeviceUsageSession.time_of_day s = time_of_day).

(* The echo of the websocket route, on messages that are strings. *)
Definition echo_text (message : string) : string := String.append "echo:" message.

(* No socket is open. *)
Definition manager_empty : ConnectionManager.t string :=
  ConnectionManager.mk ∅ [].
(** * Properties *)

(** ** Numbers *)

Lemma py_min_Qmin (a b : Q) : (py_min a b == Qmin a b)%Q.
Proof.
  unfold py_min. destruct (Qlt_le_dec b a) as [H | H].
  - symmetry. apply Q.min_r. apply Qlt_le_weak. exact H.
  - symmetry. apply Q.min_l. exact H.
Qed.

Lemma py_min_le_l (a b : Q) : (py_min a b <= a)%Q.
Proof. rewrite py_min_Qmin. apply Q.le_min_l. Qed.



(** ** Session recorder *)

Lemma db_up_0 env w k : db_up env w (S k) → db_down env (db_ops w) = false.
Proof. intros H. specialize (H O). rewrite Nat.add_0_r in H. apply H. lia. Qed.

Lemma db_up_1 env w k : db_up env w (S (S k)) → db_down env (S (db_ops w)) = false.
Proof.
  intros H. specialize (H 1%nat). rewrite Nat.add_1_r in H. apply H. lia.
Qed.

Lemma mk_timedelta_minutes d :
  mk_timedelta 0 d =
  if decide (Z.abs ((d * us_per_minute) `div` us_per_day) ≤ timedelta_max_days)
  then Ok (d * us_per_minute) else Raise OverflowError.
Proof. unfold mk_timedelta. rewrite Z.mul_0_l, Z.add_0_l. reflexivity. Qed.

Lemma receive_bluetooth_data_ok env data w :
  start_time_representable data → db_up env w 2 →
  ∃ w', receive_bluetooth_data env data w = (Ok (recorded_session env data w), w')
    ∧ usage_sessions w' = usage_sessions w ++ [recorded_session env data w]
    ∧ bluetooth_devices w' =
        update_first (device_of data)
          (set_connected (utcnow_at env (S (clock_reads w)))) (bluetooth_devices w).
Proof.
  intros [Hd Hs] Hup.
  pose proof (db_up_0 _ _ _ Hup) as H0. pose proof (db_up_1 _ _ _ Hup) as H1.
  unfold receive_bluetooth_data, bind, lift.
  rewrite mk_timedelta_minutes. rewrite decide_True by exact Hd.
  unfold datetime_sub. rewrite decide_True by exact Hs.
  unfold usage_sessions_insert_one, bluetooth_devices_update_one,
    send_personal_message, bind, db_roundtrip, read_world, uuid4, utcnow; simpl.
  rewrite H0. simpl. rewrite H1. simpl.
  destruct (decide (BluetoothData.patient_id data ∈ active_connections w));
    simpl; eexists; split; try reflexivity; simpl; split; reflexivity.
Qed.

Lemma receive_bluetooth_data_inv env data w session w' :
  receive_bluetooth_data env data w = (Ok session, w') →
  start_time_representable data
  ∧ session = recorded_session env data w
  ∧ usage_sessions w' = usage_sessions w ++ [session]
  ∧ bluetooth_devices w' =
      update_first (device_of data)
        (set_connected (utcnow_at env (S (clock_reads w)))) (bluetooth_devices w).
Proof.
  unfold receive_bluetooth_data, bind, lift.
  rewrite mk_timedelta_minutes.
  destruct (decide (Z.abs _ ≤ _)) as [Hd | Hd]; [| discriminate].
  unfold datetime_sub.
  destruct (decide (datetime_in_range _)) as [Hs | Hs]; [| discriminate].
  unfold usage_sessions_insert_one, bluetooth_devices_update_one,
    send_personal_message, bind, db_roundtrip, read_world, uuid4, utcnow; simpl.
  destruct (db_down env (db_ops w)); [discriminate |]. simpl.
  destruct (db_down env (S (db_ops w))); [discriminate |]. simpl.
  destruct (decide (BluetoothData.patient_id data ∈ active_connections w));
    simpl; intros H; inversion H; subst; simpl;
    (split; [split; assumption | repeat split]).
Qed.

(* A failed call that wrote nothing can only have failed in the date
   arithmetic or on the first database operation. *)
Lemma receive_bluetooth_data_overflow env data w w' :
  receive_bluetooth_data env data w = (Raise OverflowError, w') → w' = w.
Proof.
  unfold receive_bluetooth_data, bind, lift.
  rewrite mk_timedelta_minutes.
  destruct (decide (Z.abs _ ≤ _)) as [Hd | Hd]; [| intros H; inversion H; reflexivity].
  unfold datetime_sub.
  destruct (decide (datetime_in_range _)) as [Hs | Hs];
    [| intros H; inversion H; reflexivity].
  unfold usage_sessions_insert_one, bluetooth_devices_update_one,
    send_personal_message, bind, db_roundtrip, read_world, uuid4, utcnow; simpl.
  destruct (db_down env (db_ops w)); [discriminate |]. simpl.
  destruct (db_down env (S (db_ops w))); [discriminate |]. simpl.
  destruct (decide (BluetoothData.patient_id data ∈ active_connections w));
    simpl; discriminate.
Qed.

Lemma BluetoothData_validate_eq env body w :
  BluetoothData_validate env body w
  = (Ok (validated_data env body w), validated_world body w).
Proof.
  unfold BluetoothData_validate, validated_data, validated_world, bind, ret, utcnow.
  destruct (body_timestamp body); reflexivity.
Qed.

Lemma post_bluetooth_data_eq env body w :
  post_bluetooth_data env body w
  = receive_bluetooth_data env (validated_data env body w) (validated_world body w).
Proof.
  unfold post_bluetooth_data, bind. rewrite BluetoothData_validate_eq. reflexivity.
Qed.

Lemma validated_world_collections body w :
  usage_sessions (validated_world body w) = usage_sessions w
  ∧ bluetooth_devices (validated_world body w) = bluetooth_devices w
  ∧ db_ops (validated_world body w) = db_ops w.
Proof. unfold validated_world. destruct (body_timestamp body); auto. Qed.

Lemma update_first_none flt upd l :
  (∀ d, d ∈ l → flt d = false) → update_first flt upd l = l.
Proof.
  induction l as [| d l IH]; intros H; simpl; [reflexivity |].
  rewrite (H d) by left. f_equal. apply IH. intros d' Hd'. apply H. by right.
Qed.

Lemma update_first_some flt upd l d :
  d ∈ l → flt d = true →
  ∃ d0, d0 ∈ l ∧ flt d0 = true ∧ upd d0 ∈ update_first flt upd l.
Proof.
  induction l as [| x l IH]; intros Hin Hd; [by apply elem_of_nil in Hin |].
  simpl. destruct (flt x) eqn:Hx.
  - exists x. split; [left | split; [exact Hx | left]].
  - apply elem_of_cons in Hin as [-> | Hin]; [congruence |].
    destruct (IH Hin Hd) as (d0 & H0 & Hf & Hu).
    exists d0. split; [by right | split; [exact Hf | by right]].
Qed.



(** C4, as the specification states it, fails: an input with a negative
    usageDurationMinutes and a timeOfDay outside {day, night} is not
    rejected. The call returns the session, which is appended to the
    store, and the registered device is marked connected. *)
Lemma C4_negative_duration_accepted :
  body_usage_duration bad_body < 0
  ∧ body_time_of_day bad_body ≠ "day"
  ∧ body_time_of_day bad_body ≠ "night"
  ∧ ¬ rejected_without_write env_up bad_body world_registered
  ∧ ∃ session w',
      post_bluetooth_data env_up bad_body world_registered = (Ok session, w')
      ∧ usage_sessions w' = [session]
      ∧ DeviceUsageSession.duration_minutes session = -5
      ∧ DeviceUsageSession.time_of_day session = "evening"
      ∧ bluetooth_devices w' ≠ bluetooth_devices world_registered.
Proof.
  split; [reflexivity |]. split; [discriminate |]. split; [discriminate |].
  split.
  - intros (e & w' & Hrun & _). vm_compute in Hrun. discriminate.
  - eexists _, _. split; [vm_compute; reflexivity |].
    simpl. repeat split. discriminate.
Qed.

(** C4, amended. recordUsage does not validate the sign of
    usageDurationMinutes nor the value of timeOfDay. For every input,
    negative durations and unknown timeOfDay values included, whose start
    time is a representable date, the call succeeds when the database
    answers: one session carrying the given duration and timeOfDay is
    appended and the device registry is updated as for any other input.
    The only input rejected before any write is one whose start time
    overflows the date range; it raises OverflowError and nothing is
    written. *)
Theorem C4_no_input_validation env body w :
  (start_time_representable (validated_data env body w) →
   db_up env w 2 →
   ∃ session w',
     post_bluetooth_data env body w = (Ok session, w')
     ∧ usage_sessions w' = usage_sessions w ++ [session]
     ∧ DeviceUsageSession.duration_minutes session = body_usage_duration body
     ∧ DeviceUsageSession.time_of_day session = body_time_of_day body
     ∧ bluetooth_devices w' =
         update_first (device_of (validated_data env body w))
           (set_connected
              (utcnow_at env (S (clock_reads (validated_world body w)))))
           (bluetooth_devices w))
  ∧ (¬ start_time_representable (validated_data env body w) →
     ∃ w',
       post_bluetooth_data env body w = (Raise OverflowError, w')
       ∧ usage_sessions w' = usage_sessions w
       ∧ bluetooth_devices w' = bluetooth_devices w).
Proof.
  destruct (validated_world_collections body w) as (Hs & Hdv & Hops).
  split.
  - intros Hrep Hup. rewrite post_bluetooth_data_eq.
    assert (Hup' : db_up env (validated_world body w) 2).
    { intros i Hi. rewrite Hops. apply Hup. exact Hi. }
    destruct (receive_bluetooth_data_ok env _ _ Hrep Hup') as (w' & Hrun & Hs' & Hd').
    eexists _, w'. split; [exact Hrun |].
    rewrite Hs', Hd', Hs, Hdv. repeat split.
  - intros Hrep. rewrite post_bluetooth_data_eq.
    destruct (receive_bluetooth_data env (validated_data env body w)
                (validated_world body w)) as [r w'] eqn:Hrun.
    destruct r as [session | e].
    + apply receive_bluetooth_data_inv in Hrun. tauto.
    + assert (e = OverflowError ∧ w' = validated_world body w) as [-> ->].
      { revert Hrun. unfold receive_bluetooth_data, bind, lift.
        rewrite mk_timedelta_minutes.
        destruct (decide (Z.abs _ ≤ _)) as [Hd | Hd];
          [| intros H; inversion H; auto].
        unfold datetime_sub.
        destruct (decide (datetime_in_range _)) as [Hr | Hr];
          [| intros H; inversion H; auto].
        exfalso. apply Hrep. split; assumption. }
      eexists. split; [reflexivity |]. split; assumption.
Qed.

Lemma C4_no_input_validation_witness :
  ∃ session w',
    post_bluetooth_data env_up bad_body world_registered = (Ok session, w')
    ∧ usage_sessions w' = usage_sessions world_registered ++ [session]
    ∧ DeviceUsageSession.duration_minutes session = body_usage_duration bad_body
    ∧ DeviceUsageSession.time_of_day session = body_time_of_day bad_body
    ∧ bluetooth_devices w' =
        update_first (device_of (validated_data env_up bad_body world_registered))
          (set_connected
             (utcnow_at env_up
                (S (clock_reads (validated_world bad_body world_registered)))))
          (bluetooth_devices world_registered).
Proof.
  apply (C4_no_input_validation env_up bad_body world_registered).
  - unfold start_time_representable, datetime_in_range. simpl. vm_compute.
    repeat split; discriminate.
  - intros i Hi. reflexivity.
Defined.

(** C7, as the specification states it, fails: the registry update is no
    upsert. With no record for (deviceId, patientId) before the call, the
    call succeeds and the registry holds no such record afterwards. *)
Lemma C7_no_upsert :
  ∃ session w',
    receive_bluetooth_data env_up two_hours world_no_device = (Ok session, w')
    ∧ bluetooth_devices w' = []
    ∧ ¬ ∃ d now, d ∈ bluetooth_devices w' ∧ connected_record two_hours now d.
Proof.
  eexists _, _. split; [vm_compute; reflexivity |]. simpl. split; [reflexivity |].
  intros (d & now & Hin & _). by apply elem_of_nil in Hin.
Qed.

(** C7, amended. For every accepted recordUsage input, the stored session
    has startTime = timestamp - usageDurationMinutes and endTime =
    timestamp (so endTime = startTime + durationMinutes). If the device
    registry held a record keyed by (deviceId, patientId) before the
    call, it holds one marked connected with lastConnected = now after
    the call; if it held none, the registry is left unchanged: no record
    is created. *)
Theorem C7_session_times_and_registry env data w session w' :
  receive_bluetooth_data env data w = (Ok session, w') →
  let now := utcnow_at env (S (clock_reads w)) in
  usage_sessions w' = usage_sessions w ++ [session]
  ∧ DeviceUsageSession.start_time session
    = BluetoothData.timestamp data - BluetoothData.usage_duration data * us_per_minute
  ∧ DeviceUsageSession.end_time session = Some (BluetoothData.timestamp data)
  ∧ DeviceUsageSession.end_time session
    = Some (DeviceUsageSession.start_time session
            + DeviceUsageSession.duration_minutes session * us_per_minute)
  ∧ ((∃ d, d ∈ bluetooth_devices w ∧ device_of data d = true) →
     ∃ d', d' ∈ bluetooth_devices w' ∧ connected_record data now d')
  ∧ ((∀ d, d ∈ bluetooth_devices w → device_of data d = false) →
     bluetooth_devices w' = bluetooth_devices w).
Proof.
  intros Hrun now. apply receive_bluetooth_data_inv in Hrun as (_ & -> & Hs & Hd).
  split; [exact Hs |]. simpl. split; [reflexivity |]. split; [reflexivity |].
  split; [f_equal; lia |]. split.
  - intros (d & Hin & Hm).
    destruct (update_first_some _ (set_connected now) _ d Hin Hm)
      as (d0 & _ & Hm0 & Hu).
    exists (set_connected now d0). split; [rewrite Hd; exact Hu |].
    unfold device_of in Hm0. apply andb_true_iff in Hm0 as [H1 H2].
    apply bool_decide_eq_true in H1, H2. unfold connected_record. simpl. auto.
  - intros Hnone. rewrite Hd. apply update_first_none. exact Hnone.
Qed.

Lemma C7_session_times_and_registry_witness :
  ∃ session w',
    receive_bluetooth_data env_up two_hours world_registered = (Ok session, w')
    ∧ DeviceUsageSession.start_time session = morning - 120 * us_per_minute
    ∧ DeviceUsageSession.end_time session = Some morning
    ∧ ∃ d', d' ∈ bluetooth_devices w'
            ∧ connected_record two_hours (utcnow_at env_up 1) d'.
Proof.
  destruct (receive_bluetooth_data env_up two_hours world_registered)
    as [r w'] eqn:Hrun.
  destruct r as [session | e]; [| vm_compute in Hrun; discriminate].
  destruct (C7_session_times_and_registry env_up two_hours world_registered
              session w' Hrun) as (_ & Hst & Hen & _ & Hdev & _).
  exists session, w'. split; [reflexivity |]. split; [exact Hst |].
  split; [exact Hen |]. apply Hdev.
  exists ann_device. split; [simpl; left | reflexivity].
Defined.

(** ** Trend classification *)

Lemma utcnow_eq env w : utcnow env w = (Ok (utcnow_at env (clock_reads w)), tick_clock w).
Proof. reflexivity. Qed.

Lemma usage_sessions_find_eq env flt n w :
  usage_sessions_find env flt n w =
  if db_down env (db_ops w) then (Raise ServerSelectionTimeoutError, tick_db w)
  else (Ok (take n (List.filter flt (usage_sessions w))), tick_db w).
Proof.
  unfold usage_sessions_find, bind, db_roundtrip, read_world, ret.
  destruct (db_down env (db_ops w)); reflexivity.
Qed.

Lemma mk_timedelta_days_small (days : Z) :
  Z.abs days ≤ timedelta_max_days → mk_timedelta days 0 = Ok (days * us_per_day).
Proof.
  intros H. unfold mk_timedelta. rewrite Z.mul_0_l, Z.add_0_r.
  rewrite Z.div_mul by discriminate. rewrite decide_True by exact H. reflexivity.
Qed.

Lemma calculate_usage_trend_inv env patient_id w t w' :
  calculate_usage_trend env patient_id w = (Ok t, w') →
  let now := utcnow_at env (clock_reads w) in
  t = classify_trend (total_duration_of (last_week_fetched patient_id now w))
        (total_duration_of (prev_week_fetched patient_id now w))
  ∧ w' = tick_db (tick_db (tick_clock w)).
Proof.
  unfold calculate_usage_trend, bind, lift. rewrite utcnow_eq.
  rewrite !mk_timedelta_days_small by (vm_compute; discriminate).
  unfold datetime_sub.
  destruct (decide (datetime_in_range _)); [| discriminate].
  rewrite usage_sessions_find_eq. simpl.
  destruct (db_down env (db_ops w)); [discriminate |].
  destruct (decide (datetime_in_range _)); [| discriminate].
  rewrite usage_sessions_find_eq. simpl.
  destruct (db_down env (S (db_ops w))); [discriminate |].
  unfold ret. intros H. inversion H. split; reflexivity.
Qed.

Lemma calculate_usage_trend_ok env patient_id w :
  let now := utcnow_at env (clock_reads w) in
  datetime_in_range (now - 14 * us_per_day) →
  datetime_in_range (now - 7 * us_per_day) →
  db_up env w 2 →
  calculate_usage_trend env patient_id w
  = (Ok (classify_trend (total_duration_of (last_week_fetched patient_id now w))
           (total_duration_of (prev_week_fetched patient_id now w))),
     tick_db (tick_db (tick_clock w))).
Proof.
  intros now H14 H7 Hup.
  pose proof (db_up_0 _ _ _ Hup) as H0. pose proof (db_up_1 _ _ _ Hup) as H1.
  unfold calculate_usage_trend, bind, lift. rewrite utcnow_eq.
  rewrite !mk_timedelta_days_small by (vm_compute; discriminate).
  unfold datetime_sub. fold now.
  rewrite (decide_True _ _ H7).
  rewrite usage_sessions_find_eq. simpl. rewrite H0.
  rewrite (decide_True _ _ H14).
  rewrite usage_sessions_find_eq. simpl. rewrite H1.
  reflexivity.
Qed.





(** ** Compliance summary *)

Lemma users_find_one_eq env flt w :
  users_find_one env flt w =
  if db_down env (db_ops w) then (Raise ServerSelectionTimeoutError, tick_db w)
  else (Ok (head (List.filter flt (users w))), tick_db w).
Proof.
  unfold users_find_one, bind, db_roundtrip, read_world, ret.
  destruct (db_down env (db_ops w)); reflexivity.
Qed.

Lemma bluetooth_devices_find_one_eq env flt w :
  bluetooth_devices_find_one env flt w =
  if db_down env (db_ops w) then (Raise ServerSelectionTimeoutError, tick_db w)
  else (Ok (head (List.filter flt (bluetooth_devices w))), tick_db w).
Proof.
  unfold bluetooth_devices_find_one, bind, db_roundtrip, read_world, ret.
  destruct (db_down env (db_ops w)); reflexivity.
Qed.

(* The summary get_patient_compliance returns for [user] when the clock
   reads [now], then [now'] in calculate_usage_trend. *)
Lemma get_patient_compliance_inv env patient_id w c w' :
  get_patient_compliance env patient_id w = (Ok c, w') →
  let now := utcnow_at env (clock_reads w) in
  let now' := utcnow_at env (S (clock_reads w)) in
  let sessions := compliance_fetched patient_id now w in
  let total := total_duration_of sessions in
  ∃ user,
    resolved patient_id w = Some user
    ∧ c = Compliance.mk patient_id (User.name user) (len sessions) total
            (if decide (total > 0) then true_div total 30 else 0%Q)
            (py_round ((if decide (total > 0) then true_div total 30 else 0%Q) / 60) 2)
            (py_min 100 (true_div total (30 * 8 * 60) * 100))
            (last_session_of sessions)
            (registry_flag patient_id w)
            (classify_trend
               (total_duration_of (last_week_fetched patient_id now' w))
               (total_duration_of (prev_week_fetched patient_id now' w)))
    ∧ users w' = users w
    ∧ bluetooth_devices w' = bluetooth_devices w
    ∧ usage_sessions w' = usage_sessions w.
Proof.
  unfold get_patient_compliance, bind. rewrite users_find_one_eq.
  destruct (db_down env (db_ops w)); [discriminate |].
  fold (resolved patient_id w).
  destruct (resolved patient_id w) as [user |]; [| discriminate].
  rewrite utcnow_eq. unfold lift.
  rewrite mk_timedelta_days_small by (vm_compute; discriminate).
  unfold datetime_sub.
  destruct (decide (datetime_in_range _)); [| discriminate].
  rewrite usage_sessions_find_eq. simpl.
  destruct (db_down env (S (db_ops w))); [discriminate |].
  rewrite bluetooth_devices_find_one_eq. simpl.
  destruct (db_down env (S (S (db_ops w)))); [discriminate |].
  match goal with
  | |- context [calculate_usage_trend env patient_id ?W] =>
      destruct (calculate_usage_trend env patient_id W) as [[t | e] w''] eqn:Ht
  end; [| discriminate].
  apply calculate_usage_trend_inv in Ht as [-> ->].
  unfold ret. intros H. inversion H. subst. simpl.
  exists user. repeat split.
Qed.

Lemma get_patient_compliance_ok env patient_id w user :
  resolved patient_id w = Some user →
  db_up env w 5 →
  compliance_dates_ok env w →
  ∃ c w', get_patient_compliance env patient_id w = (Ok c, w').
Proof.
  intros Hres Hup (H30 & H14 & H7).
  assert (Hdb : ∀ i, (i < 5)%nat → db_down env (i + db_ops w) = false).
  { intros i Hi. rewrite Nat.add_comm. apply Hup. exact Hi. }
  pose proof (Hdb 0%nat ltac:(lia)) as H0. pose proof (Hdb 1%nat ltac:(lia)) as H1.
  pose proof (Hdb 2%nat ltac:(lia)) as H2. simpl in H0, H1, H2.
  unfold get_patient_compliance, bind. rewrite users_find_one_eq, H0.
  fold (resolved patient_id w). rewrite Hres.
  rewrite utcnow_eq. unfold lift.
  rewrite mk_timedelta_days_small by (vm_compute; discriminate).
  unfold datetime_sub. rewrite (decide_True _ _ H30).
  rewrite usage_sessions_find_eq. simpl. rewrite H1.
  rewrite bluetooth_devices_find_one_eq. simpl. rewrite H2.
  rewrite calculate_usage_trend_ok; simpl; try assumption.
  - unfold ret. eexists _, _. reflexivity.
  - intros i Hi. simpl.
    replace (S (S (S (db_ops w + i)))) with (db_ops w + (3 + i))%nat by lia.
    apply Hup. lia.
Qed.

Lemma total_duration_of_nil : total_duration_of [] = 0.
Proof. reflexivity. Qed.

Lemma filter_nil_weaken {A} (f g : A → bool) (l : list A) :
  (∀ x, g x = true → f x = true) → List.filter f l = [] → List.filter g l = [].
Proof.
  intros Hfg. induction l as [| x l IH]; simpl; [reflexivity |].
  destruct (f x) eqn:Hf; [discriminate |]. intros Hnil.
  destruct (g x) eqn:Hg; [| apply IH; exact Hnil].
  apply Hfg in Hg. congruence.
Qed.

(* The running maximum of last_session_of. *)
Lemma foldl_max_spec (l : list Z) (m0 : Z) :
  let m := foldl (λ m x, if decide (m < x) then x else m) m0 l in
  m0 ≤ m ∧ (∀ x, x ∈ l → x ≤ m) ∧ (m = m0 ∨ m ∈ l).
Proof.
  revert m0. induction l as [| x l IH]; intros m0; simpl.
  - split; [lia |]. split; [| by left]. intros x Hx. by apply elem_of_nil in Hx.
  - destruct (decide (m0 < x)) as [Hlt | Hge].
    + destruct (IH x) as (H1 & H2 & H3). split; [lia |]. split.
      * intros y Hy. apply elem_of_cons in Hy as [-> | Hy]; [exact H1 | by apply H2].
      * right. destruct H3 as [-> | H3]; [left | by right].
    + destruct (IH m0) as (H1 & H2 & H3). split; [exact H1 |]. split.
      * intros y Hy. apply elem_of_cons in Hy as [-> | Hy]; [lia | by apply H2].
      * destruct H3 as [-> | H3]; [by left | right; by right].
Qed.

Lemma last_session_of_spec (sessions : list DeviceUsageSession.t) :
  match last_session_of sessions with
  | None => sessions = []
  | Some m =>
      (∃ s, s ∈ sessions ∧ DeviceUsageSession.created_at s = m)
      ∧ ∀ s, s ∈ sessions → DeviceUsageSession.created_at s ≤ m
  end.
Proof.
  destruct sessions as [| s0 rest]; simpl; [reflexivity |].
  destruct (foldl_max_spec (map DeviceUsageSession.created_at rest)
              (DeviceUsageSession.created_at s0)) as (H1 & H2 & H3).
  simpl in H1, H2, H3. split.
  - destruct H3 as [H3 | H3].
    + exists s0. split; [left | symmetry; exact H3].
    + apply list_elem_of_fmap in H3 as (s & Hs & Hin).
      exists s. split; [by right | symmetry; exact Hs].
  - intros s Hs. apply elem_of_cons in Hs as [-> | Hs]; [exact H1 |].
    apply H2. apply list_elem_of_fmap. exists s. split; [reflexivity | exact Hs].
Qed.


Lemma value_Some {A} (r : result A) (a : A) : value r = Some a → r = Ok a.
Proof. destruct r; simpl; congruence. Qed.

(** C1, as the specification states it, fails on two stored states the
    recorder produces. After one report of -60 minutes the total is -60
    and averageDailyUsageMinutes is 0, not -60 / 30. After 1001 reports
    in the window the query returns the first 1000 of them, and
    lastSession is earlier than the createdAt of the 1001st. *)
Lemma C1_negative_total_and_cap :
  (∃ c,
      (get_patient_compliance env_up "u-ann" world_negative).1 = Ok c
      ∧ Compliance.total_duration_minutes c = -60
      ∧ ¬ (Compliance.average_daily_usage c
           == inject_Z (Compliance.total_duration_minutes c) / 30)%Q)
  ∧ (∃ c m s,
      (get_patient_compliance env_up "u-ann" world_1001).1 = Ok c
      ∧ Compliance.last_session c = Some m
      ∧ s ∈ compliance_window "u-ann"
              (utcnow_at env_up (clock_reads world_1001)) world_1001
      ∧ m < DeviceUsageSession.created_at s).
Proof.
  split.
  - eexists. split; [apply value_Some; vm_compute; reflexivity |]. simpl.
    split; [reflexivity |]. intros H. vm_compute in H. discriminate.
  - eexists _, _, _.
    split; [apply value_Some; vm_compute; reflexivity |].
    split; [reflexivity |].
    split; [apply last_Some_elem_of; vm_compute; reflexivity |].
    reflexivity.
Qed.

Lemma since_weaken patient_id start start' s :
  start ≤ start' → since patient_id start' s = true → since patient_id start s = true.
Proof.
  unfold since. intros Hle H. apply andb_true_iff in H as [Hp Hc].
  apply andb_true_iff. split; [exact Hp |]. apply Z.leb_le in Hc. apply Z.leb_le. lia.
Qed.

Lemma between_since patient_id start start' stop s :
  start ≤ start' → between patient_id start' stop s = true →
  since patient_id start s = true.
Proof.
  unfold between, since. intros Hle H.
  apply andb_true_iff in H as [H _]. apply andb_true_iff in H as [Hp Hc].
  apply andb_true_iff. split; [exact Hp |]. apply Z.leb_le in Hc. apply Z.leb_le. lia.
Qed.

Lemma take_nil_of_nil {A} (n : nat) (l : list A) : l = [] → take n l = [].
Proof. intros ->. apply take_nil. Qed.

(* With no session in the 30-day window there is none in the two weeks
   calculate_usage_trend compares, if the clock has not gone back. *)
Lemma empty_window_empty_weeks patient_id now now' w :
  compliance_window patient_id now w = [] → now ≤ now' →
  last_week_fetched patient_id now' w = []
  ∧ prev_week_fetched patient_id now' w = [].
Proof.
  unfold compliance_window, last_week_fetched, prev_week_fetched.
  intros Hnil Hle. split; apply take_nil_of_nil;
    eapply filter_nil_weaken; try exact Hnil; intros s Hs.
  - eapply since_weaken; [| exact Hs]. unfold us_per_day. lia.
  - eapply between_since; [| exact Hs]. unfold us_per_day. lia.
Qed.

(** C1, amended. For every patient with a resolvable identity,
    getCompliance returns a summary computed from the sessions its query
    returns: the first 1000 stored sessions of the patient whose
    createdAt lies in the last 30 days, which are all of them when there
    are at most 1000. averageDailyUsageMinutes equals
    totalDurationMinutes / 30 when the total is not negative, and 0 when
    it is negative; compliancePercentage equals min(100,
    totalDurationMinutes / (30 * 480) * 100); lastSession is the maximum
    createdAt over the returned sessions, absent when there is none. With
    zero sessions in the window it returns totalSessions = 0,
    compliancePercentage = 0 and usageTrend = {stable, 0}. (The call
    returns when the database answers and the window dates are
    representable; the trend of the empty window assumes a clock that has
    not gone back between the two readings.) *)
Theorem C1_compliance_summary env patient_id w user :
  resolved patient_id w = Some user →
  db_up env w 5 →
  compliance_dates_ok env w →
  let now := utcnow_at env (clock_reads w) in
  let now' := utcnow_at env (S (clock_reads w)) in
  let window := compliance_window patient_id now w in
  let fetched := compliance_fetched patient_id now w in
  ∃ c w',
    get_patient_compliance env patient_id w = (Ok c, w')
    ∧ Compliance.total_sessions c = len fetched
    ∧ Compliance.total_duration_minutes c = total_duration_of fetched
    ∧ ((length window ≤ 1000)%nat → fetched = window)
    ∧ (0 ≤ Compliance.total_duration_minutes c →
       (Compliance.average_daily_usage c
        == inject_Z (Compliance.total_duration_minutes c) / 30)%Q)
    ∧ (Compliance.total_duration_minutes c < 0 →
       (Compliance.average_daily_usage c == 0)%Q)
    ∧ (Compliance.compliance_percentage c
       == Qmin 100 (inject_Z (Compliance.total_duration_minutes c) / (30 * 480) * 100))%Q
    ∧ match Compliance.last_session c with
      | None => fetched = []
      | Some m =>
          (∃ s, s ∈ fetched ∧ DeviceUsageSession.created_at s = m)
          ∧ ∀ s, s ∈ fetched → DeviceUsageSession.created_at s ≤ m
      end
    ∧ (window = [] → now ≤ now' →
       Compliance.total_sessions c = 0
       ∧ (Compliance.compliance_percentage c == 0)%Q
       ∧ Compliance.usage_trend c = UsageTrend.mk "stable" 0).
Proof.
  intros Hres Hup Hdates now now' window fetched.
  destruct (get_patient_compliance_ok env patient_id w user Hres Hup Hdates)
    as (c & w' & Hrun).
  exists c, w'. split; [exact Hrun |].
  apply get_patient_compliance_inv in Hrun as (user' & _ & Hc & _).
  fold now now' in Hc. fold fetched in Hc.
  set (total := total_duration_of fetched) in *.
  rewrite Hc. simpl.
  split; [reflexivity |]. split; [reflexivity |].
  split; [intros Hlen; apply take_ge; exact Hlen |].
  split; [| split; [| split; [| split]]].
  - intros Hpos. destruct (decide (total > 0)) as [Hgt | Hle]; [reflexivity |].
    assert (total = 0) as -> by lia. reflexivity.
  - intros Hneg. destruct (decide (total > 0)) as [Hgt | Hle]; [lia | reflexivity].
  - rewrite py_min_Qmin. reflexivity.
  - apply last_session_of_spec.
  - intros Hnil Hle.
    destruct (empty_window_empty_weeks patient_id now now' w Hnil Hle) as [-> ->].
    assert (Hf : fetched = []).
    { unfold fetched, compliance_fetched. apply take_nil_of_nil. exact Hnil. }
    subst total. rewrite Hf. repeat split.
Qed.

Lemma C1_compliance_summary_witness :
  ∃ c w',
    get_patient_compliance env_up "u-ann" world_one_report = (Ok c, w')
    ∧ Compliance.total_sessions c = 1
    ∧ Compliance.total_duration_minutes c = 120
    ∧ (Compliance.average_daily_usage c == 120 / 30)%Q
    ∧ (Compliance.compliance_percentage c == Qmin 100 (120 / (30 * 480) * 100))%Q.
Proof.
  destruct (C1_compliance_summary env_up "u-ann" world_one_report ann)
    as (c & w' & Hrun & Hn & Ht & _ & Havg & _ & Hpct & _).
  - reflexivity.
  - intros i Hi. reflexivity.
  - unfold compliance_dates_ok, datetime_in_range. vm_compute.
    repeat split; discriminate.
  - exists c, w'. split; [exact Hrun |].
    assert (Ht' : Compliance.total_duration_minutes c = 120).
    { rewrite Ht. reflexivity. }
    split; [rewrite Hn; reflexivity |]. split; [exact Ht' |].
    rewrite Ht' in Havg, Hpct. split; [apply Havg; lia | exact Hpct].
Defined.

(** ** Read-only handlers are functions of the stored state, the clock
       and the availability of the database *)

Section Agreement.
Variables env1 env2 : Env.

Lemma same_view_tick_clock w1 w2 :
  same_view env1 env2 w1 w2 → same_view env1 env2 (tick_clock w1) (tick_clock w2).
Proof.
  intros (Hu & Hd & Hs & Hc & Hdb). repeat split; try assumption; simpl.
  intros k. rewrite <- !Nat.add_succ_r. apply Hc.
Qed.

Lemma same_view_tick_db w1 w2 :
  same_view env1 env2 w1 w2 → same_view env1 env2 (tick_db w1) (tick_db w2).
Proof.
  intros (Hu & Hd & Hs & Hc & Hdb). repeat split; try assumption; simpl.
  intros k. rewrite <- !Nat.add_succ_r. apply Hdb.
Qed.

Lemma agree_ret {A} (a : A) : agree env1 env2 (ret a) (ret a).
Proof. intros w1 w2 H. split; [reflexivity | exact H]. Qed.

Lemma agree_raise {A} (e : exn) : agree env1 env2 (@raise A e) (raise e).
Proof. intros w1 w2 H. split; [reflexivity | exact H]. Qed.

Lemma agree_lift {A} (r : result A) : agree env1 env2 (lift r) (lift r).
Proof. intros w1 w2 H. split; [reflexivity | exact H]. Qed.

Lemma agree_bind {A B} (m1 m2 : M A) (k1 k2 : A → M B) :
  agree env1 env2 m1 m2 → (∀ a, agree env1 env2 (k1 a) (k2 a)) →
  agree env1 env2 (bind m1 k1) (bind m2 k2).
Proof.
  intros Hm Hk w1 w2 Hv. unfold bind.
  destruct (Hm w1 w2 Hv) as [Hr Hv'].
  destruct (m1 w1) as [r1 w1'], (m2 w2) as [r2 w2']. simpl in Hr, Hv'. subst r2.
  destruct r1 as [a | e]; [apply Hk; exact Hv' | split; [reflexivity | exact Hv']].
Qed.

Lemma agree_utcnow : agree env1 env2 (utcnow env1) (utcnow env2).
Proof.
  intros w1 w2 Hv. rewrite !utcnow_eq. simpl. split.
  - destruct Hv as (_ & _ & _ & Hc & _). specialize (Hc 0%nat).
    rewrite !Nat.add_0_r in Hc. rewrite Hc. reflexivity.
  - apply same_view_tick_clock. exact Hv.
Qed.

Lemma agree_usage_sessions_find flt n :
  agree env1 env2 (usage_sessions_find env1 flt n) (usage_sessions_find env2 flt n).
Proof.
  intros w1 w2 Hv. rewrite !usage_sessions_find_eq.
  pose proof (same_view_tick_db _ _ Hv) as Hv'.
  destruct Hv as (_ & _ & Hs & _ & Hdb). specialize (Hdb 0%nat).
  rewrite !Nat.add_0_r in Hdb. rewrite Hdb, Hs.
  destruct (db_down env2 (db_ops w2)); split; simpl; auto.
Qed.

Lemma agree_users_find_one flt :
  agree env1 env2 (users_find_one env1 flt) (users_find_one env2 flt).
Proof.
  intros w1 w2 Hv. rewrite !users_find_one_eq.
  pose proof (same_view_tick_db _ _ Hv) as Hv'.
  destruct Hv as (Hu & _ & _ & _ & Hdb). specialize (Hdb 0%nat).
  rewrite !Nat.add_0_r in Hdb. rewrite Hdb, Hu.
  destruct (db_down env2 (db_ops w2)); split; simpl; auto.
Qed.

Lemma agree_bluetooth_devices_find_one flt :
  agree env1 env2 (bluetooth_devices_find_one env1 flt)
    (bluetooth_devices_find_one env2 flt).
Proof.
  intros w1 w2 Hv. rewrite !bluetooth_devices_find_one_eq.
  pose proof (same_view_tick_db _ _ Hv) as Hv'.
  destruct Hv as (_ & Hd & _ & _ & Hdb). specialize (Hdb 0%nat).
  rewrite !Nat.add_0_r in Hdb. rewrite Hdb, Hd.
  destruct (db_down env2 (db_ops w2)); split; simpl; auto.
Qed.

Ltac agree_step :=
  first
    [ apply agree_ret | apply agree_raise | apply agree_lift | apply agree_utcnow
    | apply agree_usage_sessions_find | apply agree_users_find_one
    | apply agree_bluetooth_devices_find_one
    | apply agree_bind; [| intros ?] ].

Lemma agree_calculate_usage_trend patient_id :
  agree env1 env2 (calculate_usage_trend env1 patient_id)
    (calculate_usage_trend env2 patient_id).
Proof. unfold calculate_usage_trend. repeat agree_step. Qed.

Lemma agree_get_patient_compliance patient_id :
  agree env1 env2 (get_patient_compliance env1 patient_id)
    (get_patient_compliance env2 patient_id).
Proof.
  unfold get_patient_compliance. apply agree_bind; [agree_step |].
  intros [user |]; [| agree_step].
  repeat agree_step.
Qed.

End Agreement.

Section ReadOnly.
Variable env : Env.

Lemma read_only_ret {A} (a : A) : read_only (ret a).
Proof. intros w. auto. Qed.

Lemma read_only_raise {A} (e : exn) : read_only (@raise A e).
Proof. intros w. auto. Qed.

Lemma read_only_lift {A} (r : result A) : read_only (lift r).
Proof. intros w. auto. Qed.

Lemma read_only_bind {A B} (m : M A) (k : A → M B) :
  read_only m → (∀ a, read_only (k a)) → read_only (bind m k).
Proof.
  intros Hm Hk w. unfold bind. specialize (Hm w).
  destruct (m w) as [[a | e] w1]; simpl in Hm.
  - destruct (Hk a w1) as (H1 & H2 & H3). destruct Hm as (H4 & H5 & H6).
    rewrite H1, H2, H3. auto.
  - exact Hm.
Qed.

Lemma read_only_utcnow : read_only (utcnow env).
Proof. intros w. simpl. auto. Qed.

Lemma read_only_usage_sessions_find flt n : read_only (usage_sessions_find env flt n).
Proof.
  intros w. rewrite usage_sessions_find_eq.
  destruct (db_down env (db_ops w)); simpl; auto.
Qed.

Lemma read_only_users_find_one flt : read_only (users_find_one env flt).
Proof.
  intros w. rewrite users_find_one_eq. destruct (db_down env (db_ops w)); simpl; auto.
Qed.

Lemma read_only_bluetooth_devices_find_one flt :
  read_only (bluetooth_devices_find_one env flt).
Proof.
  intros w. rewrite bluetooth_devices_find_one_eq.
  destruct (db_down env (db_ops w)); simpl; auto.
Qed.

Ltac read_only_step :=
  first
    [ apply read_only_ret | apply read_only_raise | apply read_only_lift
    | apply read_only_utcnow | apply read_only_usage_sessions_find
    | apply read_only_users_find_one | apply read_only_bluetooth_devices_find_one
    | apply read_only_bind; [| intros ?] ].

Lemma read_only_calculate_usage_trend patient_id :
  read_only (calculate_usage_trend env patient_id).
Proof. unfold calculate_usage_trend. repeat read_only_step. Qed.

Lemma read_only_get_patient_compliance patient_id :
  read_only (get_patient_compliance env patient_id).
Proof.
  unfold get_patient_compliance. apply read_only_bind; [read_only_step |].
  intros [user |]; [| read_only_step].
  repeat read_only_step.
Qed.

End ReadOnly.

(** C8. getCompliance is deterministic: two calls for the same patient
    evaluated over the same current time and the same stored sessions,
    devices and identities return identical results, whether they return
    a summary or fail; and a call writes to none of the collections, so a
    second call in immediate succession sees the stored state of the
    first. *)
Theorem C8_get_compliance_deterministic env1 env2 w1 w2 patient_id :
  same_view env1 env2 w1 w2 →
  (get_patient_compliance env1 patient_id w1).1
  = (get_patient_compliance env2 patient_id w2).1
  ∧ users (get_patient_compliance env1 patient_id w1).2 = users w1
  ∧ bluetooth_devices (get_patient_compliance env1 patient_id w1).2
    = bluetooth_devices w1
  ∧ usage_sessions (get_patient_compliance env1 patient_id w1).2
    = usage_sessions w1.
Proof.
  intros Hv. split.
  - apply (agree_get_patient_compliance env1 env2 patient_id w1 w2 Hv).
  - apply read_only_get_patient_compliance.
Qed.

Lemma C8_get_compliance_deterministic_witness :
  (get_patient_compliance env_up "u-ann" world_one_report).1
  = (get_patient_compliance env_up' "u-ann" world_one_report').1.
Proof.
  apply (C8_get_compliance_deterministic env_up env_up'
           world_one_report world_one_report' "u-ann").
  repeat split. intros k.
  change (clock_reads world_one_report) with 2%nat.
  change (clock_reads world_one_report') with 0%nat.
  simpl utcnow_at. f_equal. lia.
Defined.

(** ** Analytics: buckets and the dense time series *)

Lemma usage_sessions_find_sorted_eq env flt n w :
  usage_sessions_find_sorted env flt n w =
  if db_down env (db_ops w) then (Raise ServerSelectionTimeoutError, tick_db w)
  else (Ok (take n (merge_sort created_at_le (List.filter flt (usage_sessions w)))),
        tick_db w).
Proof.
  unfold usage_sessions_find_sorted, bind, db_roundtrip, read_world, ret.
  destruct (db_down env (db_ops w)); reflexivity.
Qed.

Lemma day_night_keys_init : day_night_keys day_night_init.
Proof.
  intros k. unfold day_night_init. split.
  - intros [v Hv].
    destruct (decide (k = "day")) as [-> | Hd]; [by left |].
    rewrite lookup_insert_ne in Hv by congruence.
    destruct (decide (k = "night")) as [-> | Hn]; [by right |].
    rewrite lookup_insert_ne in Hv by congruence.
    rewrite lookup_empty in Hv. discriminate.
  - intros [-> | ->].
    + rewrite lookup_insert_eq. eauto.
    + rewrite lookup_insert_ne by discriminate. rewrite lookup_insert_eq. eauto.
Qed.

Lemma day_night_keys_insert (m : gmap string Z) k v :
  day_night_keys m → is_Some (m !! k) → day_night_keys (<[k := v]> m).
Proof.
  intros Hm Hk k'. rewrite lookup_insert_is_Some. rewrite <- (Hm k'). split.
  - intros [-> | [_ H]]; [exact Hk | exact H].
  - intros H. destruct (decide (k = k')) as [-> | Hne]; [by left | by right].
Qed.

(* With every time_of_day known the for loop completes. *)
Lemma bucket_sessions_ok sessions : ∀ (du : gmap Z Z) (dn : gmap string Z),
  day_night_keys dn → Forall known_time_of_day sessions →
  ∃ du' dn', bucket_sessions sessions du dn = Ok (du', dn') ∧ day_night_keys dn'.
Proof.
  induction sessions as [| s rest IH]; intros du dn Hdn Hall; simpl.
  - eauto.
  - apply Forall_cons in Hall as [Hs Hrest].
    assert (Hk : is_Some (dn !! DeviceUsageSession.time_of_day s)).
    { apply Hdn. exact Hs. }
    destruct Hk as [v Hv]. rewrite Hv. apply IH; [| exact Hrest].
    apply day_night_keys_insert; [exact Hdn | eauto].
Qed.

(* With one unknown time_of_day the for loop raises KeyError on the first
   such session. *)
Lemma bucket_sessions_fail sessions : ∀ (du : gmap Z Z) (dn : gmap string Z),
  day_night_keys dn → Exists (λ s, ¬ known_time_of_day s) sessions →
  ∃ k, bucket_sessions sessions du dn = Raise (KeyError k)
       ∧ k ≠ "day" ∧ k ≠ "night".
Proof.
  induction sessions as [| s rest IH]; intros du dn Hdn Hex; simpl.
  - by apply Exists_nil in Hex.
  - destruct (dn !! DeviceUsageSession.time_of_day s) as [v |] eqn:Hv.
    + apply Exists_cons in Hex as [Hbad | Hrest].
      * exfalso. apply Hbad. apply Hdn. eauto.
      * apply IH; [| exact Hrest]. apply day_night_keys_insert; [exact Hdn | eauto].
    + exists (DeviceUsageSession.time_of_day s). split; [reflexivity |].
      split; intros Heq.
      * assert (is_Some (dn !! DeviceUsageSession.time_of_day s)) as [? ?]
          by (apply Hdn; by left). congruence.
      * assert (is_Some (dn !! DeviceUsageSession.time_of_day s)) as [? ?]
          by (apply Hdn; by right). congruence.
Qed.

Lemma foldl_add_shift (l : list Z) (a : Z) : foldl Z.add a l = a + foldl Z.add 0 l.
Proof.
  revert a. induction l as [| x l IH]; intros a; simpl; [lia |].
  rewrite (IH (a + x)), (IH (0 + x)). lia.
Qed.

Lemma total_duration_of_cons s rest :
  total_duration_of (s :: rest)
  = DeviceUsageSession.duration_minutes s + total_duration_of rest.
Proof.
  unfold total_duration_of, py_sum. simpl. rewrite foldl_add_shift. reflexivity.
Qed.

(* What daily_usage holds for a calendar day after the for loop. *)
Lemma bucket_sessions_daily sessions : ∀ (du : gmap Z Z) (dn : gmap string Z) du' dn',
  bucket_sessions sessions du dn = Ok (du', dn') →
  ∀ key,
    default 0 (du' !! key) = default 0 (du !! key) + day_total key sessions
    ∧ (du' !! key = None ↔
       du !! key = None ∧ List.filter (on_day key) sessions = []).
Proof.
  induction sessions as [| s rest IH]; intros du dn du' dn' Hrun key; simpl in Hrun.
  - inversion Hrun; subst. unfold day_total. simpl. rewrite total_duration_of_nil.
    split; [lia | tauto].
  - destruct (dn !! DeviceUsageSession.time_of_day s) as [v |]; [| discriminate].
    destruct (IH _ _ _ _ Hrun key) as [Hsum Hnone].
    unfold day_total in *. simpl.
    destruct (on_day key s) eqn:Hk; unfold on_day in Hk.
    + apply bool_decide_eq_true in Hk. subst key.
      rewrite total_duration_of_cons.
      rewrite lookup_insert_eq in Hsum, Hnone. simpl in Hsum. split; [lia |].
      split; [intros H; apply Hnone in H as [H _]; discriminate |].
      intros [_ H]. discriminate.
    + apply bool_decide_eq_false in Hk.
      rewrite lookup_insert_ne in Hsum, Hnone by exact Hk.
      split; [exact Hsum | exact Hnone].
Qed.

Lemma date_key_add_days (t : datetime) (j : Z) :
  date_key (t + j * us_per_day) = date_key t + j.
Proof. unfold date_key. apply Z.div_add. discriminate. Qed.

(* The while loop, when the test holds [k] times and then fails. *)
Lemma time_series_loop_run env du : ∀ (k fuel : nat) current acc w,
  (k < fuel)%nat →
  (∀ j : nat, (j < k)%nat →
     current + Z.of_nat j * us_per_day ≤ utcnow_at env (j + clock_reads w)) →
  utcnow_at env (k + clock_reads w) < current + Z.of_nat k * us_per_day →
  (∀ j : nat, (j < k)%nat →
     datetime_in_range (current + Z.of_nat (S j) * us_per_day)) →
  time_series_loop env fuel du current acc w
  = (Ok (acc ++ map (λ j : nat, usage_point du (date_key current + Z.of_nat j))
                  (seq 0 k)),
     clock_advanced (S k) w).
Proof.
  induction k as [| k IH]; intros fuel current acc w Hfuel Hpass Hstop Hadd;
    (destruct fuel as [| fuel]; [lia |]); simpl time_series_loop;
    unfold bind; rewrite utcnow_eq.
  - simpl in Hstop. rewrite decide_False by lia.
    simpl. rewrite app_nil_r. reflexivity.
  - pose proof (Hpass 0%nat ltac:(lia)) as H0. simpl in H0.
    rewrite decide_True by lia.
    unfold lift, datetime_add.
    pose proof (Hadd 0%nat ltac:(lia)) as Hr. rewrite Z.mul_1_l in Hr.
    rewrite (decide_True _ _ Hr).
    rewrite (IH fuel (current + us_per_day) _ (tick_clock w)).
    + f_equal.
      * f_equal. rewrite <- app_assoc. f_equal. simpl. f_equal.
        -- rewrite Z.add_0_r. reflexivity.
        -- rewrite <- seq_shift, map_map. apply map_ext. intros j.
           replace (current + us_per_day) with (current + 1 * us_per_day) by lia.
           rewrite date_key_add_days. f_equal. lia.
      * unfold clock_advanced, tick_clock. simpl. f_equal. lia.
    + lia.
    + intros j Hj. simpl. rewrite Nat.add_succ_r.
      specialize (Hpass (S j) ltac:(lia)). simpl in Hpass. lia.
    + simpl. rewrite Nat.add_succ_r. simpl in Hstop. lia.
    + intros j Hj. specialize (Hadd (S j) ltac:(lia)).
      replace (current + us_per_day + Z.of_nat (S j) * us_per_day)
        with (current + Z.of_nat (S (S j)) * us_per_day) by lia.
      exact Hadd.
Qed.

(* The loop counter is never exhausted: each iteration either leaves the
   loop, or raises OverflowError, or moves current_date a day closer to
   datetime.max. *)
Lemma time_series_loop_fuel_enough env du : ∀ (fuel : nat) current acc w,
  current ≤ datetime_max →
  (Z.to_nat ((datetime_max - current) `div` us_per_day) < fuel)%nat →
  (time_series_loop env fuel du current acc w).1 ≠ Raise OutOfFuel.
Proof.
  induction fuel as [| fuel IH]; intros current acc w Hmax Hfuel; [lia |].
  simpl time_series_loop. unfold bind. rewrite utcnow_eq.
  destruct (decide (current ≤ _)); [| simpl; discriminate].
  unfold lift, datetime_add.
  destruct (decide (datetime_in_range (current + us_per_day))) as [Hr | Hr];
    [| simpl; discriminate].
  apply IH; [destruct Hr; lia |].
  destruct Hr as [_ Hr].
  replace (datetime_max - current)
    with ((datetime_max - (current + us_per_day)) + 1 * us_per_day) in Hfuel by lia.
  rewrite Z.div_add in Hfuel by discriminate.
  assert (0 ≤ (datetime_max - (current + us_per_day)) `div` us_per_day).
  { apply Z.div_pos; [lia | reflexivity]. }
  lia.
Qed.

Lemma usage_points_seqZ (du : gmap Z Z) (m : Z) (k : nat) :
  map (λ j : nat, usage_point du (m + Z.of_nat j)) (seq 0 k)
  = usage_point du <$> seqZ m (Z.of_nat k).
Proof.
  unfold seqZ. rewrite Nat2Z.id. rewrite <- list_fmap_compose.
  apply map_ext. intros j. simpl. f_equal. lia.
Qed.

(* The points of time_series are entries of daily_usage. *)
Lemma time_series_loop_points env du : ∀ (fuel : nat) current acc w ts w',
  time_series_loop env fuel du current acc w = (Ok ts, w') →
  ∃ keys, ts = acc ++ (usage_point du <$> keys).
Proof.
  induction fuel as [| fuel IH]; intros current acc w ts w'; [discriminate |].
  simpl time_series_loop. unfold bind. rewrite utcnow_eq.
  destruct (decide (current ≤ _)).
  - unfold lift, datetime_add.
    destruct (decide (datetime_in_range (current + us_per_day))); [| discriminate].
    intros Hrun. apply IH in Hrun as [keys ->].
    exists (date_key current :: keys). rewrite <- app_assoc. reflexivity.
  - unfold ret. intros H. inversion H. exists []. simpl. rewrite app_nil_r. reflexivity.
Qed.

(* The analytics of a request whose clock is steady. *)
Lemma get_patient_analytics_ok env patient_id days w :
  let now := utcnow_at env (clock_reads w) in
  let start := now - days * us_per_day in
  let fetched := analytics_fetched patient_id start w in
  analytics_dates_ok env days w →
  steady_clock env w (loop_tests days) →
  db_up env w 1 →
  Forall known_time_of_day fetched →
  ∃ a w' du dn,
    get_patient_analytics env patient_id days w = (Ok a, w')
    ∧ bucket_sessions fetched ∅ day_night_init = Ok (du, dn)
    ∧ Analytics.time_series a = (usage_point du <$> seqZ (date_key start) (days + 1))
    ∧ Analytics.day_night_distribution a = dn
    ∧ Analytics.total_days a = Z.of_nat (size du)
    ∧ Analytics.active_days a
      = len (List.filter (λ d, bool_decide (d > 0)) (values du)).
Proof.
  intros now start fetched (Hdays & Hstart & Hnext) Hclock Hup Hknown.
  pose proof (db_up_0 _ _ _ Hup) as H0.
  destruct (bucket_sessions_ok fetched ∅ day_night_init day_night_keys_init Hknown)
    as (du & dn & Hbucket & _).
  unfold get_patient_analytics, bind. rewrite utcnow_eq. unfold lift.
  rewrite mk_timedelta_days_small by exact Hdays.
  unfold datetime_sub. fold now. fold start. rewrite (decide_True _ _ Hstart).
  rewrite usage_sessions_find_sorted_eq. simpl db_ops. rewrite H0.
  simpl usage_sessions.
  fold (analytics_window patient_id start w).
  fold (analytics_fetched patient_id start w). fold fetched.
  fold day_night_init. rewrite Hbucket. simpl fst. simpl snd.
  rewrite (time_series_loop_run env du (Z.to_nat (days + 1))).
  - unfold ret. eexists _, _, du, dn. split; [reflexivity |].
    split; [reflexivity |]. simpl.
    rewrite usage_points_seqZ. repeat split.
    destruct (decide (0 ≤ days + 1)) as [Hpos | Hneg].
    + rewrite Z2Nat.id by exact Hpos. reflexivity.
    + rewrite (seqZ_nil _ (days + 1)) by lia.
      replace (Z.to_nat (days + 1)) with 0%nat by lia. reflexivity.
  - unfold time_series_fuel.
    assert (Z.to_nat (days + 1)
            ≤ S (Z.to_nat ((datetime_max - start) `div` us_per_day)))%nat; [| lia].
    destruct (decide (0 ≤ days)) as [Hpos | Hneg]; [| lia].
    assert (days ≤ (datetime_max - start) `div` us_per_day); [| lia].
    apply Z.div_le_lower_bound; [reflexivity |]. unfold start, us_per_day in *. lia.
  - intros j Hj. simpl. destruct (Hclock j) as [Hlo _]; [unfold loop_tests; lia |].
    fold now in Hlo.
    assert (Z.of_nat j ≤ days) by lia.
    unfold start. unfold us_per_day in *. nia.
  - simpl. destruct (Hclock (Z.to_nat (days + 1))) as [_ Hhi]; [unfold loop_tests; lia |].
    fold now in Hhi.
    destruct (decide (0 ≤ days + 1)) as [Hpos | Hneg].
    + rewrite Z2Nat.id by exact Hpos. unfold start. lia.
    + replace (Z.to_nat (days + 1)) with 0%nat in * by lia.
      unfold start. unfold us_per_day in *. nia.
  - intros j Hj. destruct Hstart as [Hs0 Hs1].
    assert (Z.of_nat (S j) ≤ days + 1) by lia.
    unfold datetime_in_range, start in *. unfold us_per_day in *. split; nia.
Qed.

Lemma analytics_fetched_window patient_id start w s :
  s ∈ analytics_fetched patient_id start w → s ∈ analytics_window patient_id start w.
Proof.
  unfold analytics_fetched. intros Hs. apply subseteq_take in Hs.
  rewrite merge_sort_Permutation in Hs. exact Hs.
Qed.

Lemma filter_nil_none {A} (f : A → bool) (l : list A) :
  (∀ x, x ∈ l → f x = false) → List.filter f l = [].
Proof.
  induction l as [| x l IH]; intros H; simpl; [reflexivity |].
  rewrite (H x) by left. apply IH. intros y Hy. apply H. by right.
Qed.

(** C5, as the specification states it, fails on its own example: over
    a 3-day window with sessions only on day 1 and day 3 the series has
    4 entries, not 3: the window reaches from the day of windowStart to
    today, both included. activeDays and totalDays are 2. *)
Lemma C5_three_day_window_four_points :
  ∃ a,
    (get_patient_analytics env_up "u-ann" 3 world_two_days).1 = Ok a
    ∧ length (Analytics.time_series a) = 4%nat
    ∧ length (Analytics.time_series a) ≠ 3%nat
    ∧ Analytics.active_days a = 2
    ∧ Analytics.total_days a = 2.
Proof.
  eexists. split; [apply value_Some; vm_compute; reflexivity |].
  simpl. repeat split. discriminate.
Qed.

(** C5, amended. For every windowDays, the time series returned by
    getAnalytics contains exactly one DailyUsagePoint for each calendar
    day from the day of windowStart to today, both included, that is
    windowDays + 1 points (none when windowDays is negative), with
    usageMinutes = 0 on days without sessions; in particular, over a
    3-day window with sessions only on day 1 and day 3 it returns exactly
    4 entries (the two days without sessions present with usageMinutes =
    0), with activeDays = 2 and totalDays = 2. (The call returns when the
    database answers, the dates are representable, the clock is steady
    and the sessions it reads have a known timeOfDay.) *)
Theorem C5_dense_time_series :
  (∀ env patient_id days w,
     let now := utcnow_at env (clock_reads w) in
     let start := now - days * us_per_day in
     let fetched := analytics_fetched patient_id start w in
     analytics_dates_ok env days w →
     steady_clock env w (loop_tests days) →
     db_up env w 1 →
     Forall known_time_of_day fetched →
     ∃ a w',
       get_patient_analytics env patient_id days w = (Ok a, w')
       ∧ DailyUsagePoint.date <$> Analytics.time_series a
         = seqZ (date_key start) (days + 1)
       ∧ length (Analytics.time_series a) = Z.to_nat (days + 1)
       ∧ (∀ day, (∃ p, p ∈ Analytics.time_series a ∧ DailyUsagePoint.date p = day)
                 ↔ date_key start ≤ day ≤ date_key now)
       ∧ NoDup (DailyUsagePoint.date <$> Analytics.time_series a)
       ∧ (∀ p, p ∈ Analytics.time_series a →
            DailyUsagePoint.usage_minutes p
            = day_total (DailyUsagePoint.date p) fetched)
       ∧ (∀ p, p ∈ Analytics.time_series a →
            (∀ s, s ∈ analytics_window patient_id start w →
                  date_key (DeviceUsageSession.created_at s) ≠ DailyUsagePoint.date p) →
            DailyUsagePoint.usage_minutes p = 0))
  ∧ (∃ a,
       (get_patient_analytics env_up "u-ann" 3 world_two_days).1 = Ok a
       ∧ map (λ p, (DailyUsagePoint.date p, DailyUsagePoint.usage_minutes p))
           (Analytics.time_series a)
         = [(737997, 90); (737998, 0); (737999, 45); (738000, 0)]
       ∧ Analytics.active_days a = 2
       ∧ Analytics.total_days a = 2).
Proof.
  split.
  - intros env patient_id days w now start fetched Hdates Hclock Hup Hknown.
    destruct (get_patient_analytics_ok env patient_id days w Hdates Hclock Hup Hknown)
      as (a & w' & du & dn & Hrun & Hbucket & Hts & _).
    fold now in Hts. fold start in Hts, Hbucket. fold fetched in Hbucket.
    assert (Hdate : DailyUsagePoint.date <$> Analytics.time_series a
                    = seqZ (date_key start) (days + 1)).
    { rewrite Hts, <- list_fmap_compose.
      rewrite <- (list_fmap_id (seqZ (date_key start) (days + 1))) at 2.
      apply list_fmap_ext. intros i key _. reflexivity. }
    assert (Hminutes : ∀ p, p ∈ Analytics.time_series a →
              DailyUsagePoint.usage_minutes p
              = day_total (DailyUsagePoint.date p) fetched).
    { intros p Hp. rewrite Hts in Hp.
      apply list_elem_of_fmap in Hp as (key & -> & _). simpl.
      destruct (bucket_sessions_daily _ _ _ _ _ Hbucket key) as [Hsum _].
      rewrite Hsum, lookup_empty. apply Z.add_0_l. }
    exists a, w'. split; [exact Hrun |]. split; [exact Hdate |].
    split; [| split; [| split; [| split]]].
    + rewrite Hts, length_fmap, length_seqZ. reflexivity.
    + assert (Hnow : date_key now = date_key start + days).
      { rewrite <- date_key_add_days. f_equal. unfold start. lia. }
      intros day. split.
      * intros (p & Hp & <-).
        assert (Hin : DailyUsagePoint.date p
                      ∈ DailyUsagePoint.date <$> Analytics.time_series a).
        { apply list_elem_of_fmap. eauto. }
        rewrite Hdate in Hin. apply elem_of_seqZ in Hin. lia.
      * intros Hday.
        assert (Hin : day ∈ DailyUsagePoint.date <$> Analytics.time_series a).
        { rewrite Hdate. apply elem_of_seqZ. lia. }
        apply list_elem_of_fmap in Hin as (p & -> & Hp). eauto.
    + rewrite Hdate. apply NoDup_seqZ.
    + exact Hminutes.
    + intros p Hp Hnone. rewrite (Hminutes p Hp). unfold day_total.
      rewrite filter_nil_none; [reflexivity |].
      intros s Hs. unfold on_day. apply bool_decide_eq_false.
      apply Hnone. apply analytics_fetched_window. exact Hs.
  - eexists. split; [apply value_Some; vm_compute; reflexivity |].
    simpl. repeat split.
Qed.

Lemma C5_dense_time_series_witness :
  ∃ a w',
    get_patient_analytics env_up "u-ann" 3 world_two_days = (Ok a, w')
    ∧ DailyUsagePoint.date <$> Analytics.time_series a = seqZ 737997 4
    ∧ length (Analytics.time_series a) = 4%nat.
Proof.
  destruct C5_dense_time_series as [H _].
  destruct (H env_up "u-ann" 3 world_two_days)
    as (a & w' & Hrun & Hdate & Hlen & _).
  - unfold analytics_dates_ok, datetime_in_range. vm_compute.
    repeat split; discriminate.
  - intros j Hj. unfold loop_tests in Hj.
    change (Z.to_nat (3 + 1)) with 4%nat in Hj.
    change (clock_reads world_two_days) with 0%nat.
    unfold env_up, us_per_day. simpl utcnow_at. lia.
  - intros i Hi. reflexivity.
  - apply (bool_decide_unpack _). vm_compute. exact I.
  - exists a, w'. split; [exact Hrun |]. split; [exact Hdate | exact Hlen].
Defined.

Lemma get_patient_analytics_keyerror env patient_id days w :
  let now := utcnow_at env (clock_reads w) in
  let start := now - days * us_per_day in
  analytics_dates_ok env days w →
  db_up env w 1 →
  Exists (λ s, ¬ known_time_of_day s) (analytics_fetched patient_id start w) →
  ∃ k w',
    get_patient_analytics env patient_id days w = (Raise (KeyError k), w')
    ∧ k ≠ "day" ∧ k ≠ "night".
Proof.
  intros now start (Hdays & Hstart & _) Hup Hbad.
  pose proof (db_up_0 _ _ _ Hup) as H0.
  destruct (bucket_sessions_fail _ ∅ day_night_init day_night_keys_init Hbad)
    as (k & Hbucket & Hk).
  unfold get_patient_analytics, bind. rewrite utcnow_eq. unfold lift.
  rewrite mk_timedelta_days_small by exact Hdays.
  unfold datetime_sub. fold now. fold start. rewrite (decide_True _ _ Hstart).
  rewrite usage_sessions_find_sorted_eq. simpl db_ops. rewrite H0.
  simpl usage_sessions.
  fold (analytics_window patient_id start w).
  fold (analytics_fetched patient_id start w).
  fold day_night_init. rewrite Hbucket.
  eexists k, _. split; [reflexivity | exact Hk].
Qed.

(** C10, as the specification states it, fails: a stored session of the
    window with an unknown timeOfDay does not make getAnalytics fail when
    the query does not return it. After 1000 reports of the day and a
    later one of the "evening", the query returns the 1000 oldest and
    getAnalytics succeeds. *)
Lemma C10_unread_session_no_error :
  ∃ s a,
    s ∈ analytics_window "u-ann"
          (utcnow_at env_up (clock_reads world_1000_then_evening) - 1 * us_per_day)
          world_1000_then_evening
    ∧ ¬ known_time_of_day s
    ∧ (get_patient_analytics env_up "u-ann" 1 world_1000_then_evening).1 = Ok a.
Proof.
  eexists _, _. split; [apply last_Some_elem_of; vm_compute; reflexivity |].
  split; [| apply value_Some; vm_compute; reflexivity].
  intros [H | H]; discriminate H.
Qed.

(** C10, amended. With the database up and representable dates,
    getAnalytics fails with an unhandled key lookup (KeyError) whenever
    one of the sessions its query returns, the 1000 oldest of the window,
    has a timeOfDay other than day or night; such a session is reachable
    through recordUsage, which accepts any string. Under the precondition
    that every session the query returns has timeOfDay in {day, night},
    which holds when every session of the window has, the day/night
    bucketing is total and, the clock being steady, getAnalytics
    succeeds. *)
Theorem C10_key_error_on_unknown_time_of_day :
  (∀ env patient_id days w,
     let now := utcnow_at env (clock_reads w) in
     let start := now - days * us_per_day in
     let fetched := analytics_fetched patient_id start w in
     analytics_dates_ok env days w →
     db_up env w 1 →
     (Exists (λ s, ¬ known_time_of_day s) fetched →
      ∃ k w',
        get_patient_analytics env patient_id days w = (Raise (KeyError k), w')
        ∧ k ≠ "day" ∧ k ≠ "night")
     ∧ (Forall known_time_of_day fetched →
        (∃ du dn, bucket_sessions fetched ∅ day_night_init = Ok (du, dn))
        ∧ (steady_clock env w (loop_tests days) →
           ∃ a w', get_patient_analytics env patient_id days w = (Ok a, w')))
     ∧ (Forall known_time_of_day (analytics_window patient_id start w) →
        Forall known_time_of_day fetched))
  ∧ (get_patient_analytics env_up "u-ann" 1 world_evening).1
    = Raise (KeyError "evening").
Proof.
  split; [| vm_compute; reflexivity].
  intros env patient_id days w now start fetched Hdates Hup.
  split; [| split].
  - apply get_patient_analytics_keyerror; assumption.
  - intros Hknown. split.
    + destruct (bucket_sessions_ok fetched ∅ day_night_init
                  day_night_keys_init Hknown) as (du & dn & Hb & _). eauto.
    + intros Hclock.
      destruct (get_patient_analytics_ok env patient_id days w
                  Hdates Hclock Hup Hknown) as (a & w' & _ & _ & Hrun & _).
      eauto.
  - intros Hall. apply Forall_forall. intros s Hs.
    apply analytics_fetched_window in Hs.
    rewrite Forall_forall in Hall. apply Hall. exact Hs.
Qed.

Lemma C10_key_error_on_unknown_time_of_day_witness :
  (∃ k w',
      get_patient_analytics env_up "u-ann" 1 world_evening = (Raise (KeyError k), w')
      ∧ k ≠ "day" ∧ k ≠ "night")
  ∧ (∃ a w', get_patient_analytics env_up "u-ann" 3 world_two_days = (Ok a, w')).
Proof.
  destruct C10_key_error_on_unknown_time_of_day as [H _].
  split.
  - destruct (H env_up "u-ann" 1 world_evening) as (Hfail & _).
    + unfold analytics_dates_ok, datetime_in_range. vm_compute.
      repeat split; discriminate.
    + intros i Hi. reflexivity.
    + apply Hfail. apply (bool_decide_unpack _). vm_compute. exact I.
  - destruct (H env_up "u-ann" 3 world_two_days) as (_ & Hok & _).
    + unfold analytics_dates_ok, datetime_in_range. vm_compute.
      repeat split; discriminate.
    + intros i Hi. reflexivity.
    + apply Hok.
      * apply (bool_decide_unpack _). vm_compute. exact I.
      * intros j Hj. unfold loop_tests in Hj.
        change (Z.to_nat (3 + 1)) with 4%nat in Hj.
        change (clock_reads world_two_days) with 0%nat.
        unfold env_up, us_per_day. simpl utcnow_at. lia.
Defined.

(* What get_patient_analytics returns is computed from the sessions of
   its query. *)
Lemma get_patient_analytics_inv env patient_id days w a w' :
  get_patient_analytics env patient_id days w = (Ok a, w') →
  let now := utcnow_at env (clock_reads w) in
  let start := now - days * us_per_day in
  let fetched := analytics_fetched patient_id start w in
  ∃ du dn keys,
    bucket_sessions fetched ∅ day_night_init = Ok (du, dn)
    ∧ Analytics.time_series a = (usage_point du <$> keys)
    ∧ Analytics.day_night_distribution a = dn
    ∧ Analytics.total_days a = Z.of_nat (size du)
    ∧ Analytics.active_days a
      = len (List.filter (λ d, bool_decide (d > 0)) (values du))
    ∧ Analytics.average_daily_minutes a
      = true_div (py_sum (values du)) (Z.max (Z.of_nat (size du)) 1).
Proof.
  intros Hrun now start fetched. revert Hrun.
  unfold get_patient_analytics, bind. rewrite utcnow_eq. unfold lift.
  unfold mk_timedelta. rewrite Z.mul_0_l, Z.add_0_r.
  destruct (decide (Z.abs _ ≤ _)); [| discriminate].
  unfold datetime_sub. fold now. fold start.
  destruct (decide (datetime_in_range start)); [| discriminate].
  rewrite usage_sessions_find_sorted_eq. simpl db_ops.
  destruct (db_down env (db_ops w)); [discriminate |].
  simpl usage_sessions.
  fold (analytics_window patient_id start w).
  fold (analytics_fetched patient_id start w). fold fetched.
  fold day_night_init.
  destruct (bucket_sessions fetched ∅ day_night_init) as [[du dn] | e] eqn:Hb;
    [| discriminate].
  simpl fst. simpl snd.
  destruct (time_series_loop env (time_series_fuel start) du start [] _)
    as [[ts | e] w''] eqn:Hloop; [| discriminate].
  apply time_series_loop_points in Hloop as [keys ->].
  unfold ret. intros H. inversion H. subst. simpl.
  exists du, dn, keys. repeat split.
Qed.

Lemma bucket_sessions_raises sessions : ∀ (du : gmap Z Z) (dn : gmap string Z) e,
  bucket_sessions sessions du dn = Raise e → ∃ k, e = KeyError k.
Proof.
  induction sessions as [| s rest IH]; intros du dn e; simpl; [discriminate |].
  destruct (dn !! DeviceUsageSession.time_of_day s); [apply IH |].
  intros H. inversion H. eauto.
Qed.

(* The bound of the loop counter is not an outcome of the handler. *)
Lemma get_patient_analytics_fuel env patient_id days w :
  (get_patient_analytics env patient_id days w).1 ≠ Raise OutOfFuel.
Proof.
  unfold get_patient_analytics, bind. rewrite utcnow_eq. unfold lift.
  unfold mk_timedelta.
  destruct (decide (Z.abs _ ≤ _)); [| simpl; discriminate].
  unfold datetime_sub.
  destruct (decide (datetime_in_range _)) as [[Hlo Hhi] | ?]; [| simpl; discriminate].
  rewrite usage_sessions_find_sorted_eq. simpl db_ops.
  destruct (db_down env (db_ops w)); [simpl; discriminate |].
  match goal with
  | |- context [bucket_sessions ?l ?a ?b] =>
      destruct (bucket_sessions l a b) as [[du dn] | e] eqn:Hb
  end; [| apply bucket_sessions_raises in Hb as [k ->]; simpl; discriminate].
  cbn [fst snd].
  match goal with
  | |- context [time_series_loop env ?f ?d ?c ?acc ?W] =>
      pose proof (time_series_loop_fuel_enough env d f c acc W Hhi) as Hfuel;
      destruct (time_series_loop env f d c acc W) as [[ts | e] w'']
  end; [simpl; discriminate |].
  simpl in *. intros Heq. inversion Heq; subst.
  apply Hfuel; [unfold time_series_fuel; lia | reflexivity].
Qed.

Lemma length_take_1000 {A} (l : list A) : (length (take 1000 l) ≤ 1000)%nat.
Proof. rewrite length_take. lia. Qed.

(** C9. Every session query of the aggregation operations (the 30-day
    fetch of getCompliance, the two 7-day fetches of the trend and the
    window fetch of getAnalytics) reads at most 1000 session records, and
    what the operations return is computed from the records read; so for
    a patient whose window holds more than 1000 sessions the totals,
    averages and trend are based on a 1000-session subset and not on all
    matching sessions: totalSessions is 1000 and some matching sessions
    are left out. *)
Theorem C9_queries_capped_at_1000 :
  (∀ env patient_id w c w',
     get_patient_compliance env patient_id w = (Ok c, w') →
     let now := utcnow_at env (clock_reads w) in
     let window := compliance_window patient_id now w in
     let fetched := compliance_fetched patient_id now w in
     (length fetched ≤ 1000)%nat
     ∧ Compliance.total_sessions c = len fetched
     ∧ Compliance.total_duration_minutes c = total_duration_of fetched
     ∧ ((1000 < length window)%nat →
        Compliance.total_sessions c = 1000
        ∧ ∃ rest, rest ≠ [] ∧ window = fetched ++ rest))
  ∧ (∀ env patient_id w t w',
       calculate_usage_trend env patient_id w = (Ok t, w') →
       let now := utcnow_at env (clock_reads w) in
       (length (last_week_fetched patient_id now w) ≤ 1000)%nat
       ∧ (length (prev_week_fetched patient_id now w) ≤ 1000)%nat
       ∧ t = classify_trend
               (total_duration_of (last_week_fetched patient_id now w))
               (total_duration_of (prev_week_fetched patient_id now w)))
  ∧ (∀ env patient_id days w a w',
       get_patient_analytics env patient_id days w = (Ok a, w') →
       let now := utcnow_at env (clock_reads w) in
       let fetched := analytics_fetched patient_id (now - days * us_per_day) w in
       (length fetched ≤ 1000)%nat
       ∧ ∃ du dn keys,
           bucket_sessions fetched ∅ day_night_init = Ok (du, dn)
           ∧ Analytics.time_series a = (usage_point du <$> keys)
           ∧ Analytics.day_night_distribution a = dn
           ∧ Analytics.total_days a = Z.of_nat (size du)
           ∧ Analytics.average_daily_minutes a
             = true_div (py_sum (values du)) (Z.max (Z.of_nat (size du)) 1))
  ∧ (length (compliance_window "u-ann"
               (utcnow_at env_up (clock_reads world_1001)) world_1001) = 1001%nat
     ∧ Compliance.total_sessions
         <$> value (get_patient_compliance env_up "u-ann" world_1001).1
       = Some 1000).
Proof.
  split; [| split; [| split]].
  - intros env patient_id w c w' Hrun now window fetched.
    apply get_patient_compliance_inv in Hrun as (user & _ & -> & _). simpl.
    split; [apply length_take_1000 |]. split; [reflexivity |].
    split; [reflexivity |]. intros Hlen. split.
    + unfold len. fold now. fold fetched. unfold fetched, compliance_fetched.
      fold window. rewrite length_take_le by lia. reflexivity.
    + exists (drop 1000 window). split.
      * intros Hnil. pose proof (length_drop window 1000) as Hd.
        rewrite Hnil in Hd. simpl in Hd. lia.
      * unfold fetched, compliance_fetched. fold window.
        symmetry. apply take_drop.
  - intros env patient_id w t w' Hrun now.
    apply calculate_usage_trend_inv in Hrun as [-> _].
    split; [apply length_take_1000 |]. split; [apply length_take_1000 | reflexivity].
  - intros env patient_id days w a w' Hrun now fetched.
    split; [apply length_take_1000 |].
    destruct (get_patient_analytics_inv _ _ _ _ _ _ Hrun)
      as (du & dn & keys & Hb & Hts & Hdn & Htd & _ & Havg).
    exists du, dn, keys. repeat split; assumption.
  - split; vm_compute; reflexivity.
Qed.

Lemma C9_queries_capped_at_1000_witness :
  ∃ c w',
    get_patient_compliance env_up "u-ann" world_1001 = (Ok c, w')
    ∧ Compliance.total_sessions c = 1000
    ∧ (length (compliance_fetched "u-ann"
                 (utcnow_at env_up (clock_reads world_1001)) world_1001)
       ≤ 1000)%nat.
Proof.
  destruct C9_queries_capped_at_1000 as (H & _ & _ & Hlen & _).
  destruct (get_patient_compliance env_up "u-ann" world_1001) as [r w'] eqn:Hrun.
  destruct r as [c | e].
  - destruct (H env_up "u-ann" world_1001 c w' Hrun) as (Hle & _ & _ & Hcap).
    exists c, w'. split; [reflexivity |]. split; [| exact Hle].
    apply Hcap. rewrite Hlen. lia.
  - exfalso.
    assert (Hv : value (get_patient_compliance env_up "u-ann" world_1001).1 ≠ None)
      by (vm_compute; discriminate).
    rewrite Hrun in Hv. apply Hv. reflexivity.
Defined.

(** ** Roster *)

Lemma users_find_eq env flt n w :
  users_find env flt n w =
  if db_down env (db_ops w) then (Raise ServerSelectionTimeoutError, tick_db w)
  else (Ok (take n (List.filter flt (users w))), tick_db w).
Proof.
  unfold users_find, bind, db_roundtrip, read_world, ret.
  destruct (db_down env (db_ops w)); reflexivity.
Qed.

Lemma roster_loop_cons env patient rest acc w :
  roster_loop env (patient :: rest) acc w
  = roster_loop env rest (acc ++ [(roster_entry env patient w).1])
      (roster_entry env patient w).2.
Proof.
  simpl roster_loop. unfold bind, try_except, roster_entry.
  destruct (get_patient_compliance env (User.id patient) w) as [[c | e] w1];
    reflexivity.
Qed.

(* The for loop never raises: it returns one entry per patient, in order. *)
Lemma roster_loop_spec env : ∀ patients acc w,
  ∃ entries w',
    roster_loop env patients acc w = (Ok (acc ++ entries), w')
    ∧ length entries = length patients
    ∧ ∀ i patient, patients !! i = Some patient →
        entries !! i
        = Some (roster_entry env patient (roster_world env patients i w)).1.
Proof.
  induction patients as [| patient rest IH]; intros acc w.
  - exists [], w. simpl. rewrite app_nil_r. repeat split. intros i p Hi.
    rewrite lookup_nil in Hi. discriminate.
  - rewrite roster_loop_cons.
    destruct (IH (acc ++ [(roster_entry env patient w).1])
                (roster_entry env patient w).2) as (entries & w' & Hrun & Hlen & Hi).
    exists ((roster_entry env patient w).1 :: entries), w'.
    rewrite Hrun, <- app_assoc. split; [reflexivity |].
    split; [simpl; rewrite Hlen; reflexivity |].
    intros [| i] p Hp; simpl in Hp.
    + inversion Hp; subst. reflexivity.
    + simpl. apply Hi. exact Hp.
Qed.

Lemma roster_entry_patient_id env patient w :
  entry_patient_id (roster_entry env patient w).1 = User.id patient.
Proof.
  unfold roster_entry.
  destruct (get_patient_compliance env (User.id patient) w) as [[c | e] w'] eqn:Hrun;
    [| reflexivity].
  apply get_patient_compliance_inv in Hrun as (user & _ & -> & _). reflexivity.
Qed.

Lemma roster_entry_read_only env patient w :
  users (roster_entry env patient w).2 = users w
  ∧ bluetooth_devices (roster_entry env patient w).2 = bluetooth_devices w
  ∧ usage_sessions (roster_entry env patient w).2 = usage_sessions w.
Proof.
  pose proof (read_only_get_patient_compliance env (User.id patient) w) as H.
  unfold roster_entry.
  destruct (get_patient_compliance env (User.id patient) w) as [[c | e] w'];
    exact H.
Qed.

Lemma roster_world_read_only env : ∀ patients i w,
  users (roster_world env patients i w) = users w
  ∧ bluetooth_devices (roster_world env patients i w) = bluetooth_devices w
  ∧ usage_sessions (roster_world env patients i w) = usage_sessions w.
Proof.
  induction patients as [| patient rest IH]; intros [| i] w; simpl; auto.
  destruct (IH i (roster_entry env patient w).2) as (H1 & H2 & H3).
  destruct (roster_entry_read_only env patient w) as (H4 & H5 & H6).
  rewrite H1, H2, H3. auto.
Qed.

(** C6, as the specification states it, fails for the first reason it
    names: a patient with no sessions is no failure of the compliance
    computation. Ann has a registered device and no session; her entry
    is the computed summary, with deviceConnected = true, and not the
    zero-valued summary. *)
Lemma C6_no_sessions_is_not_a_failure :
  usage_sessions world_registered = []
  ∧ ∃ c,
      (get_doctor_patients env_up "u-dee" world_registered).1 = Ok [Computed c]
      ∧ Compliance.total_sessions c = 0
      ∧ Compliance.device_connected c = true
      ∧ Computed c ≠ Fallback (no_data ann).
Proof.
  split; [reflexivity |].
  eexists. split; [apply value_Some; vm_compute; reflexivity |].
  simpl. repeat split. discriminate.
Qed.

(** C6, amended. For every list of patient identities of type patient
    (the first 100 the identity store lists), getRoster returns exactly
    one entry per identity, in the order of the identities. When the
    per-patient compliance computation fails for any reason (lookup
    error, storage failure), that patient's entry is the zero-valued
    summary {totalSessions: 0, totalDurationMinutes: 0, averageDailyUsage:
    0, compliancePercentage: 0, lastSession: absent, deviceConnected:
    false} and the failure is never propagated to the caller. A patient
    with no sessions is no failure: the entry is the computed summary,
    with zero totals, no lastSession, and the deviceConnected flag of the
    device registry. Over 3 identities of which the second meets a storage
    failure, the roster has 3 entries in order, the second zero-valued. *)
Theorem C6_roster_entries :
  (∀ env doctor_id w,
     db_up env w 1 →
     let patients := roster_patients w in
     ∃ entries w',
       get_doctor_patients env doctor_id w = (Ok entries, w')
       ∧ entry_patient_id <$> entries = User.id <$> patients
       ∧ ∀ i patient, patients !! i = Some patient →
           let wi := roster_world env patients i (tick_db w) in
           let now := utcnow_at env (clock_reads wi) in
           users wi = users w
           ∧ bluetooth_devices wi = bluetooth_devices w
           ∧ usage_sessions wi = usage_sessions w
           ∧ match (get_patient_compliance env (User.id patient) wi).1 with
             | Raise _ => entries !! i = Some (Fallback (no_data patient))
             | Ok c =>
                 entries !! i = Some (Computed c)
                 ∧ (compliance_window (User.id patient) now w = [] →
                    Compliance.total_sessions c = 0
                    ∧ Compliance.total_duration_minutes c = 0
                    ∧ (Compliance.average_daily_usage c == 0)%Q
                    ∧ (Compliance.compliance_percentage c == 0)%Q
                    ∧ Compliance.last_session c = None
                    ∧ Compliance.device_connected c
                      = registry_flag (User.id patient) w)
             end)
  ∧ (∃ c1 c3,
       (get_doctor_patients env_outage "u-dee" world_three_patients).1
       = Ok [Computed c1; Fallback (no_data bob); Computed c3]
       ∧ Compliance.patient_id c1 = "u-ann"
       ∧ Compliance.patient_id c3 = "u-cat").
Proof.
  split.
  - intros env doctor_id w Hup patients.
    pose proof (db_up_0 _ _ _ Hup) as H0.
    unfold get_doctor_patients, bind. rewrite users_find_eq, H0.
    fold (roster_patients w). fold patients.
    destruct (roster_loop_spec env patients [] (tick_db w))
      as (entries & w' & Hrun & Hlen & Hi).
    simpl in Hrun. exists entries, w'. split; [exact Hrun |]. split.
    + apply (list_eq_same_length _ _ (length patients));
        [rewrite length_fmap; reflexivity | rewrite length_fmap; exact Hlen |].
      intros i x y _ Hx Hy.
      rewrite list_lookup_fmap in Hx. rewrite list_lookup_fmap in Hy.
      destruct (patients !! i) as [patient |] eqn:Hp; [| discriminate].
      rewrite (Hi i patient Hp) in Hx. simpl in Hx, Hy.
      inversion Hx; inversion Hy; subst. apply roster_entry_patient_id.
    + intros i patient Hp.
      set (wi := roster_world env patients i (tick_db w)).
      set (now := utcnow_at env (clock_reads wi)).
      destruct (roster_world_read_only env patients i (tick_db w))
        as (Hu & Hd & Hs).
      fold wi in Hu, Hd, Hs. simpl in Hu, Hd, Hs.
      split; [exact Hu |]. split; [exact Hd |]. split; [exact Hs |].
      specialize (Hi i patient Hp). fold wi in Hi. unfold roster_entry in Hi.
      destruct (get_patient_compliance env (User.id patient) wi)
        as [[c | e] w''] eqn:Hc; simpl in *; [| exact Hi].
      split; [exact Hi |]. intros Hnil.
      apply get_patient_compliance_inv in Hc as (user & _ & -> & _).
      fold now. unfold compliance_fetched, compliance_window, registry_flag.
      rewrite Hs, Hd. fold (compliance_window (User.id patient) now w).
      rewrite Hnil. simpl. repeat split; reflexivity.
  - eexists _, _. split; [apply value_Some; vm_compute; reflexivity |].
    split; reflexivity.
Qed.

Lemma C6_roster_entries_witness :
  ∃ entries w',
    get_doctor_patients env_outage "u-dee" world_three_patients = (Ok entries, w')
    ∧ entry_patient_id <$> entries = ["u-ann"; "u-bob"; "u-cat"].
Proof.
  destruct C6_roster_entries as [H _].
  destruct (H env_outage "u-dee" world_three_patients)
    as (entries & w' & Hrun & Hids & _).
  - intros i Hi. destruct i as [| i]; [reflexivity | lia].
  - exists entries, w'. split; [exact Hrun | exact Hids].
Defined.

(** ** Login *)

Lemma users_insert_one_eq env doc w :
  users_insert_one env doc w =
  if db_down env (db_ops w) then (Raise ServerSelectionTimeoutError, tick_db w)
  else (Ok tt,
        mkWorld (users w ++ [doc]) (bluetooth_devices w) (usage_sessions w)
          (active_connections w) (sent_messages w)
          (clock_reads w) (uuid_draws w) (S (db_ops w))).
Proof.
  unfold users_insert_one, bind, db_roundtrip, read_world, set_users.
  destruct (db_down env (db_ops w)); reflexivity.
Qed.

Lemma get_user_by_login_eq env login_data w :
  get_user_by_login env login_data w =
  match login_filter login_data with
  | Some f => users_find_one env f w
  | None => (Ok None, w)
  end.
Proof.
  unfold get_user_by_login, login_filter.
  destruct (bool_decide _ && truthy _); [reflexivity |].
  destruct (bool_decide _ && truthy _); reflexivity.
Qed.

Lemma login_filter_credentials login_data :
  has_credentials login_data ↔ is_Some (login_filter login_data).
Proof.
  unfold has_credentials, login_filter. split.
  - intros [[Ht Hp] | [Ht Hd]].
    + rewrite bool_decide_eq_true_2 by exact Ht. rewrite Hp. simpl. eauto.
    + destruct (bool_decide _ && truthy (UserLogin.patient_id _)); [eauto |].
      rewrite bool_decide_eq_true_2 by exact Ht. rewrite Hd. simpl. eauto.
  - destruct (bool_decide (UserLogin.user_type login_data = "patient")
              && truthy (UserLogin.patient_id login_data)) eqn:H1.
    + intros _. left. apply andb_true_iff in H1 as [H1 H2].
      apply bool_decide_eq_true in H1. auto.
    + destruct (bool_decide (UserLogin.user_type login_data = "doctor")
                && truthy (UserLogin.doctor_id login_data)) eqn:H2.
      * intros _. right. apply andb_true_iff in H2 as [H2 H3].
        apply bool_decide_eq_true in H2. auto.
      * intros [f Hf]. discriminate.
Qed.


(* What a successful login returned and did. *)
Lemma login_inv env login_data w r w' :
  login env login_data w = (Ok r, w') →
  LoginResponse.success r = true
  ∧ LoginResponse.token r = String.append "user_" (User.id (LoginResponse.user r))
  ∧ bluetooth_devices w' = bluetooth_devices w
  ∧ usage_sessions w' = usage_sessions w
  ∧ ((∃ f, login_filter login_data = Some f
           ∧ head (List.filter f (users w)) = Some (LoginResponse.user r)
           ∧ users w' = users w)
     ∨ ((login_filter login_data = None
         ∨ ∃ f, login_filter login_data = Some f
                ∧ head (List.filter f (users w)) = None)
        ∧ (∃ w0, LoginResponse.user r = new_user env login_data w0
                 ∧ uuid_draws w0 = uuid_draws w
                 ∧ clock_reads w0 = clock_reads w)
        ∧ users w' = users w ++ [LoginResponse.user r])).
Proof.
  unfold login, bind. rewrite get_user_by_login_eq.
  destruct (login_filter login_data) as [f |] eqn:Hf.
  - rewrite users_find_one_eq.
    destruct (db_down env (db_ops w)); [discriminate |].
    destruct (head (List.filter f (users w))) as [u |] eqn:Hu.
    + unfold ret. intros H. inversion H; subst. simpl.
      repeat split. left. exists f. auto.
    + unfold uuid4, utcnow. simpl. rewrite users_insert_one_eq. simpl.
      destruct (db_down env (S (db_ops w))); [discriminate |].
      unfold ret. intros H. inversion H; subst. simpl.
      repeat split. right. split; [right; eauto |].
      split; [exists (tick_db w); repeat split | reflexivity].
  - unfold uuid4, utcnow. simpl. rewrite users_insert_one_eq. simpl.
    destruct (db_down env (db_ops w)); [discriminate |].
    unfold ret. intros H. inversion H; subst. simpl.
    repeat split. right. split; [left; reflexivity |].
    split; [exists w; repeat split | reflexivity].
Qed.

Lemma head_filter_elem {A} (f : A → bool) (l : list A) (x : A) :
  head (List.filter f l) = Some x → x ∈ l ∧ f x = true.
Proof.
  induction l as [| y l IH]; simpl; [discriminate |].
  destruct (f y) eqn:Hy.
  - simpl. intros H. inversion H; subst. split; [left | exact Hy].
  - intros H. destruct (IH H) as [Hin Hf]. split; [by right | exact Hf].
Qed.




(** X2. A login without the identifier of its role (an unknown user_type,
    or a patient_id or doctor_id that is missing or empty) looks nobody
    up: every such call stores a new user, also when the same login was
    stored before. *)
Theorem X2_login_without_credentials_inserts env login_data w :
  ¬ has_credentials login_data →
  db_up env w 1 →
  ∃ r w',
    login env login_data w = (Ok r, w')
    ∧ LoginResponse.user r = new_user env login_data w
    ∧ users w' = users w ++ [LoginResponse.user r]
    ∧ db_ops w' = S (db_ops w).
Proof.
  intros Hcred Hup. pose proof (db_up_0 _ _ _ Hup) as H0.
  assert (Hf : login_filter login_data = None).
  { destruct (login_filter login_data) eqn:Hf; [| reflexivity].
    exfalso. apply Hcred. apply login_filter_credentials. eauto. }
  unfold login, bind. rewrite get_user_by_login_eq, Hf.
  unfold uuid4, utcnow. simpl. rewrite users_insert_one_eq. simpl. rewrite H0.
  unfold ret. eexists _, _. split; [reflexivity |]. simpl. repeat split.
Qed.

Lemma X2_login_without_credentials_inserts_witness :
  ∃ r w',
    login env_up guest_login world_empty = (Ok r, w')
    ∧ users w' = users world_empty ++ [LoginResponse.user r].
Proof.
  destruct (X2_login_without_credentials_inserts env_up guest_login world_empty)
    as (r & w' & Hrun & _ & Hw & _).
  - intros [[H _] | [H _]]; discriminate H.
  - intros i Hi. reflexivity.
  - exists r, w'. auto.
Defined.

(** X3. A successful login returns success, the token "user_" followed by
    the id of the user, and a user that is in the store after the call.
    It never changes or removes a stored user (at most one is appended)
    and touches neither the devices nor the sessions. *)
Theorem X3_login_stores_returned_user env login_data w r w' :
  login env login_data w = (Ok r, w') →
  LoginResponse.success r = true
  ∧ LoginResponse.token r = String.append "user_" (User.id (LoginResponse.user r))
  ∧ LoginResponse.user r ∈ users w'
  ∧ (users w' = users w ∨ users w' = users w ++ [LoginResponse.user r])
  ∧ bluetooth_devices w' = bluetooth_devices w
  ∧ usage_sessions w' = usage_sessions w.
Proof.
  intros Hrun. apply login_inv in Hrun as (Hs & Ht & Hd & Hu & Hcase).
  split; [exact Hs |]. split; [exact Ht |].
  destruct Hcase as [(f & _ & Hfound & Hw) | (_ & _ & Hw)].
  - apply head_filter_elem in Hfound as [Hin _]. rewrite Hw. auto.
  - rewrite Hw. split; [apply elem_of_app; right; left |]. auto.
Qed.

Lemma X3_login_stores_returned_user_witness :
  ∃ r w',
    login env_up ann_login world_registered = (Ok r, w')
    ∧ LoginResponse.user r ∈ users w'
    ∧ LoginResponse.token r = "user_u-ann".
Proof.
  destruct (login env_up ann_login world_registered) as [[r | e] w'] eqn:Hrun;
    [| vm_compute in Hrun; discriminate].
  destruct (X3_login_stores_returned_user env_up ann_login world_registered r w' Hrun)
    as (_ & Ht & Hin & _).
  exists r, w'. split; [reflexivity |]. split; [exact Hin |].
  rewrite Ht. vm_compute in Hrun. inversion Hrun; subst. reflexivity.
Defined.

(** ** Device registry and the recorder's side effects *)

Lemma bluetooth_devices_find_eq env flt n w :
  bluetooth_devices_find env flt n w =
  if db_down env (db_ops w) then (Raise ServerSelectionTimeoutError, tick_db w)
  else (Ok (take n (List.filter flt (bluetooth_devices w))), tick_db w).
Proof.
  unfold bluetooth_devices_find, bind, db_roundtrip, read_world, ret.
  destruct (db_down env (db_ops w)); reflexivity.
Qed.

Lemma bluetooth_devices_insert_one_eq env doc w :
  bluetooth_devices_insert_one env doc w =
  if db_down env (db_ops w) then (Raise ServerSelectionTimeoutError, tick_db w)
  else (Ok tt,
        mkWorld (users w) (bluetooth_devices w ++ [doc]) (usage_sessions w)
          (active_connections w) (sent_messages w)
          (clock_reads w) (uuid_draws w) (S (db_ops w))).
Proof.
  unfold bluetooth_devices_insert_one, bind, db_roundtrip, read_world,
    set_bluetooth_devices.
  destruct (db_down env (db_ops w)); reflexivity.
Qed.

Lemma add_patient_device_inv env patient_id device_data w d w' :
  add_patient_device env patient_id device_data w = (Ok d, w') →
  d = registered_device env patient_id device_data w
  ∧ bluetooth_devices w' = bluetooth_devices w ++ [d]
  ∧ users w' = users w
  ∧ usage_sessions w' = usage_sessions w
  ∧ db_ops w' = S (db_ops w)
  ∧ clock_reads w' = S (S (clock_reads w)).
Proof.
  unfold add_patient_device, bind, uuid4, utcnow. simpl.
  rewrite bluetooth_devices_insert_one_eq. simpl.
  destruct (db_down env (db_ops w)); [discriminate |].
  unfold ret. intros H. inversion H; subst. simpl. repeat split.
Qed.

Lemma add_patient_device_ok env patient_id device_data w :
  db_up env w 1 →
  ∃ w', add_patient_device env patient_id device_data w
        = (Ok (registered_device env patient_id device_data w), w').
Proof.
  intros Hup. pose proof (db_up_0 _ _ _ Hup) as H0.
  unfold add_patient_device, bind, uuid4, utcnow. simpl.
  rewrite bluetooth_devices_insert_one_eq. simpl. rewrite H0.
  unfold ret. eexists. reflexivity.
Qed.



(** X5. The device listing returns at most 100 records, all of the
    patient asked for, in the order of the registry, and writes
    nothing. *)
Theorem X5_device_listing env patient_id w l w' :
  get_patient_devices env patient_id w = (Ok l, w') →
  (length l ≤ 100)%nat
  ∧ Forall (λ d, BluetoothDevice.patient_id d = patient_id) l
  ∧ l `sublist_of` bluetooth_devices w
  ∧ (∀ d, d ∈ bluetooth_devices w → BluetoothDevice.patient_id d = patient_id →
          (length (devices_of patient_id w) ≤ 100)%nat → d ∈ l)
  ∧ bluetooth_devices w' = bluetooth_devices w.
Proof.
  unfold get_patient_devices. rewrite bluetooth_devices_find_eq.
  destruct (db_down env (db_ops w)); [discriminate |].
  intros H. inversion H; subst. clear H. fold (devices_of patient_id w).
  split; [rewrite length_take; lia |]. split; [| split; [| split]].
  - apply Forall_forall. intros d Hd. apply subseteq_take in Hd.
    unfold devices_of in Hd. apply list_elem_of_In, List.filter_In in Hd as [_ Hd].
    apply bool_decide_eq_true in Hd. exact Hd.
  - etransitivity; [apply sublist_take |].
    unfold devices_of. clear. induction (bluetooth_devices w) as [| d l IH]; simpl.
    + constructor.
    + destruct (bool_decide _); [by apply sublist_skip | by apply sublist_cons].
  - intros d Hin Hp Hlen. rewrite take_ge by exact Hlen.
    unfold devices_of. apply list_elem_of_In, List.filter_In.
    split; [apply list_elem_of_In; exact Hin |].
    apply bool_decide_eq_true. exact Hp.
  - reflexivity.
Qed.

Lemma X5_device_listing_witness :
  ∃ l w',
    get_patient_devices env_up "u-ann" world_registered = (Ok l, w')
    ∧ (length l ≤ 100)%nat
    ∧ Forall (λ d, BluetoothDevice.patient_id d = "u-ann") l.
Proof.
  destruct (get_patient_devices env_up "u-ann" world_registered)
    as [[l | e] w'] eqn:Hrun; [| vm_compute in Hrun; discriminate].
  destruct (X5_device_listing env_up "u-ann" world_registered l w' Hrun)
    as (Hlen & Hall & _).
  exists l, w'. auto.
Defined.

(* Every outcome of receive_bluetooth_data whose dates are representable. *)
Lemma receive_bluetooth_data_eq env data w :
  start_time_representable data →
  let session := recorded_session env data w in
  let now := utcnow_at env (S (clock_reads w)) in
  receive_bluetooth_data env data w =
  if db_down env (db_ops w) then
    (Raise ServerSelectionTimeoutError,
     mkWorld (users w) (bluetooth_devices w) (usage_sessions w)
       (active_connections w) (sent_messages w)
       (S (clock_reads w)) (S (uuid_draws w)) (S (db_ops w)))
  else if db_down env (S (db_ops w)) then
    (Raise ServerSelectionTimeoutError,
     mkWorld (users w) (bluetooth_devices w) (usage_sessions w ++ [session])
       (active_connections w) (sent_messages w)
       (S (S (clock_reads w))) (S (uuid_draws w)) (S (S (db_ops w))))
  else
    (Ok session,
     mkWorld (users w)
       (update_first (device_of data) (set_connected now) (bluetooth_devices w))
       (usage_sessions w ++ [session])
       (active_connections w) (sent_messages w ++ published session w)
       (S (S (clock_reads w))) (S (uuid_draws w)) (S (S (db_ops w)))).
Proof.
  intros [Hd Hs] session now.
  unfold receive_bluetooth_data, bind, lift.
  rewrite mk_timedelta_minutes. rewrite decide_True by exact Hd.
  unfold datetime_sub. rewrite decide_True by exact Hs.
  unfold usage_sessions_insert_one, bluetooth_devices_update_one,
    send_personal_message, bind, db_roundtrip, read_world, uuid4, utcnow; simpl.
  destruct (db_down env (db_ops w)); [reflexivity |]. simpl.
  destruct (db_down env (S (db_ops w))); [reflexivity |]. simpl.
  unfold published. simpl.
  destruct (decide (BluetoothData.patient_id data ∈ active_connections w));
    simpl; [reflexivity |]. rewrite app_nil_r. reflexivity.
Qed.





(** X7. A report is not atomic. When the database fails on the registry
    update, the call raises although the session is already stored, and
    nothing is published; when it fails on the insert, nothing is stored.
    In both cases the registry is unchanged. *)
Theorem X7_report_failure_after_insert env data w :
  start_time_representable data →
  (db_down env (db_ops w) = false → db_down env (S (db_ops w)) = true →
   ∃ w', receive_bluetooth_data env data w = (Raise ServerSelectionTimeoutError, w')
         ∧ usage_sessions w' = usage_sessions w ++ [recorded_session env data w]
         ∧ bluetooth_devices w' = bluetooth_devices w
         ∧ sent_messages w' = sent_messages w)
  ∧ (db_down env (db_ops w) = true →
     ∃ w', receive_bluetooth_data env data w = (Raise ServerSelectionTimeoutError, w')
           ∧ usage_sessions w' = usage_sessions w
           ∧ bluetooth_devices w' = bluetooth_devices w
           ∧ sent_messages w' = sent_messages w).
Proof.
  intros Hrep. rewrite (receive_bluetooth_data_eq env data w Hrep). split.
  - intros -> ->. eexists. split; [reflexivity |]. simpl. auto.
  - intros ->. eexists. split; [reflexivity |]. simpl. auto.
Qed.

Lemma X7_report_failure_after_insert_witness :
  ∃ w',
    receive_bluetooth_data env_second_down two_hours world_registered
    = (Raise ServerSelectionTimeoutError, w')
    ∧ usage_sessions w'
      = [recorded_session env_second_down two_hours world_registered].
Proof.
  destruct (X7_report_failure_after_insert env_second_down two_hours world_registered)
    as [H _].
  - unfold start_time_representable, datetime_in_range. simpl. vm_compute.
    repeat split; discriminate.
  - destruct H as (w' & Hrun & Hs & _); [reflexivity | reflexivity |].
    exists w'. split; [exact Hrun | exact Hs].
Defined.

(** X8. A successful report publishes exactly one message, the stored
    session, to the channel of the reporting patient when that patient is
    connected, and nothing otherwise; no other user is sent anything and
    the set of connections is unchanged. *)
Theorem X8_report_published_to_patient env data w session w' :
  receive_bluetooth_data env data w = (Ok session, w') →
  active_connections w' = active_connections w
  ∧ (BluetoothData.patient_id data ∈ active_connections w →
     sent_messages w' = sent_messages w ++ [(BluetoothData.patient_id data, session)])
  ∧ (BluetoothData.patient_id data ∉ active_connections w →
     sent_messages w' = sent_messages w).
Proof.
  intros Hrun.
  pose proof (receive_bluetooth_data_inv _ _ _ _ _ Hrun) as (Hrep & _).
  rewrite (receive_bluetooth_data_eq env data w Hrep) in Hrun.
  destruct (db_down env (db_ops w)); [discriminate |].
  destruct (db_down env (S (db_ops w))); [discriminate |].
  inversion Hrun; subst. simpl. split; [reflexivity |].
  unfold published. simpl.
  destruct (decide (BluetoothData.patient_id data ∈ active_connections w)).
  - split; [reflexivity | tauto].
  - split; [tauto | intros _; apply app_nil_r].
Qed.

Lemma X8_report_published_to_patient_witness :
  ∃ session w',
    receive_bluetooth_data env_up two_hours world_connected = (Ok session, w')
    ∧ sent_messages w' = [("u-ann", session)].
Proof.
  destruct (receive_bluetooth_data env_up two_hours world_connected)
    as [[session | e] w'] eqn:Hrun; [| vm_compute in Hrun; discriminate].
  destruct (X8_report_published_to_patient env_up two_hours world_connected
              session w' Hrun) as (_ & Hsent & _).
  exists session, w'. split; [reflexivity |].
  apply Hsent. simpl. set_solver.
Defined.

(** X9. Registration and report compose: after a device is registered
    for a patient, a successful report with that device id and patient
    leaves in the registry a record of that key marked connected with
    lastConnected = the time of the report. *)
Theorem X9_registered_then_reported env patient_id device_data w d w1 data session w2 :
  add_patient_device env patient_id device_data w = (Ok d, w1) →
  BluetoothData.patient_id data = patient_id →
  BluetoothData.device_id data = BluetoothDevice.device_id d →
  receive_bluetooth_data env data w1 = (Ok session, w2) →
  ∃ d', d' ∈ bluetooth_devices w2
        ∧ connected_record data (utcnow_at env (S (clock_reads w1))) d'.
Proof.
  intros Hadd Hp Hdev Hrun.
  apply add_patient_device_inv in Hadd as (Hd & Hdevs & _).
  apply receive_bluetooth_data_inv in Hrun as (_ & _ & _ & Hw2).
  assert (Hin : d ∈ bluetooth_devices w1).
  { rewrite Hdevs. apply elem_of_app. right. left. }
  assert (Hm : device_of data d = true).
  { unfold device_of. rewrite Hdev, Hp.
    rewrite bool_decide_eq_true_2 by reflexivity.
    rewrite bool_decide_eq_true_2; [reflexivity |]. rewrite Hd. reflexivity. }
  destruct (update_first_some _ (set_connected (utcnow_at env (S (clock_reads w1))))
              _ d Hin Hm) as (d0 & _ & Hm0 & Hu).
  exists (set_connected (utcnow_at env (S (clock_reads w1))) d0).
  split; [rewrite Hw2; exact Hu |].
  unfold device_of in Hm0. apply andb_true_iff in Hm0 as [H1 H2].
  apply bool_decide_eq_true in H1, H2. unfold connected_record. simpl. auto.
Qed.

Lemma X9_registered_then_reported_witness :
  ∃ d w1 session w2 d',
    add_patient_device env_up "u-ann" esp_2 world_no_device = (Ok d, w1)
    ∧ receive_bluetooth_data env_up
        (BluetoothData.mk "u-ann" "esp-2" 45 "night" morning) w1 = (Ok session, w2)
    ∧ d' ∈ bluetooth_devices w2
    ∧ BluetoothDevice.last_connected d' = Some (utcnow_at env_up (S (clock_reads w1))).
Proof.
  destruct (add_patient_device env_up "u-ann" esp_2 world_no_device)
    as [[d | e] w1] eqn:Hadd; [| vm_compute in Hadd; discriminate].
  destruct (receive_bluetooth_data env_up
              (BluetoothData.mk "u-ann" "esp-2" 45 "night" morning) w1)
    as [[session | e] w2] eqn:Hrun.
  - destruct (X9_registered_then_reported env_up "u-ann" esp_2 world_no_device d w1
                (BluetoothData.mk "u-ann" "esp-2" 45 "night" morning) session w2)
      as (d' & Hin & _ & _ & _ & Hlast); try assumption; try reflexivity.
    + vm_compute in Hadd. inversion Hadd; subst. reflexivity.
    + exists d, w1, session, w2, d'. auto.
  - exfalso. vm_compute in Hadd. inversion Hadd; subst.
    vm_compute in Hrun. discriminate.
Defined.

(** ** Usage listing *)

#[global] Instance created_at_ge_trans : Transitive created_at_ge.
Proof. intros a b c. unfold created_at_ge. lia. Qed.

#[global] Instance created_at_ge_total : Total created_at_ge.
Proof. intros a b. unfold created_at_ge. lia. Qed.

Lemma usage_sessions_find_sorted_desc_eq env flt n w :
  usage_sessions_find_sorted_desc env flt n w =
  if db_down env (db_ops w) then (Raise ServerSelectionTimeoutError, tick_db w)
  else (Ok (take n (merge_sort created_at_ge (List.filter flt (usage_sessions w)))),
        tick_db w).
Proof.
  unfold usage_sessions_find_sorted_desc, bind, db_roundtrip, read_world, ret.
  destruct (db_down env (db_ops w)); reflexivity.
Qed.

Lemma get_patient_usage_inv env patient_id days w l w' :
  get_patient_usage env patient_id days w = (Ok l, w') →
  l = take 1000 (merge_sort created_at_ge
                   (usage_window patient_id days (utcnow_at env (clock_reads w)) w))
  ∧ users w' = users w
  ∧ bluetooth_devices w' = bluetooth_devices w
  ∧ usage_sessions w' = usage_sessions w.
Proof.
  unfold get_patient_usage, bind. rewrite utcnow_eq. unfold lift.
  unfold mk_timedelta. rewrite Z.mul_0_l, Z.add_0_r.
  destruct (decide (Z.abs _ ≤ _)); [| discriminate].
  unfold datetime_sub.
  destruct (decide (datetime_in_range _)); [| discriminate].
  rewrite usage_sessions_find_sorted_desc_eq. simpl db_ops.
  destruct (db_down env (db_ops w)); [discriminate |].
  intros H. inversion H; subst. simpl. repeat split.
Qed.

(** X10. The usage listing returns the patient's sessions created since
    now - days, newest first, at most 1000 of them; when more match, the
    ones left out are no newer than any one returned. It writes
    nothing. *)
Theorem X10_usage_newest_first env patient_id days w l w' :
  get_patient_usage env patient_id days w = (Ok l, w') →
  let now := utcnow_at env (clock_reads w) in
  let window := usage_window patient_id days now w in
  StronglySorted created_at_ge l
  ∧ (length l ≤ 1000)%nat
  ∧ (∀ s, s ∈ l →
       s ∈ usage_sessions w
       ∧ DeviceUsageSession.patient_id s = patient_id
       ∧ now - days * us_per_day ≤ DeviceUsageSession.created_at s)
  ∧ (∃ rest,
       window ≡ₚ l ++ rest
       ∧ (∀ s s', s ∈ l → s' ∈ rest →
            DeviceUsageSession.created_at s' ≤ DeviceUsageSession.created_at s)
       ∧ ((length window ≤ 1000)%nat → rest = []))
  ∧ usage_sessions w' = usage_sessions w.
Proof.
  intros Hrun now window.
  apply get_patient_usage_inv in Hrun as (Hl & _ & _ & Hs).
  fold now in Hl. fold window in Hl.
  pose proof (StronglySorted_merge_sort created_at_ge window) as Hsorted.
  pose proof (merge_sort_Permutation created_at_ge window) as Hperm.
  rewrite <- (take_drop 1000 (merge_sort created_at_ge window)) in Hsorted, Hperm.
  rewrite <- Hl in Hsorted, Hperm.
  split; [eapply StronglySorted_app_1_l; exact Hsorted |].
  split; [rewrite Hl, length_take; lia |].
  split; [| split; [| exact Hs]].
  - intros s Hin.
    assert (Hw : s ∈ window).
    { rewrite <- Hperm. apply elem_of_app. by left. }
    unfold window, usage_window in Hw.
    apply list_elem_of_In, List.filter_In in Hw as [Hw Hf].
    unfold since in Hf. apply andb_true_iff in Hf as [Hp Hc].
    apply bool_decide_eq_true in Hp. apply Z.leb_le in Hc.
    split; [apply list_elem_of_In; exact Hw | auto].
  - exists (drop 1000 (merge_sort created_at_ge window)).
    split; [symmetry; exact Hperm |]. split.
    + intros s s' Hin Hin'.
      apply (StronglySorted_app_1_elem_of created_at_ge _ _ s s' Hsorted Hin Hin').
    + intros Hlen. apply drop_ge.
      rewrite (Permutation_length (merge_sort_Permutation created_at_ge window)).
      exact Hlen.
Qed.


Lemma X10_usage_newest_first_witness :
  ∃ l w',
    get_patient_usage env_up "u-ann" 7 world_one_report = (Ok l, w')
    ∧ StronglySorted created_at_ge l
    ∧ (length l ≤ 1000)%nat.
Proof.
  destruct (get_patient_usage env_up "u-ann" 7 world_one_report)
    as [[l | e] w'] eqn:Hrun; [| vm_compute in Hrun; discriminate].
  destruct (X10_usage_newest_first env_up "u-ann" 7 world_one_report l w' Hrun)
    as (Hsorted & Hlen & _).
  exists l, w'. auto.
Defined.


(** ** Bounds of the trend and of the summary *)

Lemma round_half_even_cases (x : Q) :
  round_half_even x = Qfloor x ∨ round_half_even x = Qfloor x + 1.
Proof.
  unfold round_half_even.
  destruct (x - inject_Z (Qfloor x) ?= 1 # 2)%Q; [destruct (Z.even _) | |]; auto.
Qed.

Lemma round_half_even_lower (x : Q) (n : Z) :
  (inject_Z n <= x)%Q → n ≤ round_half_even x.
Proof.
  intros H. apply Qfloor_resp_le in H. rewrite Qfloor_Z in H.
  destruct (round_half_even_cases x) as [-> | ->]; lia.
Qed.

Lemma round_half_even_upper (x : Q) (n : Z) :
  (x <= inject_Z n)%Q → round_half_even x ≤ n.
Proof.
  intros H. pose proof (Qfloor_resp_le _ _ H) as Hf. rewrite Qfloor_Z in Hf.
  destruct (Z.eq_dec (Qfloor x) n) as [Heq | Hne].
  - unfold round_half_even.
    assert (Hx : (x - inject_Z (Qfloor x) <= 0)%Q).
    { rewrite Heq. apply (Qplus_le_l _ _ (inject_Z n)). ring_simplify. exact H. }
    assert (Hlt : (x - inject_Z (Qfloor x) < 1 # 2)%Q).
    { eapply Qle_lt_trans; [exact Hx | reflexivity]. }
    destruct (x - inject_Z (Qfloor x) ?= 1 # 2)%Q eqn:Hc.
    + apply Qeq_alt in Hc. rewrite Hc in Hlt. discriminate Hlt.
    + lia.
    + apply Qgt_alt in Hc. exfalso. apply (Qlt_irrefl (1 # 2)).
      eapply Qlt_trans; [exact Hc | exact Hlt].
  - destruct (round_half_even_cases x) as [-> | ->]; lia.
Qed.

Lemma py_round_1_lower (x : Q) (n : Z) :
  (inject_Z n <= x)%Q → (inject_Z n <= py_round x 1)%Q.
Proof.
  intros H. unfold py_round. change (inject_Z (10 ^ Z.of_nat 1)) with 10%Q.
  apply Qle_shift_div_l; [reflexivity |].
  change 10%Q with (inject_Z 10). rewrite <- inject_Z_mult, <- Zle_Qle.
  apply round_half_even_lower. rewrite inject_Z_mult.
  apply Qmult_le_compat_r; [exact H | discriminate].
Qed.

Lemma py_round_1_upper (x : Q) (n : Z) :
  (x <= inject_Z n)%Q → (py_round x 1 <= inject_Z n)%Q.
Proof.
  intros H. unfold py_round. change (inject_Z (10 ^ Z.of_nat 1)) with 10%Q.
  apply Qle_shift_div_r; [reflexivity |].
  change 10%Q with (inject_Z 10). rewrite <- inject_Z_mult, <- Zle_Qle.
  apply round_half_even_upper. rewrite inject_Z_mult.
  apply Qmult_le_compat_r; [exact H | discriminate].
Qed.

(** X12. The trend has one of the three directions and a percentage that
    is never negative. The dead band shows in the result: a stable trend
    carries at most 10, an increasing or a decreasing one at least 10. *)
Theorem X12_trend_percentage_bounds (last_week_duration prev_week_duration : Z) :
  let trend := classify_trend last_week_duration prev_week_duration in
  (UsageTrend.direction trend = "increasing"
   ∨ UsageTrend.direction trend = "decreasing"
   ∨ UsageTrend.direction trend = "stable")
  ∧ (0 <= UsageTrend.percentage trend)%Q
  ∧ (UsageTrend.direction trend = "stable" → (UsageTrend.percentage trend <= 10)%Q)
  ∧ (UsageTrend.direction trend ≠ "stable" → (10 <= UsageTrend.percentage trend)%Q).
Proof.
  unfold classify_trend.
  destruct (decide (prev_week_duration = 0)) as [Hp | Hp].
  - destruct (decide (last_week_duration > 0)); simpl;
      (split; [auto |]); (split; [discriminate |]); split;
      intros H; try discriminate; try congruence.
  - set (change := (true_div (last_week_duration - prev_week_duration)
                      prev_week_duration * 100)%Q).
    destruct (Qlt_le_dec 10 change) as [Hhi | Hhi];
      [| destruct (Qlt_le_dec change (-10)) as [Hlo | Hlo]]; simpl.
    + assert (H10 : (10 <= py_round change 1)%Q).
      { apply (py_round_1_lower change 10). apply Qlt_le_weak. exact Hhi. }
      split; [auto |]. split; [| split; [discriminate | intros _; exact H10]].
      eapply Qle_trans; [| exact H10]. discriminate.
    + assert (H10 : (10 <= py_round (Qabs change) 1)%Q).
      { apply (py_round_1_lower (Qabs change) 10).
        rewrite Qabs_neg; [| eapply Qle_trans; [apply Qlt_le_weak; exact Hlo | discriminate]].
        apply Qlt_le_weak in Hlo. apply Qopp_le_compat in Hlo. exact Hlo. }
      split; [auto |]. split; [| split; [discriminate | intros _; exact H10]].
      eapply Qle_trans; [| exact H10]. discriminate.
    + split; [auto |]. split; [| split; [| congruence]].
      * apply (py_round_1_lower (Qabs change) 0). apply Qabs_nonneg.
      * intros _. apply (py_round_1_upper (Qabs change) 10).
        apply Qabs_Qle_condition. split; assumption.
Qed.

Lemma X12_trend_percentage_bounds_witness :
  (UsageTrend.percentage (classify_trend 1000 1000) <= 10)%Q
  ∧ (10 <= UsageTrend.percentage (classify_trend 500 1000))%Q.
Proof.
  destruct (X12_trend_percentage_bounds 1000 1000) as (_ & _ & Hstable & _).
  destruct (X12_trend_percentage_bounds 500 1000) as (_ & _ & _ & Hmoving).
  split; [apply Hstable; reflexivity | apply Hmoving; discriminate].
Defined.

Lemma total_duration_of_nonneg (sessions : list DeviceUsageSession.t) :
  Forall (λ s, 0 ≤ DeviceUsageSession.duration_minutes s) sessions →
  0 ≤ total_duration_of sessions.
Proof.
  induction sessions as [| s rest IH]; intros Hall.
  - rewrite total_duration_of_nil. lia.
  - apply Forall_cons in Hall as [Hs Hrest]. rewrite total_duration_of_cons.
    specialize (IH Hrest). lia.
Qed.

(** X13. Whatever is stored, the summary of getCompliance has a
    compliancePercentage of at most 100, an average daily usage that is
    never negative and between 0 and 1000 sessions; when no stored
    session has a negative duration, the total and the
    compliancePercentage are not negative either. *)
Theorem X13_summary_bounds env patient_id w c w' :
  get_patient_compliance env patient_id w = (Ok c, w') →
  (Compliance.compliance_percentage c <= 100)%Q
  ∧ (0 <= Compliance.average_daily_usage c)%Q
  ∧ 0 ≤ Compliance.total_sessions c ≤ 1000
  ∧ (Forall (λ s, 0 ≤ DeviceUsageSession.duration_minutes s) (usage_sessions w) →
     0 ≤ Compliance.total_duration_minutes c
     ∧ (0 <= Compliance.compliance_percentage c)%Q).
Proof.
  intros Hrun. apply get_patient_compliance_inv in Hrun as (user & _ & -> & _).
  simpl. split; [apply py_min_le_l |]. split; [| split].
  - destruct (decide (_ > 0)) as [Hpos | Hneg]; [| discriminate].
    unfold true_div. apply Qle_shift_div_l; [reflexivity |].
    rewrite Qmult_0_l. change 0%Q with (inject_Z 0). rewrite <- Zle_Qle. lia.
  - unfold len, compliance_fetched. rewrite length_take. lia.
  - intros Hall.
    assert (Hf : Forall (λ s, 0 ≤ DeviceUsageSession.duration_minutes s)
                   (compliance_fetched patient_id (utcnow_at env (clock_reads w)) w)).
    { apply Forall_forall. intros s Hs. rewrite Forall_forall in Hall. apply Hall.
      unfold compliance_fetched, compliance_window in Hs. apply subseteq_take in Hs.
      apply list_elem_of_In, List.filter_In in Hs as [Hs _].
      apply list_elem_of_In. exact Hs. }
    apply total_duration_of_nonneg in Hf. split; [exact Hf |].
    rewrite py_min_Qmin. apply Q.min_glb; [discriminate |].
    apply Qmult_le_0_compat; [| discriminate].
    unfold true_div. apply Qle_shift_div_l; [reflexivity |].
    rewrite Qmult_0_l. change 0%Q with (inject_Z 0). rewrite <- Zle_Qle. exact Hf.
Qed.

Lemma X13_summary_bounds_witness :
  ∃ c w',
    get_patient_compliance env_up "u-ann" world_negative = (Ok c, w')
    ∧ (Compliance.compliance_percentage c <= 100)%Q
    ∧ (0 <= Compliance.average_daily_usage c)%Q.
Proof.
  destruct (get_patient_compliance env_up "u-ann" world_negative)
    as [[c | e] w'] eqn:Hrun; [| vm_compute in Hrun; discriminate].
  destruct (X13_summary_bounds env_up "u-ann" world_negative c w' Hrun)
    as (Hpct & Havg & _).
  exists c, w'. auto.
Defined.

(** ** Analytics: what the buckets add up to *)

Lemma py_sum_cons (x : Z) (l : list Z) : py_sum (x :: l) = x + py_sum l.
Proof. unfold py_sum. simpl. rewrite foldl_add_shift. reflexivity. Qed.

Lemma py_sum_perm (l l' : list Z) : l ≡ₚ l' → py_sum l = py_sum l'.
Proof.
  induction 1 as [| x l l' _ IH | x y l | l l' l'' _ IH1 _ IH2].
  - reflexivity.
  - rewrite !py_sum_cons, IH. reflexivity.
  - rewrite !py_sum_cons. lia.
  - congruence.
Qed.

Lemma values_insert_None (m : gmap Z Z) (k v : Z) :
  m !! k = None → py_sum (values (<[k := v]> m)) = v + py_sum (values m).
Proof.
  intros Hk. rewrite <- py_sum_cons. apply py_sum_perm. unfold values.
  change (v :: (map_to_list m).*2) with (((k, v) :: map_to_list m).*2).
  apply fmap_Permutation. apply map_to_list_insert. exact Hk.
Qed.

Lemma values_insert (m : gmap Z Z) (k v : Z) :
  py_sum (values (<[k := v]> m)) = py_sum (values m) - default 0 (m !! k) + v.
Proof.
  destruct (m !! k) as [old |] eqn:Hk; simpl.
  - rewrite <- insert_delete_eq.
    rewrite values_insert_None by apply lookup_delete_eq.
    assert (Hm : py_sum (values m) = old + py_sum (values (delete k m))).
    { rewrite <- py_sum_cons. apply py_sum_perm. unfold values.
      change (old :: (map_to_list (delete k m)).*2)
        with (((k, old) :: map_to_list (delete k m)).*2).
      apply fmap_Permutation. symmetry. apply map_to_list_delete. exact Hk. }
    lia.
  - rewrite values_insert_None by exact Hk. lia.
Qed.

(* daily_usage after the for loop: its values add up to the minutes of
   the sessions, and its keys are the days they were created on. *)
Lemma bucket_sessions_sum sessions : ∀ (du : gmap Z Z) (dn : gmap string Z) du' dn',
  bucket_sessions sessions du dn = Ok (du', dn') →
  py_sum (values du') = py_sum (values du) + total_duration_of sessions
  ∧ dom du' = dom du ∪ creation_days sessions.
Proof.
  induction sessions as [| s rest IH]; intros du dn du' dn' Hrun; simpl in Hrun.
  - inversion Hrun; subst. rewrite total_duration_of_nil.
    split; [lia |]. unfold creation_days. simpl. set_solver.
  - destruct (dn !! DeviceUsageSession.time_of_day s) as [v |]; [| discriminate].
    apply IH in Hrun as [Hsum Hdom].
    rewrite values_insert in Hsum. rewrite total_duration_of_cons.
    split; [lia |]. rewrite Hdom, dom_insert_L.
    unfold creation_days. simpl. set_solver.
Qed.

Lemma creation_days_size (sessions : list DeviceUsageSession.t) :
  (size (creation_days sessions) ≤ length sessions)%nat.
Proof.
  unfold creation_days. induction sessions as [| s rest IH]; cbn [map].
  - rewrite list_to_set_nil, size_empty. lia.
  - rewrite list_to_set_cons, size_union_alt, size_singleton.
    etransitivity; [| apply le_n_S; exact IH].
    apply le_n_S. apply subseteq_size. set_solver.
Qed.

(* day_night_usage after the for loop. *)
Lemma bucket_sessions_day_night sessions :
  ∀ (du : gmap Z Z) (dn : gmap string Z) du' dn',
  bucket_sessions sessions du dn = Ok (du', dn') →
  (∀ k, is_Some (dn' !! k) ↔ is_Some (dn !! k))
  ∧ Forall (λ s, is_Some (dn !! DeviceUsageSession.time_of_day s)) sessions
  ∧ ∀ k, is_Some (dn !! k) →
      dn' !! k
      = Some (default 0 (dn !! k)
              + total_duration_of (List.filter (at_time_of_day k) sessions)).
Proof.
  induction sessions as [| s rest IH]; intros du dn du' dn' Hrun; simpl in Hrun.
  - inversion Hrun; subst. split; [tauto |]. split; [constructor |].
    intros k [v Hv]. rewrite Hv. simpl. rewrite total_duration_of_nil.
    f_equal. lia.
  - destruct (dn !! DeviceUsageSession.time_of_day s) as [v |] eqn:Hv;
      [| discriminate].
    apply IH in Hrun as (Hkeys & Hall & Hval).
    assert (Hsame : ∀ k, is_Some (<[DeviceUsageSession.time_of_day s :=
                                     v + DeviceUsageSession.duration_minutes s]> dn !! k)
                         ↔ is_Some (dn !! k)).
    { intros k. rewrite lookup_insert_is_Some. split.
      - intros [<- | [_ H]]; [eauto | exact H].
      - intros H. destruct (decide (DeviceUsageSession.time_of_day s = k));
          [by left | by right]. }
    split; [intros k; rewrite Hkeys; apply Hsame |]. split.
    + constructor; [eauto |]. eapply Forall_impl; [exact Hall |].
      intros s' Hs'. apply Hsame. exact Hs'.
    + intros k Hk. rewrite (Hval k) by (apply Hsame; exact Hk).
      f_equal. cbn [List.filter].
      destruct (at_time_of_day k s) eqn:Hat; unfold at_time_of_day in Hat.
      * apply bool_decide_eq_true in Hat. subst k.
        rewrite lookup_insert_eq, Hv, total_duration_of_cons. simpl. lia.
      * apply bool_decide_eq_false in Hat.
        rewrite lookup_insert_ne by exact Hat. reflexivity.
Qed.

Lemma total_duration_day_night (sessions : list DeviceUsageSession.t) :
  Forall known_time_of_day sessions →
  total_duration_of (List.filter (at_time_of_day "day") sessions)
  + total_duration_of (List.filter (at_time_of_day "night") sessions)
  = total_duration_of sessions.
Proof.
  induction sessions as [| s rest IH]; intros Hall; [reflexivity |].
  apply Forall_cons in Hall as [Hs Hrest]. specialize (IH Hrest).
  cbn [List.filter]. rewrite (total_duration_of_cons s rest).
  assert (Hd : at_time_of_day "day" s = true ∧ at_time_of_day "night" s = false
               ∨ at_time_of_day "day" s = false ∧ at_time_of_day "night" s = true).
  { unfold at_time_of_day. destruct Hs as [Hs | Hs]; rewrite Hs; [left | right];
      split; reflexivity. }
  destruct Hd as [[-> ->] | [-> ->]]; rewrite total_duration_of_cons; lia.
Qed.

(** X14. When getAnalytics returns, the day/night distribution has
    exactly the keys day and night; the day entry is the sum of the
    minutes of the day sessions read, the night entry that of the night
    sessions, and the two add up to the minutes of all the sessions
    read. *)
Theorem X14_day_night_distribution env patient_id days w a w' :
  get_patient_analytics env patient_id days w = (Ok a, w') →
  let fetched :=
    analytics_fetched patient_id (utcnow_at env (clock_reads w) - days * us_per_day) w in
  let distribution := Analytics.day_night_distribution a in
  day_night_keys distribution
  ∧ distribution !! "day"
    = Some (total_duration_of (List.filter (at_time_of_day "day") fetched))
  ∧ distribution !! "night"
    = Some (total_duration_of (List.filter (at_time_of_day "night") fetched))
  ∧ default 0 (distribution !! "day") + default 0 (distribution !! "night")
    = total_duration_of fetched.
Proof.
  intros Hrun fetched distribution.
  destruct (get_patient_analytics_inv _ _ _ _ _ _ Hrun)
    as (du & dn & keys & Hb & _ & Hdn & _).
  fold fetched in Hb. subst distribution. rewrite Hdn.
  destruct (bucket_sessions_day_night _ _ _ _ _ Hb) as (Hkeys & Hall & Hval).
  assert (Hday : is_Some (day_night_init !! "day"))
    by (apply day_night_keys_init; by left).
  assert (Hnight : is_Some (day_night_init !! "night"))
    by (apply day_night_keys_init; by right).
  assert (Hknown : Forall known_time_of_day fetched).
  { eapply Forall_impl; [exact Hall |]. intros s Hs.
    apply day_night_keys_init. exact Hs. }
  assert (Hd : dn !! "day"
               = Some (total_duration_of (List.filter (at_time_of_day "day") fetched)))
    by (rewrite (Hval "day" Hday); reflexivity).
  assert (Hn : dn !! "night"
               = Some (total_duration_of (List.filter (at_time_of_day "night") fetched)))
    by (rewrite (Hval "night" Hnight); reflexivity).
  split; [| split; [exact Hd | split; [exact Hn |]]].
  - intros k. rewrite Hkeys. apply day_night_keys_init.
  - rewrite Hd, Hn. cbn [default].
    apply (total_duration_day_night fetched Hknown).
Qed.

Lemma X14_day_night_distribution_witness :
  ∃ a w',
    get_patient_analytics env_up "u-ann" 3 world_two_days = (Ok a, w')
    ∧ Analytics.day_night_distribution a !! "day" = Some 90
    ∧ Analytics.day_night_distribution a !! "night" = Some 45.
Proof.
  destruct (get_patient_analytics env_up "u-ann" 3 world_two_days)
    as [[a | e] w'] eqn:Hrun; [| vm_compute in Hrun; discriminate].
  destruct (X14_day_night_distribution env_up "u-ann" 3 world_two_days a w' Hrun)
    as (_ & Hday & Hnight & _).
  exists a, w'. split; [reflexivity |]. split.
  - rewrite Hday. f_equal.
  - rewrite Hnight. f_equal.
Defined.

(** X15. When getAnalytics returns, totalDays is the number of distinct
    calendar days on which the sessions read were created, activeDays is
    between 0 and totalDays, totalDays is at most the number of sessions
    read, and the average daily minutes are the minutes of all the
    sessions read divided by max(totalDays, 1): days of the window
    without a session do not count. *)
Theorem X15_days_and_average env patient_id days w a w' :
  get_patient_analytics env patient_id days w = (Ok a, w') →
  let fetched :=
    analytics_fetched patient_id (utcnow_at env (clock_reads w) - days * us_per_day) w in
  Analytics.total_days a = Z.of_nat (size (creation_days fetched))
  ∧ 0 ≤ Analytics.active_days a ≤ Analytics.total_days a
  ∧ Analytics.total_days a ≤ len fetched
  ∧ Analytics.average_daily_minutes a
    = true_div (total_duration_of fetched) (Z.max (Analytics.total_days a) 1).
Proof.
  intros Hrun fetched.
  destruct (get_patient_analytics_inv _ _ _ _ _ _ Hrun)
    as (du & dn & keys & Hb & _ & _ & Htd & Had & Havg).
  fold fetched in Hb.
  destruct (bucket_sessions_sum _ _ _ _ _ Hb) as [Hsum Hdom].
  assert (Hsize : size du = size (creation_days fetched)).
  { rewrite <- (size_dom du), Hdom, dom_empty_L. f_equal. set_solver. }
  split; [rewrite Htd, Hsize; reflexivity |]. split; [| split].
  - rewrite Had, Htd. unfold len. split; [lia |].
    apply inj_le. etransitivity; [apply List.filter_length_le |].
    unfold values. rewrite length_fmap, length_map_to_list. reflexivity.
  - rewrite Htd, Hsize. unfold len. apply inj_le. apply creation_days_size.
  - rewrite Havg, Htd, Hsum. unfold values at 1.
    rewrite map_to_list_empty. reflexivity.
Qed.

Lemma X15_days_and_average_witness :
  ∃ a w',
    get_patient_analytics env_up "u-ann" 3 world_two_days = (Ok a, w')
    ∧ Analytics.total_days a = 2
    ∧ Analytics.average_daily_minutes a = true_div 135 2.
Proof.
  destruct (get_patient_analytics env_up "u-ann" 3 world_two_days)
    as [[a | e] w'] eqn:Hrun; [| vm_compute in Hrun; discriminate].
  destruct (X15_days_and_average env_up "u-ann" 3 world_two_days a w' Hrun)
    as (Htd & _ & _ & Havg).
  assert (Htd' : Analytics.total_days a = 2).
  { rewrite Htd. vm_compute. reflexivity. }
  exists a, w'. split; [reflexivity |]. split; [exact Htd' |].
  rewrite Havg, Htd'. reflexivity.
Defined.

(** ** Termination and range of the analytics window *)

(** X16. getAnalytics ends on every input: the loop that builds the time
    series never exhausts its counter, because each pass moves the date a
    day towards datetime.max, where the addition raises. A window start
    that is not a representable date is refused with OverflowError before
    any database operation. *)
Theorem X16_analytics_ends env patient_id days w :
  (get_patient_analytics env patient_id days w).1 ≠ Raise OutOfFuel
  ∧ (¬ (Z.abs days ≤ timedelta_max_days
        ∧ datetime_in_range (utcnow_at env (clock_reads w) - days * us_per_day)) →
     get_patient_analytics env patient_id days w = (Raise OverflowError, tick_clock w)).
Proof.
  split; [apply get_patient_analytics_fuel |].
  intros Hbad. unfold get_patient_analytics, bind. rewrite utcnow_eq. unfold lift.
  unfold mk_timedelta. rewrite Z.mul_0_l, Z.add_0_r.
  rewrite Z.div_mul by discriminate.
  destruct (decide (Z.abs days ≤ timedelta_max_days)) as [Hd | Hd]; [| reflexivity].
  unfold datetime_sub.
  destruct (decide (datetime_in_range _)) as [Hr | Hr]; [| reflexivity].
  exfalso. apply Hbad. split; assumption.
Qed.

Lemma X16_analytics_ends_witness :
  get_patient_analytics env_up "u-ann" 800000 world_two_days
  = (Raise OverflowError, tick_clock world_two_days).
Proof.
  destruct (X16_analytics_ends env_up "u-ann" 800000 world_two_days) as [_ H].
  apply H. intros [_ [Hlo _]]. vm_compute in Hlo. apply Hlo. reflexivity.
Defined.

(** ** Roster and login *)

(** X17. The roster has at most 100 entries and each entry is that of a
    stored user of type patient: a doctor never appears. When at most 100
    patients are stored, every one of them has an entry. *)
Theorem X17_roster_lists_patients_only env doctor_id w entries w' :
  get_doctor_patients env doctor_id w = (Ok entries, w') →
  (length entries ≤ 100)%nat
  ∧ (∀ e, e ∈ entries →
       ∃ u, u ∈ users w ∧ User.user_type u = "patient"
            ∧ entry_patient_id e = User.id u)
  ∧ ((length (List.filter (λ u, bool_decide (User.user_type u = "patient")) (users w))
      ≤ 100)%nat →
     ∀ u, u ∈ users w → User.user_type u = "patient" →
          ∃ e, e ∈ entries ∧ entry_patient_id e = User.id u).
Proof.
  unfold get_doctor_patients, bind. rewrite users_find_eq.
  destruct (db_down env (db_ops w)); [discriminate |].
  fold (roster_patients w).
  destruct (roster_loop_spec env (roster_patients w) [] (tick_db w))
    as (entries' & w'' & Hrun & Hlen & Hi).
  rewrite Hrun. simpl. intros H. inversion H; subst. clear H.
  assert (Hpat : ∀ u, u ∈ roster_patients w →
                      u ∈ users w ∧ User.user_type u = "patient").
  { intros u Hu. unfold roster_patients in Hu. apply subseteq_take in Hu.
    apply list_elem_of_In, List.filter_In in Hu as [Hu Ht].
    apply bool_decide_eq_true in Ht. split; [apply list_elem_of_In |]; assumption. }
  split; [| split].
  - rewrite Hlen. unfold roster_patients. rewrite length_take. lia.
  - intros e He. apply list_elem_of_lookup in He as [i He].
    destruct (roster_patients w !! i) as [u |] eqn:Hu.
    + rewrite (Hi i u Hu) in He. inversion He; subst.
      exists u. destruct (Hpat u) as [H1 H2]; [eapply list_elem_of_lookup_2; eauto |].
      split; [exact H1 |]. split; [exact H2 |]. apply roster_entry_patient_id.
    + apply lookup_ge_None in Hu. apply lookup_lt_Some in He. lia.
  - intros Hcount u Hu Ht.
    assert (Hin : u ∈ roster_patients w).
    { unfold roster_patients. rewrite take_ge by exact Hcount.
      apply list_elem_of_In, List.filter_In. split; [apply list_elem_of_In; exact Hu |].
      apply bool_decide_eq_true. exact Ht. }
    apply list_elem_of_lookup in Hin as [i Hiu].
    exists (roster_entry env u (roster_world env (roster_patients w) i (tick_db w))).1.
    split; [eapply list_elem_of_lookup_2; apply Hi; exact Hiu |].
    apply roster_entry_patient_id.
Qed.

Lemma X17_roster_lists_patients_only_witness :
  ∃ entries w',
    get_doctor_patients env_up "u-dee" world_three_patients = (Ok entries, w')
    ∧ (length entries ≤ 100)%nat
    ∧ ∃ e, e ∈ entries ∧ entry_patient_id e = "u-bob".
Proof.
  destruct (get_doctor_patients env_up "u-dee" world_three_patients)
    as [[entries | e] w'] eqn:Hrun; [| vm_compute in Hrun; discriminate].
  destruct (X17_roster_lists_patients_only env_up "u-dee" world_three_patients
              entries w' Hrun) as (Hlen & _ & Hall).
  exists entries, w'. split; [reflexivity |]. split; [exact Hlen |].
  apply (Hall ltac:(simpl; lia) bob); [| reflexivity].
  apply list_elem_of_In. simpl. auto.
Defined.

Lemma calculate_usage_trend_errors env patient_id w e w' :
  calculate_usage_trend env patient_id w = (Raise e, w') →
  e = OverflowError ∨ e = ServerSelectionTimeoutError.
Proof.
  unfold calculate_usage_trend, bind, lift. rewrite utcnow_eq.
  rewrite !mk_timedelta_days_small by (vm_compute; discriminate).
  unfold datetime_sub.
  destruct (decide (datetime_in_range _)); [| intros H; inversion H; auto].
  rewrite usage_sessions_find_eq. simpl.
  destruct (db_down env (db_ops w)); [intros H; inversion H; auto |].
  destruct (decide (datetime_in_range _)); [| intros H; inversion H; auto].
  rewrite usage_sessions_find_eq. simpl.
  destruct (db_down env (S (db_ops w))); [intros H; inversion H; auto |].
  unfold ret. discriminate.
Qed.

(* NotFound is raised only for an identity that does not resolve. *)
Lemma get_patient_compliance_not_found env patient_id w status w' :
  get_patient_compliance env patient_id w = (Raise (HTTPException status), w') →
  resolved patient_id w = None ∧ status = 404.
Proof.
  unfold get_patient_compliance, bind. rewrite users_find_one_eq.
  destruct (db_down env (db_ops w)); [discriminate |].
  fold (resolved patient_id w).
  destruct (resolved patient_id w) as [user |];
    [| unfold raise; intros H; inversion H; auto].
  rewrite utcnow_eq. unfold lift.
  rewrite mk_timedelta_days_small by (vm_compute; discriminate).
  unfold datetime_sub.
  destruct (decide (datetime_in_range _)); [| discriminate].
  rewrite usage_sessions_find_eq. simpl.
  destruct (db_down env (S (db_ops w))); [discriminate |].
  rewrite bluetooth_devices_find_one_eq. simpl.
  destruct (db_down env (S (S (db_ops w)))); [discriminate |].
  match goal with
  | |- context [calculate_usage_trend env patient_id ?W] =>
      destruct (calculate_usage_trend env patient_id W) as [[t | e] w''] eqn:Ht
  end; [unfold ret; discriminate |].
  apply calculate_usage_trend_errors in Ht as [-> | ->]; discriminate.
Qed.

(** X18. Login and summary compose: the identity a successful login
    returns resolves, so getCompliance for its id never fails with
    NotFound; and NotFound (status 404) is raised only for an id that
    no stored user has. *)
Theorem X18_logged_in_user_resolves env login_data w r w1 :
  login env login_data w = (Ok r, w1) →
  let patient_id := User.id (LoginResponse.user r) in
  is_Some (resolved patient_id w1)
  ∧ (∀ status w2,
       get_patient_compliance env patient_id w1 ≠ (Raise (HTTPException status), w2))
  ∧ (∀ other status w2,
       get_patient_compliance env other w1 = (Raise (HTTPException status), w2) →
       status = 404 ∧ ∀ u, u ∈ users w1 → User.id u ≠ other).
Proof.
  intros Hrun patient_id.
  apply login_inv in Hrun as (_ & _ & _ & _ & Hcase).
  assert (Hin : LoginResponse.user r ∈ users w1).
  { destruct Hcase as [(f & _ & Hfound & Hw) | (_ & _ & Hw)]; rewrite Hw.
    - apply head_filter_elem in Hfound as [Hin _]. exact Hin.
    - apply elem_of_app. right. left. }
  assert (Hnone : ∀ pid, resolved pid w1 = None → ∀ u, u ∈ users w1 → User.id u ≠ pid).
  { intros pid Hres u Hu Hid. unfold resolved in Hres.
    assert (Hf : u ∈ List.filter (λ u, bool_decide (User.id u = pid)) (users w1)).
    { apply list_elem_of_In, List.filter_In. split; [apply list_elem_of_In; exact Hu |].
      apply bool_decide_eq_true. exact Hid. }
    destruct (List.filter _ (users w1)); [by apply elem_of_nil in Hf | discriminate]. }
  assert (Hres : is_Some (resolved patient_id w1)).
  { destruct (resolved patient_id w1) eqn:Hres; [eauto |].
    exfalso. apply (Hnone patient_id Hres _ Hin). reflexivity. }
  split; [exact Hres |]. split.
  - intros status w2 H404.
    apply get_patient_compliance_not_found in H404 as [H404 _].
    rewrite H404 in Hres. destruct Hres. discriminate.
  - intros other status w2 H404.
    apply get_patient_compliance_not_found in H404 as [H404 ->].
    split; [reflexivity | apply Hnone; exact H404].
Qed.

Lemma X18_logged_in_user_resolves_witness :
  ∃ r w1,
    login env_up ann_login world_empty = (Ok r, w1)
    ∧ is_Some (resolved (User.id (LoginResponse.user r)) w1).
Proof.
  destruct (login env_up ann_login world_empty) as [[r | e] w1] eqn:Hrun;
    [| vm_compute in Hrun; discriminate].
  destruct (X18_logged_in_user_resolves env_up ann_login world_empty r w1 Hrun)
    as (Hres & _).
  exists r, w1. split; [reflexivity | exact Hres].
Defined.

(** ** The query routes write nothing, also when they fail *)

Lemma read_only_time_series_loop env du : ∀ fuel current acc,
  read_only (time_series_loop env fuel du current acc).
Proof.
  induction fuel as [| fuel IH]; intros current acc; simpl time_series_loop.
  - apply read_only_raise.
  - apply read_only_bind; [apply read_only_utcnow |]. intros now.
    destruct (decide (current ≤ now)); [| apply read_only_ret].
    apply read_only_bind; [apply read_only_lift |]. intros next. apply IH.
Qed.

Lemma read_only_try_except {A} (m h : M A) :
  read_only m → read_only h → read_only (try_except m h).
Proof.
  intros Hm Hh w. unfold try_except. specialize (Hm w).
  destruct (m w) as [[a | e] w1]; simpl in *; [exact Hm |].
  destruct (Hh w1) as (H1 & H2 & H3). destruct Hm as (H4 & H5 & H6).
  rewrite H1, H2, H3. auto.
Qed.

Lemma read_only_roster_loop env : ∀ patients acc,
  read_only (roster_loop env patients acc).
Proof.
  induction patients as [| patient rest IH]; intros acc; simpl roster_loop.
  - apply read_only_ret.
  - apply read_only_bind; [| intros entry; apply IH].
    apply read_only_try_except; [| apply read_only_ret].
    apply read_only_bind; [apply read_only_get_patient_compliance |].
    intros c. apply read_only_ret.
Qed.

(** X19. getAnalytics and the roster write to no collection, whether they
    return or fail: users, devices and sessions are the same after the
    call. *)
Theorem X19_queries_write_nothing env :
  (∀ patient_id days, read_only (get_patient_analytics env patient_id days))
  ∧ (∀ doctor_id, read_only (get_doctor_patients env doctor_id)).
Proof.
  split.
  - intros patient_id days. unfold get_patient_analytics.
    apply read_only_bind; [apply read_only_utcnow |]. intros now.
    apply read_only_bind; [apply read_only_lift |]. intros delta.
    apply read_only_bind; [apply read_only_lift |]. intros start_date.
    apply read_only_bind.
    { intros w. rewrite usage_sessions_find_sorted_eq.
      destruct (db_down env (db_ops w)); simpl; auto. }
    intros sessions.
    apply read_only_bind; [apply read_only_lift |]. intros buckets.
    apply read_only_bind; [apply read_only_time_series_loop |]. intros ts.
    apply read_only_ret.
  - intros doctor_id. unfold get_doctor_patients.
    apply read_only_bind; [| intros patients; apply read_only_roster_loop].
    intros w. rewrite users_find_eq. destruct (db_down env (db_ops w)); simpl; auto.
Qed.

(** ** The connection manager *)

(** X20. One socket per user: a second connection of a user replaces the
    first, so a message to the user goes to the new socket only; and a
    disconnect of the user, as the handler of the old socket issues when
    that socket closes, removes the registration of the new socket too:
    later messages to the user are dropped, without an error. *)
Theorem X20_reconnect_then_disconnect {Message} (m : ConnectionManager.t Message)
    (first second : ConnectionManager.WebSocket) (user_id : string) (message : Message) :
  let reconnected :=
    ConnectionManager.connect second user_id
      (ConnectionManager.connect first user_id m) in
  let closed := ConnectionManager.disconnect user_id reconnected in
  ConnectionManager.delivered
    (ConnectionManager.send_personal_message message user_id reconnected)
  = ConnectionManager.delivered m ++ [(second, message)]
  ∧ ConnectionManager.active_connections closed !! user_id = None
  ∧ ConnectionManager.send_personal_message message user_id closed = closed
  ∧ (∀ other, other ≠ user_id →
       ConnectionManager.active_connections closed !! other
       = ConnectionManager.active_connections m !! other).
Proof.
  intros reconnected closed. subst closed reconnected.
  unfold ConnectionManager.send_personal_message, ConnectionManager.disconnect,
    ConnectionManager.connect. simpl.
  rewrite !lookup_insert_eq. simpl. rewrite lookup_delete_eq.
  repeat split. intros other Hne.
  rewrite lookup_delete_ne by congruence.
  rewrite !lookup_insert_ne by congruence. reflexivity.
Qed.

Lemma receive_loop_json {Message} (echo : Message → Message) (user_id : string)
    (websocket : ConnectionManager.WebSocket) :
  ∀ (messages : list Message) (rest : list (ConnectionManager.frame Message))
    (m : ConnectionManager.t Message),
  ConnectionManager.active_connections m !! user_id = Some websocket →
  ConnectionManager.receive_loop echo user_id
    (map ConnectionManager.Json messages ++ rest) m
  = ConnectionManager.receive_loop echo user_id rest
      (ConnectionManager.mk (ConnectionManager.active_connections m)
         (ConnectionManager.delivered m
          ++ map (λ message, (websocket, echo message)) messages)).
Proof.
  induction messages as [| message messages IH]; intros rest m Hm; simpl.
  - rewrite app_nil_r. destruct m. reflexivity.
  - unfold ConnectionManager.send_personal_message at 1. rewrite Hm.
    rewrite IH by exact Hm. simpl. rewrite <- app_assoc. reflexivity.
Qed.

(** X21. A socket whose frames are all JSON: every frame is echoed back
    on that socket, in the order received, and when the client goes away
    the user is unregistered and the handler ends normally. *)
Theorem X21_websocket_echoes_then_unregisters {Message} (echo : Message → Message)
    (websocket : ConnectionManager.WebSocket) (user_id : string)
    (messages : list Message) (m : ConnectionManager.t Message) :
  let run :=
    ConnectionManager.websocket_endpoint echo websocket user_id
      (map ConnectionManager.Json messages) m in
  run.1 = ConnectionManager.Disconnected
  ∧ ConnectionManager.delivered run.2
    = ConnectionManager.delivered m
      ++ map (λ message, (websocket, echo message)) messages
  ∧ ConnectionManager.active_connections run.2 !! user_id = None
  ∧ (∀ other, other ≠ user_id →
       ConnectionManager.active_connections run.2 !! other
       = ConnectionManager.active_connections m !! other).
Proof.
  intros run. subst run. unfold ConnectionManager.websocket_endpoint.
  rewrite <- (app_nil_r (map ConnectionManager.Json messages)).
  rewrite (receive_loop_json echo user_id websocket)
    by (unfold ConnectionManager.connect; simpl; apply lookup_insert_eq).
  simpl. unfold ConnectionManager.disconnect, ConnectionManager.connect. simpl.
  rewrite lookup_insert_eq. simpl. rewrite lookup_delete_eq.
  repeat split. intros other Hne.
  rewrite lookup_delete_ne by congruence.
  rewrite lookup_insert_ne by congruence. reflexivity.
Qed.

(** X22. A frame that is not JSON ends the handler with the decoding
    error, which the route does not catch: the frames before it were
    echoed, the frames after it are never read, and the user stays
    registered with the socket of the handler that ended. *)
Theorem X22_websocket_bad_frame_leaves_registration {Message}
    (echo : Message → Message) (websocket : ConnectionManager.WebSocket)
    (user_id : string) (before : list Message)
    (after : list (ConnectionManager.frame Message)) (m : ConnectionManager.t Message) :
  let run :=
    ConnectionManager.websocket_endpoint echo websocket user_id
      (map ConnectionManager.Json before ++ ConnectionManager.NotJson :: after) m in
  run.1 = ConnectionManager.JSONDecodeError
  ∧ ConnectionManager.delivered run.2
    = ConnectionManager.delivered m
      ++ map (λ message, (websocket, echo message)) before
  ∧ ConnectionManager.active_connections run.2 !! user_id = Some websocket.
Proof.
  intros run. subst run. unfold ConnectionManager.websocket_endpoint.
  rewrite (receive_loop_json echo user_id websocket)
    by (unfold ConnectionManager.connect; simpl; apply lookup_insert_eq).
  simpl. unfold ConnectionManager.connect. simpl.
  rewrite lookup_insert_eq. repeat split.
Qed.

Lemma X20_reconnect_then_disconnect_witness :
  ConnectionManager.active_connections
    (ConnectionManager.disconnect "u-ann"
       (ConnectionManager.connect 2%nat "u-ann"
          (ConnectionManager.connect 1%nat "u-ann"
             (ConnectionManager.connect 7%nat "u-bob" manager_empty))))
  !! "u-bob" = Some 7%nat.
Proof.
  destruct (X20_reconnect_then_disconnect
              (ConnectionManager.connect 7%nat "u-bob" manager_empty)
              1%nat 2%nat "u-ann" "hello") as (_ & _ & _ & Hother).
  etransitivity; [apply (Hother "u-bob"); discriminate | reflexivity].
Defined.

Lemma X21_websocket_echoes_then_unregisters_witness :
  ConnectionManager.active_connections
    (ConnectionManager.websocket_endpoint echo_text 1%nat "u-ann"
       (map ConnectionManager.Json ["a"; "b"])
       (ConnectionManager.connect 7%nat "u-bob" manager_empty)).2
  !! "u-bob" = Some 7%nat.
Proof.
  destruct (X21_websocket_echoes_then_unregisters echo_text 1%nat "u-ann" ["a"; "b"]
              (ConnectionManager.connect 7%nat "u-bob" manager_empty))
    as (_ & _ & _ & Hother).
  etransitivity; [apply (Hother "u-bob"); discriminate | reflexivity].
Defined.

(** ** Reports and the summary *)

(** X23. What a report changes in the summary depends on the time of
    ingestion, not on the timestamp reported. While the patient has fewer
    than 1000 sessions in the 30-day window, a new report is counted:
    one more session and its minutes more. From 1000 sessions on, the
    query keeps returning the same 1000 sessions and the new report does
    not change the totals. *)
Theorem X23_report_counted_until_cap env data w session w1 c w2 :
  receive_bluetooth_data env data w = (Ok session, w1) →
  get_patient_compliance env (BluetoothData.patient_id data) w1 = (Ok c, w2) →
  let patient_id := BluetoothData.patient_id data in
  let now := utcnow_at env (clock_reads w1) in
  now - 30 * us_per_day ≤ DeviceUsageSession.created_at session →
  ((length (compliance_window patient_id now w) < 1000)%nat →
   Compliance.total_sessions c = len (compliance_window patient_id now w) + 1
   ∧ Compliance.total_duration_minutes c
     = total_duration_of (compliance_window patient_id now w)
       + BluetoothData.usage_duration data)
  ∧ ((1000 ≤ length (compliance_window patient_id now w))%nat →
     Compliance.total_sessions c = 1000
     ∧ Compliance.total_duration_minutes c
       = total_duration_of (compliance_fetched patient_id now w)).
Proof.
  intros Hrec Hrun patient_id now Hin.
  apply receive_bluetooth_data_inv in Hrec as (_ & Hsess & Hstore & _).
  apply get_patient_compliance_inv in Hrun as (user & _ & -> & _). simpl.
  fold patient_id. fold now.
  assert (Hwin : compliance_window patient_id now w1
                 = compliance_window patient_id now w ++ [session]).
  { unfold compliance_window. rewrite Hstore, List.filter_app. simpl.
    assert (Hs : since patient_id (now - 30 * us_per_day) session = true).
    { unfold since. apply andb_true_iff. split.
      - apply bool_decide_eq_true. rewrite Hsess. reflexivity.
      - apply Z.leb_le. exact Hin. }
    rewrite Hs. reflexivity. }
  unfold compliance_fetched. rewrite Hwin. split; intros Hlen.
  - rewrite take_ge by (rewrite length_app; simpl; lia).
    unfold len. rewrite length_app. simpl. split; [lia |].
    unfold total_duration_of, py_sum. rewrite map_app, foldl_app. simpl.
    rewrite Hsess. reflexivity.
  - rewrite take_app_le by exact Hlen. unfold len.
    rewrite length_take_le by exact Hlen. split; reflexivity.
Qed.

Lemma X23_report_counted_until_cap_witness :
  ∃ session w1 c w2,
    receive_bluetooth_data env_up two_hours world_one_report = (Ok session, w1)
    ∧ get_patient_compliance env_up "u-ann" w1 = (Ok c, w2)
    ∧ Compliance.total_sessions c = 2
    ∧ Compliance.total_duration_minutes c = 240.
Proof.
  destruct (receive_bluetooth_data env_up two_hours world_one_report)
    as [[session | e] w1] eqn:Hrec; [| vm_compute in Hrec; discriminate].
  destruct (get_patient_compliance env_up "u-ann" w1) as [[c | e] w2] eqn:Hrun.
  - destruct (X23_report_counted_until_cap env_up two_hours world_one_report
                session w1 c w2 Hrec Hrun) as [Hcount _].
    + vm_compute in Hrec. inversion Hrec; subst. vm_compute. discriminate.
    + exists session, w1, c, w2. split; [reflexivity |]. split; [exact Hrun |].
      destruct Hcount as [Hn Ht].
      * vm_compute in Hrec. inversion Hrec; subst. vm_compute. lia.
      * split; [rewrite Hn | rewrite Ht];
          vm_compute in Hrec; inversion Hrec; subst; reflexivity.
  - exfalso. vm_compute in Hrec. inversion Hrec; subst.
    vm_compute in Hrun. discriminate.
Defined.
